(** * AI image refine-prompt generator: a model of the session store, the
    session panel handlers, the prompt formatter and the base64 helpers.

    Strings are JavaScript strings: finite sequences of UTF-16 code units.
    String literals of the source are written here in UTF-8 and turned into
    code units by [lit]. *)

From Stdlib Require Import String Ascii DecimalString.
From stdpp Require Import base tactics option numbers list.

Local Open Scope N_scope.

(** ** JavaScript strings *)

Abbreviation jsstring := (list N).

Module JS.

(** UTF-8 bytes to UTF-16 code units; a code point above U+FFFF becomes a
    surrogate pair. *)
Fixpoint utf16_of_utf8 (bs : list N) : list N :=
  match bs with
  | [] => []
  | a :: t1 =>
    if a <? 0x80 then a :: utf16_of_utf8 t1 else
    match t1 with
    | [] => []
    | b :: t2 =>
      if a <? 0xE0 then ((a mod 32) * 64 + b mod 64) :: utf16_of_utf8 t2 else
      match t2 with
      | [] => []
      | c :: t3 =>
        if a <? 0xF0
        then ((a mod 16) * 4096 + (b mod 64) * 64 + c mod 64) :: utf16_of_utf8 t3
        else
        match t3 with
        | [] => []
        | d :: t4 =>
          let cp := (a mod 8) * 262144 + (b mod 64) * 4096 + (c mod 64) * 64 + d mod 64 in
          (0xD800 + (cp - 0x10000) / 1024) :: (0xDC00 + (cp - 0x10000) mod 1024)
            :: utf16_of_utf8 t4
        end
      end
    end
  end.

Fixpoint bytes_of_string (s : string) : list N :=
  match s with
  | EmptyString => []
  | String a rest => N_of_ascii a :: bytes_of_string rest
  end.

(** A string literal of the source. *)
Definition lit (s : string) : jsstring := utf16_of_utf8 (bytes_of_string s).

(** ToBoolean on a string: the empty string is the only falsy one. *)
Definition truthy (s : jsstring) : bool :=
  match s with [] => false | _ :: _ => true end.

(** ToBoolean on [string | null | undefined]. *)
Definition truthy_opt (s : option jsstring) : bool :=
  match s with None => false | Some v => truthy v end.

(** [a || b] on strings. *)
Definition or_else (a : option jsstring) (b : jsstring) : jsstring :=
  match a with
  | Some v => if truthy v then v else b
  | None => b
  end.

(** WhiteSpace and LineTerminator code points of ECMAScript, the ones
    [String.prototype.trim] removes. *)
Definition isWhiteSpace (c : N) : bool :=
  ((0x09 <=? c) && (c <=? 0x0D)) || (c =? 0x20) || (c =? 0xA0) || (c =? 0x1680)
  || ((0x2000 <=? c) && (c <=? 0x200A)) || (c =? 0x2028) || (c =? 0x2029)
  || (c =? 0x202F) || (c =? 0x205F) || (c =? 0x3000) || (c =? 0xFEFF).

Fixpoint trimStart (s : jsstring) : jsstring :=
  match s with
  | [] => []
  | c :: rest => if isWhiteSpace c then trimStart rest else s
  end.

Definition trimEnd (s : jsstring) : jsstring := rev (trimStart (rev s)).

Definition trim (s : jsstring) : jsstring := trimEnd (trimStart s).

(** [Array.prototype.join] on an array of strings. *)
Fixpoint join (sep : jsstring) (parts : list jsstring) : jsstring :=
  match parts with
  | [] => []
  | [p] => p
  | p :: rest => p ++ sep ++ join sep rest
  end.

(** Template-literal rendering of a non-negative integer. *)
Definition of_nat (n : nat) : jsstring :=
  lit (NilEmpty.string_of_uint (Nat.to_uint n)).

End JS.

(** ** types.ts *)

Inductive AnalysisOption :=
| CHARACTER_ATTIRE
| CHARACTER_POSE
| CHARACTER_EXPRESSION
| PHOTO_BACKGROUND
| CAMERA_ANGLE
| OTHER.

Global Instance AnalysisOption_eq_dec : EqDecision AnalysisOption.
Proof. solve_decision. Defined.

(** [Array.prototype.includes]. *)
Definition includes (options : list AnalysisOption) (o : AnalysisOption) : bool :=
  bool_decide (o ∈ options).

(** An optional field is [None] when the key is absent. *)
Record ImageAnalysisResult := {
  characterAttire : option jsstring;
  characterPose : option jsstring;
  characterExpression : option jsstring;
  photoBackground : option jsstring;
  cameraAngle : option jsstring;
  otherAnalysis : option jsstring
}.

Record TabContentState := {
  uploadedImage : option jsstring;
  selectedOptions : list AnalysisOption;
  rawAnalysisResult : option ImageAnalysisResult;
  isLoading : bool;
  error : option jsstring;
  otherAnalysisText : jsstring
}.

Record Tab := {
  id : jsstring;
  name : jsstring;
  contentState : TabContentState
}.

(** ** components/PromptOutput.tsx: the prompt formatter *)

Module PromptOutput.

Definition genericPrefix : jsstring := JS.lit "將圖中內容修改為以下描述：".

(** [if (field) descriptionParts.push(field)], under a guard. *)
Definition pushIf (guard : bool) (field : option jsstring)
    (descriptionParts : list jsstring) : list jsstring :=
  if guard && JS.truthy_opt field
  then descriptionParts ++ [default [] field]
  else descriptionParts.

Definition generateFullRefinePrompt (analysisData : option ImageAnalysisResult)
    (options : list AnalysisOption) : jsstring :=
  match analysisData with
  | None => []
  | Some data =>
    let isSingleOptionSelected :=
      bool_decide (length options = 1%nat) && bool_decide (options !! 0%nat ≠ Some OTHER) in
    let isOtherSelectedAlone :=
      bool_decide (length options = 1%nat) && bool_decide (options !! 0%nat = Some OTHER) in
    let isNoOptionSelected := bool_decide (length options = 0%nat) in
    let '(prefix, descriptionParts) :=
      if isSingleOptionSelected then
        match options !! 0%nat with
        | Some CHARACTER_ATTIRE =>
          (JS.lit "把圖中人物的裝束換成", pushIf true (characterAttire data) [])
        | Some CHARACTER_POSE =>
          (JS.lit "把圖中人物的姿勢/動態換成", pushIf true (characterPose data) [])
        | Some CHARACTER_EXPRESSION =>
          (JS.lit "把圖中人物的表情換成", pushIf true (characterExpression data) [])
        | Some PHOTO_BACKGROUND =>
          (JS.lit "把照片背景換成", pushIf true (photoBackground data) [])
        | Some CAMERA_ANGLE =>
          (JS.lit "把圖中鏡頭角度換成", pushIf true (cameraAngle data) [])
        | _ => (genericPrefix, [])
        end
      else if isOtherSelectedAlone then
        (genericPrefix, pushIf true (otherAnalysis data) [])
      else
        let optionsToConsider :=
          if isNoOptionSelected
          then [CHARACTER_ATTIRE; CHARACTER_POSE; CHARACTER_EXPRESSION;
                PHOTO_BACKGROUND; CAMERA_ANGLE]
          else options in
        let parts := pushIf (includes optionsToConsider CHARACTER_ATTIRE) (characterAttire data) [] in
        let parts := pushIf (includes optionsToConsider CHARACTER_POSE) (characterPose data) parts in
        let parts := pushIf (includes optionsToConsider CHARACTER_EXPRESSION) (characterExpression data) parts in
        let parts := pushIf (includes optionsToConsider PHOTO_BACKGROUND) (photoBackground data) parts in
        let parts := pushIf (includes optionsToConsider CAMERA_ANGLE) (cameraAngle data) parts in
        let parts := pushIf (includes optionsToConsider OTHER) (otherAnalysis data) parts in
        (genericPrefix, parts) in
    let combinedDescription :=
      JS.join (JS.lit "。") (filter (λ p, JS.truthy p = true) descriptionParts) in
    prefix ++ JS.lit " " ++ JS.trim combinedDescription
  end.

(** The text of the output box. *)
Definition displayPromptContent (rawAnalysisResult' : option ImageAnalysisResult)
    (isLoading' : bool) (error' : option jsstring)
    (selectedOptions' : list AnalysisOption) : jsstring :=
  if isLoading' then JS.lit "分析中，請稍候..."
  else if JS.truthy_opt error' then JS.lit "錯誤: " ++ default [] error'
  else match rawAnalysisResult' with
       | Some r => generateFullRefinePrompt (Some r) selectedOptions'
       | None => JS.lit "分析結果將在此處顯示..."
       end.

(** Whether the two action buttons (refine, copy) are rendered; the copy
    button writes [displayPromptContent] to the clipboard. *)
Definition showActionButtons (rawAnalysisResult' : option ImageAnalysisResult)
    (isLoading' : bool) (error' : option jsstring) : bool :=
  bool_decide (is_Some rawAnalysisResult') && negb isLoading' && negb (JS.truthy_opt error').

End PromptOutput.

(** ** App.tsx: the session store *)

(** [Partial<TabContentState>]: a field is [None] when the key is absent
    from the object literal. *)
Module Partial.
Record t := {
  uploadedImage : option (option jsstring);
  selectedOptions : option (list AnalysisOption);
  rawAnalysisResult : option (option ImageAnalysisResult);
  isLoading : option bool;
  error : option (option jsstring);
  otherAnalysisText : option jsstring
}.

Definition with_error (e : option jsstring) : t :=
  {| uploadedImage := None; selectedOptions := None; rawAnalysisResult := None;
     isLoading := None; error := Some e; otherAnalysisText := None |}.
End Partial.

(** [{ ...contentState, ...newState }] *)
Definition merge (s : TabContentState) (p : Partial.t) : TabContentState :=
  {| uploadedImage := default (uploadedImage s) (Partial.uploadedImage p);
     selectedOptions := default (selectedOptions s) (Partial.selectedOptions p);
     rawAnalysisResult := default (rawAnalysisResult s) (Partial.rawAnalysisResult p);
     isLoading := default (isLoading s) (Partial.isLoading p);
     error := default (error s) (Partial.error p);
     otherAnalysisText := default (otherAnalysisText s) (Partial.otherAnalysisText p) |}.

Module App.

(** The two [useState] cells of the component. *)
Record State := {
  tabs : list Tab;
  activeTabId : jsstring
}.

(** A state-setter call whose updater makes no further setter call. *)
Inductive Setter :=
| SetTabs (updater : list Tab → list Tab)
| SetActiveTabId (v : jsstring).

(** A setter call as an event handler issues it.  The updater handed to
    [setTabs] may itself call setters while it runs ([deleteTab]'s does). *)
Inductive Call :=
| Plain (s : Setter)
| SetTabsCalling (updater : list Tab → list Tab * list Setter).

(** When React runs the updater of a setter call.  [Queued]: the update is
    put in the queue of the hook and its updater runs during the next render.
    [Eager]: the component has no update pending at the call, and React's
    [dispatchSetState] runs the updater inside the call, on the rendered
    state, and queues the update with the state it computed.  Which of the
    two happens depends on React's bookkeeping of the earlier renders, not on
    the store: it is an input of the model. *)
Inductive Dispatch := Queued | Eager.

Definition applySetter (st : State) (s : Setter) : State :=
  match s with
  | SetTabs updater => {| tabs := updater (tabs st); activeTabId := activeTabId st |}
  | SetActiveTabId v => {| tabs := tabs st; activeTabId := v |}
  end.

(** One call, on the state the calls before it lead to and the setters that
    wait behind them.  An updater that runs during the render ([Queued])
    has the setters it calls queued behind the calls already there, so they
    see the list it returns.  An updater that runs inside [setTabs]
    ([Eager]) has the setters it calls queued before its own update, and
    that update carries the list the updater returned, computed from the
    rendered list: it replaces whatever the setters before it made of the
    list. *)
Definition applyCall (d : Dispatch) (acc : State * list Setter) (c : Call)
    : State * list Setter :=
  match c with
  | Plain s => (applySetter acc.1 s, acc.2)
  | SetTabsCalling updater =>
    let r := updater (tabs acc.1) in
    match d with
    | Queued => ({| tabs := r.1; activeTabId := activeTabId acc.1 |}, acc.2 ++ r.2)
    | Eager =>
      ({| tabs := r.1; activeTabId := activeTabId (foldl applySetter acc.1 r.2) |}, acc.2)
    end
  end.

(** Processing, at the next render, of calls that were all queued.  For
    calls whose updaters call no setter the state is the same when the first
    one ran eagerly. *)
Definition flush (calls : list Call) (st : State) : State :=
  let r := foldl (applyCall Queued) (st, []) calls in
  foldl applySetter r.1 r.2.

(** The calls of one event handler.  Only the first call can find the
    component without a pending update: once an update is queued the later
    ones are queued behind it. *)
Definition dispatch (d : Dispatch) (calls : list Call) (st : State) : State :=
  match d, calls with
  | Eager, c :: rest =>
    let r := foldl (applyCall Queued) (applyCall Eager (st, []) c) rest in
    foldl applySetter r.1 r.2
  | _, _ => flush calls st
  end.

(** [uniqueId] is the value [generateUniqueId()] returns when it is called. *)
Definition createNewTab (name' : jsstring) (id' : option jsstring)
    (uniqueId : jsstring) : Tab :=
  {| id := JS.or_else id' uniqueId;
     name := name';
     contentState :=
       {| uploadedImage := None; selectedOptions := []; rawAnalysisResult := None;
          isLoading := false; error := None; otherAnalysisText := [] |} |}.

(** [tabs_length] is the [tabs.length] the callback closed over. *)
Definition addTab (tabs_length : nat) (uniqueId : jsstring) : list Setter :=
  let newTab :=
    createNewTab (JS.lit "頁籤 " ++ JS.of_nat (tabs_length + 1)) None uniqueId in
  [SetTabs (λ prevTabs, prevTabs ++ [newTab]); SetActiveTabId (id newTab)].

Definition renameTab (id' : jsstring) (newName : jsstring) : list Setter :=
  [SetTabs (λ prevTabs,
     (λ tab, if decide (id tab = id')
             then {| id := id tab; name := newName; contentState := contentState tab |}
             else tab) <$> prevTabs)].

(** [activeTabId'] and [addTab'] are the values the callback closed over. *)
Definition deleteTab (activeTabId' : jsstring) (addTab' : list Setter)
    (id' : jsstring) : list Call :=
  [SetTabsCalling (λ prevTabs,
     let filteredTabs := filter (λ tab, id tab ≠ id') prevTabs in
     if bool_decide (id' = activeTabId') && bool_decide (0 < length filteredTabs)%nat then
       (filteredTabs, from_option (λ first, [SetActiveTabId (id first)]) [] (filteredTabs !! 0%nat))
     else if bool_decide (length filteredTabs = 0%nat) then
       (filteredTabs, addTab')
     else if bool_decide (id' = activeTabId') && bool_decide (length filteredTabs = 0%nat) then
       (filteredTabs, [])
     else
       (filteredTabs, []))].

(** [Array.prototype.splice]: the start index is clamped into the array, a
    negative one counts from the end.  Returns the removed elements and the
    array after the call. *)
Definition spliceStart (start : Z) (len : nat) : nat :=
  if (start <? 0)%Z then Z.to_nat (Z.max (Z.of_nat len + start) 0)
  else Nat.min (Z.to_nat start) len.

Definition splice {A} (start : Z) (deleteCount : nat) (items : list A)
    (array : list A) : list A * list A :=
  let s := spliceStart start (length array) in
  let n := Nat.min deleteCount (length array - s) in
  (take n (drop s array), take s array ++ items ++ drop (s + n) array).

(** The updater of [reorderTabs].  An element of the result is [None] where
    the source stores [undefined] (nothing was removed). *)
Definition reorderTabs (startIndex endIndex : Z) (prevTabs : list Tab)
    : list (option Tab) :=
  let result := Some <$> prevTabs in
  let r1 := splice startIndex 1 [] result in
  let removed := default None (r1.1 !! 0%nat) in
  let r2 := splice endIndex 0 [removed] r1.2 in
  r2.2.

Definition onTabContentStateChange (tabId : jsstring) (newState : Partial.t)
    : list Setter :=
  [SetTabs (λ prevTabs,
     (λ tab, if decide (id tab = tabId)
             then {| id := id tab; name := name tab;
                     contentState := merge (contentState tab) newState |}
             else tab) <$> prevTabs)].

(** State before the first render, and the effect that runs once on mount. *)
Definition init : State := {| tabs := []; activeTabId := [] |}.

Definition mount (uniqueId : jsstring) : State :=
  if bool_decide (length (tabs init) = 0%nat)
  then flush (Plain <$> addTab (length (tabs init)) uniqueId) init
  else init.

(** The create and delete operations, each run against the closures of the
    latest render.  [uniqueId] is what [generateUniqueId()] returns if the
    operation calls it; [d] is how React handles the [setTabs] call of the
    delete. *)
Inductive Op :=
| Create (uniqueId : jsstring)
| Delete (d : Dispatch) (id' : jsstring) (uniqueId : jsstring).

Definition step (st : State) (op : Op) : State :=
  match op with
  | Create uniqueId => flush (Plain <$> addTab (length (tabs st)) uniqueId) st
  | Delete d id' uniqueId =>
    dispatch d (deleteTab (activeTabId st) (addTab (length (tabs st)) uniqueId) id') st
  end.

Definition run (ops : list Op) (st : State) : State := foldl step st ops.

End App.

(** ** components/TabContent.tsx: the session panel *)

Module TabContent.

(** What a handler does to the outside: a call of the [onContentStateChange]
    prop, a call of the analysis client, or a [TypeError] that leaves the
    handler uncaught (the promise an [async] handler returned is rejected). *)
Inductive Effect :=
| OnContentStateChange (tabId : jsstring) (newState : Partial.t)
| AnalyzeImage (image : jsstring) (options : list AnalysisOption)
    (otherText : jsstring) (isDetailedRequest : bool)
| UncaughtTypeError.

(** How the promise of the analysis client settles.  A rejection carries any
    value [e]: of [null] or [undefined] the [catch] block cannot read
    [e.message] ([RejectedNullish]); of any other value it reads the message,
    which may be missing ([Rejected]). *)
Inductive Settled :=
| Resolved (result : ImageAnalysisResult)
| Rejected (message : option jsstring)
| RejectedNullish.

Section Handlers.

Variable tabId : jsstring.
Variable contentState' : TabContentState.
Variable analyzeImage :
  jsstring → list AnalysisOption → jsstring → bool → Settled.

Definition handleImageUpload (base64Image : jsstring) : list Effect :=
  [OnContentStateChange tabId
     {| Partial.uploadedImage := Some (Some base64Image);
        Partial.selectedOptions := None;
        Partial.rawAnalysisResult := Some None;
        Partial.isLoading := None;
        Partial.error := Some None;
        Partial.otherAnalysisText := None |}].

Definition handleOptionChange (options : list AnalysisOption) : list Effect :=
  [OnContentStateChange tabId
     {| Partial.uploadedImage := None;
        Partial.selectedOptions := Some options;
        Partial.rawAnalysisResult := None;
        Partial.isLoading := None;
        Partial.error := None;
        Partial.otherAnalysisText := None |}].

Definition handleOtherAnalysisTextChange (value : jsstring) : list Effect :=
  [OnContentStateChange tabId
     {| Partial.uploadedImage := None;
        Partial.selectedOptions := None;
        Partial.rawAnalysisResult := None;
        Partial.isLoading := None;
        Partial.error := None;
        Partial.otherAnalysisText := Some value |}].

Definition handleSetError (errorMessage : option jsstring) : list Effect :=
  [OnContentStateChange tabId (Partial.with_error errorMessage)].

Definition handleDeleteImage : list Effect :=
  [OnContentStateChange tabId
     {| Partial.uploadedImage := Some None;
        Partial.selectedOptions := None;
        Partial.rawAnalysisResult := Some None;
        Partial.isLoading := None;
        Partial.error := Some None;
        Partial.otherAnalysisText := None |}].

Definition handleAnalyze (isDetailedRequest : bool) : list Effect :=
  match uploadedImage contentState' with
  | Some image =>
    if negb (JS.truthy image) then
      [OnContentStateChange tabId (Partial.with_error (Some (JS.lit "請先上傳圖片。")))]
    else if includes (selectedOptions contentState') OTHER
            && negb (JS.truthy (JS.trim (otherAnalysisText contentState'))) then
      [OnContentStateChange tabId
         (Partial.with_error (Some (JS.lit "當選擇「其他」時，請輸入要分析的特定內容。")))]
    else
      let settled := analyzeImage image (selectedOptions contentState')
                       (otherAnalysisText contentState') isDetailedRequest in
      [OnContentStateChange tabId
         {| Partial.uploadedImage := None;
            Partial.selectedOptions := None;
            Partial.rawAnalysisResult := Some None;
            Partial.isLoading := Some true;
            Partial.error := Some None;
            Partial.otherAnalysisText := None |};
       AnalyzeImage image (selectedOptions contentState')
         (otherAnalysisText contentState') isDetailedRequest]
      (* try / catch *)
      ++ match settled with
         | Resolved result =>
           [OnContentStateChange tabId
              {| Partial.uploadedImage := None;
                 Partial.selectedOptions := None;
                 Partial.rawAnalysisResult := Some (Some result);
                 Partial.isLoading := None;
                 Partial.error := Some None;
                 Partial.otherAnalysisText := None |}]
         | Rejected message =>
           [OnContentStateChange tabId
              (Partial.with_error
                 (Some (JS.or_else message (JS.lit "分析圖片時發生錯誤。"))))]
         | RejectedNullish => []
         end
      (* finally *)
      ++ [OnContentStateChange tabId
            {| Partial.uploadedImage := None;
               Partial.selectedOptions := None;
               Partial.rawAnalysisResult := None;
               Partial.isLoading := Some false;
               Partial.error := None;
               Partial.otherAnalysisText := None |}]
      (* the error thrown inside the catch block leaves the handler *)
      ++ match settled with
         | RejectedNullish => [UncaughtTypeError]
         | _ => []
         end
  | None =>
    [OnContentStateChange tabId (Partial.with_error (Some (JS.lit "請先上傳圖片。")))]
  end.

Definition handleRefineDetailRequest : list Effect := handleAnalyze true.

End Handlers.

(** The store after the effects of a handler: each [onContentStateChange]
    call is [App.onTabContentStateChange]; the analysis client and an
    uncaught error do not touch the store. *)
Definition commit (st : App.State) (e : Effect) : App.State :=
  match e with
  | OnContentStateChange tabId newState =>
    App.flush (App.Plain <$> App.onTabContentStateChange tabId newState) st
  | AnalyzeImage _ _ _ _ => st
  | UncaughtTypeError => st
  end.

Definition commits (effects : list Effect) (st : App.State) : App.State :=
  foldl commit st effects.

(** The calls of the analysis client among the effects. *)
Definition isClientCall (e : Effect) : bool :=
  match e with AnalyzeImage _ _ _ _ => true | _ => false end.

Definition clientCalls (effects : list Effect) : list Effect :=
  filter (λ e, isClientCall e = true) effects.

End TabContent.

(** ** components/DraggableTab.tsx: the rename control of a tab *)

Module DraggableTab.

Inductive Effect :=
| OnRename (id' : jsstring) (newName : jsstring)
| SetIsEditing (v : bool)
| SetNewTabName (v : jsstring).

(** [newTabName] is the text of the input box, [tabName] the prop. *)
Definition handleRenameSubmit (tabId tabName newTabName : jsstring) : list Effect :=
  (if JS.truthy (JS.trim newTabName) && bool_decide (newTabName ≠ tabName)
   then [OnRename tabId (JS.trim newTabName)]
   else [])
  ++ [SetIsEditing false].

(** The store after the effects: [onRename] is [App.renameTab]; the other
    two setters are local to the tab control. *)
Definition commit (st : App.State) (e : Effect) : App.State :=
  match e with
  | OnRename id' newName => App.flush (App.Plain <$> App.renameTab id' newName) st
  | SetIsEditing _ | SetNewTabName _ => st
  end.

Definition commits (effects : list Effect) (st : App.State) : App.State :=
  foldl commit st effects.

End DraggableTab.

(** ** components/ImageUploader.tsx: the image intake widget *)

Module ImageUploader.

(** Calls of the props, of the widget's own state setters and of the
    platform, in the order a handler makes them. *)
Inductive Effect :=
| OnSetError (error' : option jsstring)
| OnImageUpload (base64Image : jsstring)
| OnDeleteImage
| PreventDefault
| StopPropagation
| SetIsProcessingPaste (v : bool)
| SetIsUrlLoading (v : bool)
| SetUrlInput (v : jsstring)
| SetFileInputKey
| SetShowCropper (v : bool)
| SetImageToCropUrl (v : option jsstring)
| ConsoleError.

(** An asynchronous handler: the effects it made, and how it ended, with a
    value or with a thrown [Error] of the given message. *)
Definition M (A : Type) : Type := list Effect * (A + jsstring).

Definition ret {A} (a : A) : M A := ([], inl a).
Definition throw {A} (message : jsstring) : M A := ([], inr message).
Definition emit (e : Effect) : M unit := ([e], inl tt).

Definition bind {A B} (m : M A) (k : A → M B) : M B :=
  match m.2 with
  | inl a => (m.1 ++ (k a).1, (k a).2)
  | inr message => (m.1, inr message)
  end.

Definition tryCatch {A} (m : M A) (handler : jsstring → M A) : M A :=
  match m.2 with
  | inl _ => m
  | inr message => (m.1 ++ (handler message).1, (handler message).2)
  end.

Definition tryFinally {A} (m : M A) (finalizer : M unit) : M A :=
  (m.1 ++ finalizer.1,
   match finalizer.2 with inl _ => m.2 | inr message => inr message end).

Global Instance M_ret : MRet M := @ret.
Global Instance M_bind : MBind M := λ A B k m, bind m k.

(** [String.prototype.startsWith]. *)
Definition startsWith (s searchString : jsstring) : bool :=
  bool_decide (take (length searchString) s = searchString).

Definition isLineTerminator (c : N) : bool :=
  (c =? 0x0A) || (c =? 0x0D) || (c =? 0x2028) || (c =? 0x2029).

(** The pattern of [isValidImageUrl], tried at the start of [s]: a dot, one
    of the seven extensions, then either the end of the string or a question
    mark followed by characters other than line terminators up to the end. *)
Definition imagePatternHere (s : jsstring) : bool :=
  existsb
    (λ ext,
       let head := JS.lit "." ++ JS.lit ext in
       let rest := drop (length head) s in
       startsWith s head
       && (bool_decide (rest = [])
           || (startsWith rest (JS.lit "?")
               && forallb (λ c, negb (isLineTerminator c)) (drop 1 rest))))
    ["jpeg"; "jpg"; "png"; "gif"; "webp"; "bmp"; "svg"]%string.

(** [RegExp.prototype.test]: the pattern is tried at every position. *)
Fixpoint imagePatternTest (s : jsstring) : bool :=
  imagePatternHere s
  || match s with
     | [] => false
     | _ :: rest => imagePatternTest rest
     end.

(** How a [FileReader] ends on a file. *)
Inductive ReadOutcome :=
| LoadedString (result : jsstring)
| LoadedOther
| ReadFailed.

Section Widget.

(** The platform: file objects and their reading, the URL parser (pathname
    and hostname, or nothing when it throws), [toLowerCase], and [fetch]. *)
Variable File : Type.
Variable readAsDataURL : File → ReadOutcome.
Variable URL : jsstring → option (jsstring * jsstring).
Variable toLowerCase : jsstring → jsstring.

Record Response := {
  ok : bool;
  status : nat;
  statusText : jsstring;
  contentType : option jsstring;
  blob : File
}.

Inductive FetchOutcome :=
| FetchRejected (message : jsstring)
| FetchResponse (response : Response).

Variable fetch : jsstring → FetchOutcome.

(** The paste event: the plain text of the clipboard and the first image
    file item, whose [getAsFile()] may give no file. *)
Record ClipboardEvent := {
  clipboardText : jsstring;
  imageFileItem : option (option File)
}.

(** Props and state the handlers close over. *)
Variable imagePreview : option jsstring.
Variable isLoading' : bool.
Variable isProcessingPaste : bool.
Variable isUrlLoading : bool.

Definition currentLoading : bool := isLoading' || isProcessingPaste || isUrlLoading.

Definition processFile (file : File) : M unit :=
  emit (OnSetError None) ;;
  match readAsDataURL file with
  | LoadedString result => emit (OnImageUpload result)
  | LoadedOther => throw (JS.lit "檔案讀取失敗，無法轉換為 Base64。")
  | ReadFailed => throw (JS.lit "檔案讀取失敗。")
  end.

Definition isValidImageUrl (text : jsstring) : bool :=
  match URL text with
  | Some (pathname, hostname) =>
    imagePatternTest (toLowerCase pathname) && bool_decide (0 < length hostname)%nat
  | None => false
  end.

Definition fetchImageFromUrl (url : jsstring) : M unit :=
  emit (OnSetError None) ;;
  tryFinally
    (tryCatch
       (emit (SetIsUrlLoading true) ;;
        response ← match fetch url with
                    | FetchRejected message => throw message
                    | FetchResponse response => ret response
                    end;
        if negb (ok response) then
          throw (JS.lit "無法從 URL 載入圖片：" ++ JS.of_nat (status response)
                 ++ JS.lit " " ++ JS.or_else (Some (statusText response)) (JS.lit "網路錯誤"))
        else if negb (JS.truthy_opt (contentType response))
                || negb (startsWith (default [] (contentType response)) (JS.lit "image/")) then
          throw (JS.lit "URL 指向的不是一個有效的圖片檔案。")
        else
          processFile (blob response) ;;
          emit (SetUrlInput []))
       (λ message,
          emit ConsoleError ;;
          throw (JS.lit "載入圖片失敗: " ++ message ++ JS.lit ".")))
    (emit (SetIsUrlLoading false)).

Definition handlePaste (event : ClipboardEvent) : M unit :=
  emit (OnSetError None) ;;
  emit PreventDefault ;;
  if currentLoading || JS.truthy_opt imagePreview then
    if JS.truthy_opt imagePreview then
      emit (OnSetError (Some (JS.lit "已有圖片上傳，請先刪除現有圖片再貼上新圖片。")))
    else ret tt
  else
    emit (SetIsProcessingPaste true) ;;
    tryFinally
      (tryCatch
         match imageFileItem event with
         | Some item =>
           match item with
           | Some file => processFile file
           | None => throw (JS.lit "無法從剪貼簿獲取圖片檔案。")
           end
         | None =>
           if JS.truthy (clipboardText event) && isValidImageUrl (clipboardText event)
           then fetchImageFromUrl (clipboardText event)
           else emit (OnSetError (Some (JS.lit "剪貼簿中沒有偵測到圖片檔案或有效圖片URL。")))
         end
         (λ message,
            emit (OnSetError (Some (JS.or_else (Some message) (JS.lit "貼上時發生未知錯誤。"))))))
      (emit (SetIsProcessingPaste false)).

Definition handleDeleteImageAndResetInput : M unit :=
  emit StopPropagation ;;
  emit OnDeleteImage ;;
  emit SetFileInputKey ;;
  emit (SetShowCropper false) ;;
  emit (SetImageToCropUrl None).

Definition handleCropComplete (croppedImageBase64 : jsstring) : M unit :=
  emit (OnImageUpload croppedImageBase64) ;;
  emit (SetShowCropper false) ;;
  emit (SetImageToCropUrl None).

(** The text of the URL box. *)
Variable urlInput : jsstring.

Definition handleUrlLoadClick : M unit :=
  if negb (JS.truthy (JS.trim urlInput)) then
    emit (OnSetError (Some (JS.lit "請輸入圖片 URL。")))
  else if negb (isValidImageUrl (JS.trim urlInput)) then
    emit (OnSetError (Some (JS.lit "無效的圖片 URL 格式。請確保它指向一個圖片檔案。")))
  else if currentLoading then ret tt
  else
    tryCatch (fetchImageFromUrl (JS.trim urlInput))
      (λ message,
         emit (OnSetError (Some (JS.or_else (Some message)
                                   (JS.lit "載入 URL 圖片時發生錯誤。"))))).

Definition handleOpenCropper : M unit :=
  emit StopPropagation ;;
  if JS.truthy_opt imagePreview then
    emit (SetImageToCropUrl imagePreview) ;;
    emit (SetShowCropper true) ;;
    emit (OnSetError None)
  else ret tt.

Definition handleCropperClose : M unit :=
  emit (SetShowCropper false) ;;
  emit (SetImageToCropUrl None) ;;
  emit (OnSetError None).

End Widget.

(** The props the session panel passes: [onImageUpload], [onSetError] and
    [onDeleteImage] are the panel's handlers; every other effect stays
    inside the widget. *)
Definition toPanel (tabId : jsstring) (e : Effect) : list TabContent.Effect :=
  match e with
  | OnSetError error' => TabContent.handleSetError tabId error'
  | OnImageUpload base64Image => TabContent.handleImageUpload tabId base64Image
  | OnDeleteImage => TabContent.handleDeleteImage tabId
  | _ => []
  end.

(** The images a run of a handler hands to [onImageUpload]. *)
Definition uploads (effects : list Effect) : list jsstring :=
  omap (λ e, match e with OnImageUpload image => Some image | _ => None end) effects.

(** The store after a handler of the widget of session [tabId] has run. *)
Definition commits {A} (tabId : jsstring) (m : M A) (st : App.State) : App.State :=
  TabContent.commits (m.1 ≫= toPanel tabId) st.

End ImageUploader.

(** ** components/ImageCropperModal.tsx: the confirm action of the cropping tool *)

Module ImageCropperModal.

Inductive Effect :=
| OnSetError (error' : option jsstring)
| OnCropComplete (croppedImageBase64 : jsstring)
| OnClose
| SetIsCropping (v : bool)
| ConsoleError.

Section Modal.

(** JavaScript numbers, with the test [n === 0] and the literal [0]. *)
Variable number : Type.
Variable isZero : number → bool.
Variable zero : number.

Record Area := {
  x : number;
  y : number;
  width : number;
  height : number
}.

(** How the promise of [getCroppedImg] settles: with the data URL of the
    cropped image, or rejected with [e.message], which may be missing. *)
Variable getCroppedImg : jsstring → Area → number → jsstring + option jsstring.

Variable imageSrc : jsstring.
Variable croppedAreaPixels : option Area.

Definition handleCropClick : list Effect :=
  match croppedAreaPixels with
  | Some area =>
    if negb (JS.truthy imageSrc) || isZero (width area) || isZero (height area) then
      [OnSetError (Some (JS.lit "請選擇裁剪區域。"))]
    else
      [SetIsCropping true; OnSetError None]
      ++ match getCroppedImg imageSrc area zero with
         | inl croppedImage => [OnCropComplete croppedImage; OnClose]
         | inr message =>
           [ConsoleError;
            OnSetError (Some (JS.lit "裁剪圖片失敗: "
                              ++ JS.or_else message (JS.lit "未知錯誤")))]
         end
      ++ [SetIsCropping false]
  | None => [OnSetError (Some (JS.lit "請選擇裁剪區域。"))]
  end.

End Modal.

(** The props the image intake widget passes: [onClose] is
    [handleCropperClose], [onCropComplete] is [handleCropComplete], and
    [onSetError] is the widget's own prop. *)
Definition toUploader (e : Effect) : list ImageUploader.Effect :=
  match e with
  | OnSetError error' => [ImageUploader.OnSetError error']
  | OnCropComplete croppedImageBase64 =>
    (ImageUploader.handleCropComplete croppedImageBase64).1
  | OnClose => ImageUploader.handleCropperClose.1
  | SetIsCropping _ | ConsoleError => []
  end.

(** The store after a handler of the cropping tool of session [tabId]. *)
Definition commits (tabId : jsstring) (effects : list Effect) (st : App.State) : App.State :=
  TabContent.commits ((effects ≫= toUploader) ≫= ImageUploader.toPanel tabId) st.

End ImageCropperModal.

(** ** components/AnalysisOptions.tsx *)

Module AnalysisOptions.

Definition isAnalyzeButtonDisabled (isLoading' imageUploaded : bool) : bool :=
  isLoading' || negb imageUploaded.

End AnalysisOptions.

(** ** components/TabbedInterface.tsx: the tab strip *)

Module TabbedInterface.

Inductive Effect :=
| SetDraggingTabId (v : option jsstring)
| ReorderTabs (startIndex endIndex : Z)
| PreventDefault
| SetEffectAllowed
| SetDropEffect
| SetData (id' : jsstring).

(** [Array.prototype.findIndex]: the first index whose element passes, or -1. *)
Fixpoint findIndexFrom {A} (p : A → bool) (l : list A) (i : Z) : Z :=
  match l with
  | [] => (-1)%Z
  | a :: rest => if p a then i else findIndexFrom p rest (i + 1)%Z
  end.

Definition findIndex {A} (p : A → bool) (l : list A) : Z := findIndexFrom p l 0%Z.

(** [Array.prototype.find]. *)
Fixpoint find {A} (p : A → bool) (l : list A) : option A :=
  match l with
  | [] => None
  | a :: rest => if p a then Some a else find p rest
  end.

Section Strip.

Variable tabs' : list Tab.
Variable activeTabId' : jsstring.
Variable draggingTabId : option jsstring.

Definition handleDragStart (id' : jsstring) : list Effect :=
  [SetDraggingTabId (Some id'); SetEffectAllowed; SetData id'].

Definition handleDragOver : list Effect := [PreventDefault; SetDropEffect].

Definition handleDrop (targetId : jsstring) : list Effect :=
  PreventDefault ::
  match draggingTabId with
  | Some dragging =>
    if bool_decide (dragging = targetId) then [SetDraggingTabId None]
    else
      let startIndex := findIndex (λ tab, bool_decide (id tab = dragging)) tabs' in
      let endIndex := findIndex (λ tab, bool_decide (id tab = targetId)) tabs' in
      (if negb (startIndex =? -1)%Z && negb (endIndex =? -1)%Z
       then [ReorderTabs startIndex endIndex] else [])
      ++ [SetDraggingTabId None]
  | None => [SetDraggingTabId None]
  end.

Definition currentTab : option Tab :=
  find (λ tab, bool_decide (id tab = activeTabId')) tabs'.

End Strip.

End TabbedInterface.

(** ** The events of the tab strip and of the session panel, on the store *)

Module Ui.

(** What the user does in the tab strip, on the tab rendered at a position,
    and an [onContentStateChange] call arriving from a session panel (it may
    arrive late, for any id).  [uniqueId] is what [generateUniqueId()]
    returns if the handler calls it; [d] is how React handles the [setTabs]
    call of the delete. *)
Inductive Event :=
| ClickAdd (uniqueId : jsstring)
| ClickTab (i : nat)
| ClickDelete (d : App.Dispatch) (i : nat) (uniqueId : jsstring)
| SubmitRename (i : nat) (newTabName : jsstring)
| Drop (draggingTabId : option jsstring) (i : nat)
| ContentStateChange (tabId : jsstring) (newState : Partial.t).

(** [setTabs] with the updater of [reorderTabs].  The store of this model
    holds no [undefined] slot: a result with one is [None]. *)
Definition reorder (st : App.State) (startIndex endIndex : Z) : option App.State :=
  tabs' ← mapM (λ slot : option Tab, slot) (App.reorderTabs startIndex endIndex (App.tabs st));
  Some {| App.tabs := tabs'; App.activeTabId := App.activeTabId st |}.

Definition dropEffect (st : option App.State) (e : TabbedInterface.Effect)
    : option App.State :=
  match e with
  | TabbedInterface.ReorderTabs startIndex endIndex =>
    st' ← st; reorder st' startIndex endIndex
  | _ => st
  end.

(** One event, handled with the closures of the latest render.  An event on
    a position where no tab is rendered does not occur; the state is left as
    it is. *)
Definition step (st : App.State) (ev : Event) : option App.State :=
  match ev with
  | ClickAdd uniqueId =>
    Some (App.flush (App.Plain <$> App.addTab (length (App.tabs st)) uniqueId) st)
  | ClickTab i =>
    match App.tabs st !! i with
    | Some tab => Some (App.flush [App.Plain (App.SetActiveTabId (id tab))] st)
    | None => Some st
    end
  | ClickDelete d i uniqueId =>
    match App.tabs st !! i with
    | Some tab =>
      Some (App.dispatch d
              (App.deleteTab (App.activeTabId st)
                 (App.addTab (length (App.tabs st)) uniqueId) (id tab)) st)
    | None => Some st
    end
  | SubmitRename i newTabName =>
    match App.tabs st !! i with
    | Some tab =>
      Some (DraggableTab.commits
              (DraggableTab.handleRenameSubmit (id tab) (name tab) newTabName) st)
    | None => Some st
    end
  | Drop draggingTabId i =>
    match App.tabs st !! i with
    | Some tab =>
      foldl dropEffect (Some st)
        (TabbedInterface.handleDrop (App.tabs st) draggingTabId (id tab))
    | None => Some st
    end
  | ContentStateChange tabId newState =>
    Some (App.flush (App.Plain <$> App.onTabContentStateChange tabId newState) st)
  end.

Fixpoint run (events : list Event) (st : App.State) : option App.State :=
  match events with
  | [] => Some st
  | ev :: rest => st' ← step st ev; run rest st'
  end.

End Ui.

(** ** The platform's [btoa] and [atob] (HTML standard; forgiving-base64 of
    the Infra standard, alphabet of RFC 4648) *)

Module Base64.

Definition alphabet : jsstring :=
  JS.lit "ABCDEFGHIJKLMNOPQRSTUVWXYZabcdefghijklmnopqrstuvwxyz0123456789+/".

Definition pad : N := 0x3D.

(** The character of a 6-bit value. *)
Definition toChar (n : N) : N := default 0 (alphabet !! N.to_nat n).

(** The 6-bit value of a character of the alphabet. *)
Definition ofChar (c : N) : option N :=
  if (0x41 <=? c) && (c <=? 0x5A) then Some (c - 0x41)
  else if (0x61 <=? c) && (c <=? 0x7A) then Some (c - 0x61 + 26)
  else if (0x30 <=? c) && (c <=? 0x39) then Some (c - 0x30 + 52)
  else if c =? 0x2B then Some 62
  else if c =? 0x2F then Some 63
  else None.

(** Base64 with padding: three bytes give four characters. *)
Fixpoint encodeBytes (bytes : list N) : jsstring :=
  match bytes with
  | [] => []
  | [a] => [toChar (a / 4); toChar ((a mod 4) * 16); pad; pad]
  | [a; b] =>
    [toChar (a / 4); toChar ((a mod 4) * 16 + b / 16); toChar ((b mod 16) * 4); pad]
  | a :: b :: c :: rest =>
    toChar (a / 4) :: toChar ((a mod 4) * 16 + b / 16)
      :: toChar ((b mod 16) * 4 + c / 64) :: toChar (c mod 64)
      :: encodeBytes rest
  end.

(** [btoa]: throws (here [None]) when a code unit is above U+00FF. *)
Definition btoa (data : jsstring) : option jsstring :=
  if forallb (λ c, c <=? 0xFF) data then Some (encodeBytes data) else None.

Definition isAsciiWhitespace (c : N) : bool :=
  (c =? 0x09) || (c =? 0x0A) || (c =? 0x0C) || (c =? 0x0D) || (c =? 0x20).

(** Removal of one or two [=] at the end. *)
Definition stripPadding (data : jsstring) : jsstring :=
  match rev data with
  | c1 :: rest1 =>
    if c1 =? pad then
      match rest1 with
      | c2 :: rest2 => if c2 =? pad then rev rest2 else rev rest1
      | [] => rev rest1
      end
    else data
  | [] => data
  end.

(** The bit buffer of the decoder: its value, the number of 6-bit groups it
    holds, and the bytes put out so far. *)
Record Buffer := {
  bits : N;
  groups : nat;
  output : list N
}.

Definition feed (b : Buffer) (n : N) : Buffer :=
  let bits' := bits b * 64 + n in
  if (groups b =? 3)%nat then
    {| bits := 0; groups := 0;
       output := output b ++ [bits' / 65536; (bits' / 256) mod 256; bits' mod 256] |}
  else
    {| bits := bits'; groups := S (groups b); output := output b |}.

(** What is left in the buffer at the end: 12 bits give one byte, 18 bits
    give two, the low 4 or 2 bits being dropped. *)
Definition finish (b : Buffer) : list N :=
  if (groups b =? 2)%nat then output b ++ [bits b / 16]
  else if (groups b =? 3)%nat
       then output b ++ [(bits b / 4) / 256; (bits b / 4) mod 256]
  else output b.

(** [atob]: throws (here [None]) when the data is not forgiving-base64. *)
Definition atob (data : jsstring) : option jsstring :=
  let data := filter (λ c, isAsciiWhitespace c = false) data in
  let data :=
    if bool_decide (length data mod 4 = 0)%nat then stripPadding data else data in
  if bool_decide (length data mod 4 = 1)%nat then None
  else
    sextets ← mapM ofChar data;
    Some (finish (foldl feed {| bits := 0; groups := 0; output := [] |} sextets)).

End Base64.

(** ** types.ts: [encode] and [decode] *)

(** A [Uint8Array] is the list of its elements.  [String.fromCharCode]
    keeps the low 16 bits of its argument, a store into a [Uint8Array] the
    low 8 bits. *)
Definition encode (bytes : list N) : option jsstring :=
  let binary := foldl (λ binary b, binary ++ [b mod 65536]) [] bytes in
  Base64.btoa binary.

Definition decode (base64 : jsstring) : option (list N) :=
  match Base64.atob base64 with
  | Some binaryString => Some ((λ c, c mod 256) <$> binaryString)
  | None => None
  end.

(** ** Vocabulary of the statements *)

(** A string with no white space at either end. *)
Definition startsClean (s : jsstring) : bool :=
  match s with [] => true | c :: _ => negb (JS.isWhiteSpace c) end.

Definition trimmed (s : jsstring) : bool := startsClean s && startsClean (rev s).

(** A string of white space only. *)
Definition blank (s : jsstring) : bool := forallb JS.isWhiteSpace s.

Definition fullWidthPeriod : jsstring := JS.lit "。".
Definition space : jsstring := JS.lit " ".

(** The attributes in their fixed order, and the field of each. *)
Definition fixedOrder : list AnalysisOption :=
  [CHARACTER_ATTIRE; CHARACTER_POSE; CHARACTER_EXPRESSION; PHOTO_BACKGROUND;
   CAMERA_ANGLE; OTHER].

Definition description (o : AnalysisOption) (r : ImageAnalysisResult) : option jsstring :=
  match o with
  | CHARACTER_ATTIRE => characterAttire r
  | CHARACTER_POSE => characterPose r
  | CHARACTER_EXPRESSION => characterExpression r
  | PHOTO_BACKGROUND => photoBackground r
  | CAMERA_ANGLE => cameraAngle r
  | OTHER => otherAnalysis r
  end.

(** An attribute counts as selected when it is in the list, or when the
    list is empty and the attribute is one of the five standard ones. *)
Definition selected (options : list AnalysisOption) (o : AnalysisOption) : bool :=
  match options with
  | [] => bool_decide (o ≠ OTHER)
  | _ :: _ => includes options o
  end.

(** The descriptions of the selected attributes that are present and pass
    [keep], in the fixed order. *)
Definition descriptions (keep : jsstring → bool) (r : ImageAnalysisResult)
    (options : list AnalysisOption) : list jsstring :=
  fixedOrder ≫= λ o,
    match description o r with
    | Some d => if selected options o && keep d then [d] else []
    | None => []
    end.

(** The instruction phrase of each attribute. *)
Definition instruction (o : AnalysisOption) : jsstring :=
  match o with
  | CHARACTER_ATTIRE => JS.lit "把圖中人物的裝束換成"
  | CHARACTER_POSE => JS.lit "把圖中人物的姿勢/動態換成"
  | CHARACTER_EXPRESSION => JS.lit "把圖中人物的表情換成"
  | PHOTO_BACKGROUND => JS.lit "把照片背景換成"
  | CAMERA_ANGLE => JS.lit "把圖中鏡頭角度換成"
  | OTHER => PromptOutput.genericPrefix
  end.

(** A result with the given attire and pose and nothing else. *)
Definition attireAndPose (attire pose : option jsstring) : ImageAnalysisResult :=
  {| characterAttire := attire; characterPose := pose; characterExpression := None;
     photoBackground := None; cameraAngle := None; otherAnalysis := None |}.

(** The session stored at position [i] of a store has the given id. *)
Definition sessionAt (st : App.State) (i : nat) (tabId : jsstring) (tab : Tab) : Prop :=
  App.tabs st !! i = Some tab ∧ id tab = tabId.

(** The tab [addTab] creates when it runs against the closures of [st]. *)
Definition newTabFor (st : App.State) (uniqueId : jsstring) : Tab :=
  App.createNewTab (JS.lit "頁籤 " ++ JS.of_nat (length (App.tabs st) + 1)) None uniqueId.

(** The sessions left when the ones of id [id'] are removed. *)
Definition remaining (id' : jsstring) (tabs : list Tab) : list Tab :=
  filter (λ tab, id tab ≠ id') tabs.

(** The store has an active session. *)
Definition hasActive (st : App.State) : Prop :=
  App.activeTabId st ∈ id <$> App.tabs st.

(** The store's rename, as one operation on the store. *)
Definition rename (id' newName : jsstring) (st : App.State) : App.State :=
  App.flush (App.Plain <$> App.renameTab id' newName) st.

(** A session with the content state replaced. *)
Definition withContent (tab : Tab) (c : TabContentState) : Tab :=
  {| id := id tab; name := name tab; contentState := c |}.

(** A content state with the error message replaced. *)
Definition withError (c : TabContentState) (e : option jsstring) : TabContentState :=
  {| uploadedImage := uploadedImage c; selectedOptions := selectedOptions c;
     rawAnalysisResult := rawAnalysisResult c; isLoading := isLoading c;
     error := e; otherAnalysisText := otherAnalysisText c |}.

(** A content state with the image replaced and the analysis result and the
    error cleared. *)
Definition withImageCleared (c : TabContentState) (image : option jsstring)
    : TabContentState :=
  {| uploadedImage := image; selectedOptions := selectedOptions c;
     rawAnalysisResult := None; isLoading := isLoading c;
     error := None; otherAnalysisText := otherAnalysisText c |}.

Definition otherNeedsText : jsstring := JS.lit "當選擇「其他」時，請輸入要分析的特定內容。".
Definition imageAlreadyThere : jsstring :=
  JS.lit "已有圖片上傳，請先刪除現有圖片再貼上新圖片。".

(** A store with one session that holds an image, an analysis result and an
    error message, has 'other' selected and a free text of one space. *)
Definition busySession : Tab :=
  {| id := JS.lit "a"; name := JS.lit "頁籤 1";
     contentState :=
       {| uploadedImage := Some (JS.lit "data:image/png;base64,AAAA");
          selectedOptions := [CHARACTER_POSE; OTHER];
          rawAnalysisResult := Some (attireAndPose None (Some (JS.lit "arms crossed")));
          isLoading := false;
          error := Some (JS.lit "old message");
          otherAnalysisText := JS.lit " " |} |}.

Definition busyStore : App.State :=
  {| App.tabs := [busySession]; App.activeTabId := JS.lit "a" |}.

(** The 6-bit values and the padding that [Base64.encodeBytes] writes. *)
Fixpoint sextetsOf (bytes : list N) : list N :=
  match bytes with
  | [] => []
  | [a] => [a / 4; (a mod 4) * 16]
  | [a; b] => [a / 4; (a mod 4) * 16 + b / 16; (b mod 16) * 4]
  | a :: b :: c :: rest =>
    a / 4 :: (a mod 4) * 16 + b / 16 :: (b mod 16) * 4 + c / 64 :: c mod 64
      :: sextetsOf rest
  end.

Fixpoint paddingOf (bytes : list N) : jsstring :=
  match bytes with
  | [] => []
  | [_] => [Base64.pad; Base64.pad]
  | [_; _] => [Base64.pad]
  | _ :: _ :: _ :: rest => paddingOf rest
  end.

(** The ids of the sessions of a store, in order. *)
Definition ids (st : App.State) : list jsstring := id <$> App.tabs st.

(** The store holds no session, or it has an active one. *)
Definition emptyOrActive (st : App.State) : Prop := App.tabs st = [] ∨ hasActive st.

(** An operation, or an event, that is not a delete React handles eagerly. *)
Definition queuedOp (op : App.Op) : Prop :=
  match op with App.Delete App.Eager _ _ => False | _ => True end.

Definition queuedEvent (ev : Ui.Event) : Prop :=
  match ev with Ui.ClickDelete App.Eager _ _ => False | _ => True end.

(** The texts the output box shows when it does not show a prompt. *)
Definition loadingText : jsstring := JS.lit "分析中，請稍候...".
Definition placeholderText : jsstring := JS.lit "分析結果將在此處顯示...".
Definition errorLabel : jsstring := JS.lit "錯誤: ".

(** The five standard options. *)
Definition standardOptions : list AnalysisOption :=
  [CHARACTER_ATTIRE; CHARACTER_POSE; CHARACTER_EXPRESSION; PHOTO_BACKGROUND; CAMERA_ANGLE].

(** The id an event may give to a new session is not in use.  A delete
    creates a session only when no other is left, so only an add matters. *)
Definition freshFor (st : App.State) (ev : Ui.Event) : Prop :=
  match ev with
  | Ui.ClickAdd uniqueId => uniqueId ∉ ids st
  | _ => True
  end.

Definition uploadFirst : jsstring := JS.lit "請先上傳圖片。".
Definition analysisFailed : jsstring := JS.lit "分析圖片時發生錯誤。".

(** The content state of a session after an analysis that went to the
    client: the result on success, the message on a failure that has one to
    read, and neither result nor message on a failure with [null] or
    [undefined]. *)
Definition analysed (c : TabContentState) (settled : TabContent.Settled) : TabContentState :=
  match settled with
  | TabContent.Resolved result =>
    {| uploadedImage := uploadedImage c; selectedOptions := selectedOptions c;
       rawAnalysisResult := Some result; isLoading := false;
       error := None; otherAnalysisText := otherAnalysisText c |}
  | TabContent.Rejected message =>
    {| uploadedImage := uploadedImage c; selectedOptions := selectedOptions c;
       rawAnalysisResult := None; isLoading := false;
       error := Some (JS.or_else message analysisFailed);
       otherAnalysisText := otherAnalysisText c |}
  | TabContent.RejectedNullish =>
    {| uploadedImage := uploadedImage c; selectedOptions := selectedOptions c;
       rawAnalysisResult := None; isLoading := false;
       error := None; otherAnalysisText := otherAnalysisText c |}
  end.

(** A store with one session that holds an image and has attire selected. *)
Definition readySession : Tab :=
  {| id := JS.lit "a"; name := JS.lit "頁籤 1";
     contentState :=
       {| uploadedImage := Some (JS.lit "data:image/png;base64,AAAA");
          selectedOptions := [CHARACTER_ATTIRE];
          rawAnalysisResult := None;
          isLoading := false;
          error := None;
          otherAnalysisText := [] |} |}.

Definition readyStore : App.State :=
  {| App.tabs := [readySession]; App.activeTabId := JS.lit "a" |}.

Definition enterUrl : jsstring := JS.lit "請輸入圖片 URL。".
Definition invalidUrl : jsstring := JS.lit "無效的圖片 URL 格式。請確保它指向一個圖片檔案。".
Definition nothingToPaste : jsstring := JS.lit "剪貼簿中沒有偵測到圖片檔案或有效圖片URL。".
Definition selectArea : jsstring := JS.lit "請選擇裁剪區域。".
Definition cropFailed : jsstring := JS.lit "裁剪圖片失敗: ".
Definition unknownError : jsstring := JS.lit "未知錯誤".
Definition imageExtensions : list string :=
  ["jpeg"; "jpg"; "png"; "gif"; "webp"; "bmp"; "svg"]%string.

(** The content state of a session after a confirmed crop: the cropped image
    with result and error cleared, or the failure message. *)
Definition cropped (c : TabContentState) (outcome : jsstring + option jsstring)
    : TabContentState :=
  match outcome with
  | inl croppedImage => withImageCleared c (Some croppedImage)
  | inr message => withError c (Some (cropFailed ++ JS.or_else message unknownError))
  end.

(** A platform on which every file reads as the same data URL, no URL
    parses and every fetch is rejected. *)
Definition readsAll (file : unit) : ImageUploader.ReadOutcome :=
  ImageUploader.LoadedString (JS.lit "data:image/png;base64,CCCC").
Definition parsesNone (text : jsstring) : option (jsstring * jsstring) := None.
Definition fetchesNone (url : jsstring) : ImageUploader.FetchOutcome unit :=
  ImageUploader.FetchRejected unit (JS.lit "Failed to fetch").

(** A platform on which the one URL parses and is fetched as a PNG. *)
Definition parsesAll (text : jsstring) : option (jsstring * jsstring) :=
  Some (JS.lit "/a.png", JS.lit "example.org").
Definition fetchesPng (url : jsstring) : ImageUploader.FetchOutcome unit :=
  ImageUploader.FetchResponse unit
    {| ImageUploader.ok := true; ImageUploader.status := 200;
       ImageUploader.statusText := JS.lit "OK";
       ImageUploader.contentType := Some (JS.lit "image/png");
       ImageUploader.blob := tt |}.

(** The values the handlers of the cropping tool give to [setShowCropper],
    in order: the tool closes when one is [false]. *)
Definition cropperShown (effects : list ImageCropperModal.Effect) : list bool :=
  omap (λ e, match e with ImageUploader.SetShowCropper v => Some v | _ => None end)
       (effects ≫= ImageCropperModal.toUploader).

(** A crop function that always succeeds with the same image, over integer
    pixel sizes. *)
Definition cropsAll (imageSrc : jsstring) (area : ImageCropperModal.Area Z) (rotation : Z)
    : jsstring + option jsstring :=
  inl (JS.lit "data:image/jpeg;base64,DDDD").

Definition someArea : ImageCropperModal.Area Z :=
  {| ImageCropperModal.x := 0%Z; ImageCropperModal.y := 0%Z;
     ImageCropperModal.width := 10%Z; ImageCropperModal.height := 20%Z |}.

(** ** The model on concrete inputs *)

Section Examples.

Example lit_code_units :
  JS.lit "a。" = [0x61; 0x3002] ∧ JS.lit "頁籤 1" = [0x9801; 0x7C64; 0x20; 0x31].
Proof. split; vm_compute; reflexivity. Qed.

Example trim_both_ends :
  JS.trim ([0x3000; 0x0A] ++ JS.lit " a b " ++ [0xA0; 0x09]) = JS.lit "a b".
Proof. vm_compute. reflexivity. Qed.

Example join_three :
  JS.join (JS.lit ", ") [JS.lit "x"; JS.lit "y"; JS.lit "z"] = JS.lit "x, y, z".
Proof. vm_compute. reflexivity. Qed.

Example format_other_alone :
  PromptOutput.generateFullRefinePrompt
    (Some {| characterAttire := Some (JS.lit "X"); characterPose := None;
             characterExpression := None; photoBackground := None;
             cameraAngle := None; otherAnalysis := Some (JS.lit "a hat") |})
    [OTHER]
  = JS.lit "將圖中內容修改為以下描述： a hat".
Proof. vm_compute. reflexivity. Qed.

Example format_no_result :
  PromptOutput.generateFullRefinePrompt None [CHARACTER_POSE] = [].
Proof. reflexivity. Qed.

Example mount_then_delete :
  App.run [App.Delete App.Queued (JS.lit "a") (JS.lit "b")] (App.mount (JS.lit "a"))
  = {| App.tabs := [App.createNewTab (JS.lit "頁籤 2") None (JS.lit "b")];
       App.activeTabId := JS.lit "b" |}
  ∧ App.run [App.Delete App.Eager (JS.lit "a") (JS.lit "b")] (App.mount (JS.lit "a"))
    = {| App.tabs := []; App.activeTabId := JS.lit "b" |}.
Proof. split; vm_compute; reflexivity. Qed.

Example reorder_outside :
  App.reorderTabs 5 0 [busySession] = [None; Some busySession]
  ∧ App.reorderTabs (-1) 0 [busySession; newTabFor App.init (JS.lit "b")]
    = [Some (newTabFor App.init (JS.lit "b")); Some busySession].
Proof. split; vm_compute; reflexivity. Qed.

Example image_url_pattern :
  ImageUploader.imagePatternTest (JS.lit "/a/b.png") = true
  ∧ ImageUploader.imagePatternTest (JS.lit "/a/b.png?x=1") = true
  ∧ ImageUploader.imagePatternTest (JS.lit "/a/b.pngx") = false
  ∧ ImageUploader.imagePatternTest (JS.lit "/a/b") = false.
Proof. repeat split; vm_compute; reflexivity. Qed.

Example base64_known :
  encode (JS.lit "Man") = Some (JS.lit "TWFu")
  ∧ encode (JS.lit "Ma") = Some (JS.lit "TWE=")
  ∧ encode [300] = None
  ∧ decode (JS.lit "TQ==") = Some (JS.lit "M")
  ∧ decode (JS.lit " T Q ") = Some (JS.lit "M")
  ∧ decode (JS.lit "TQ=") = None
  ∧ decode (JS.lit "TWFuT") = None.
Proof. repeat split; vm_compute; reflexivity. Qed.

End Examples.

(** ** JavaScript strings: trimming *)

Section Trim.

Lemma trimStart_blank (s : jsstring) : blank s = true → JS.trimStart s = [].
Proof.
  induction s as [|c s IH]; simpl; [done|].
  intros [Hc Hs]%andb_true_iff. rewrite Hc. auto.
Qed.

Lemma trim_blank (s : jsstring) : blank s = true → JS.trim s = [].
Proof.
  intros H. unfold JS.trim, JS.trimEnd. by rewrite (trimStart_blank s H).
Qed.

Lemma trimStart_clean (s : jsstring) : startsClean s = true → JS.trimStart s = s.
Proof.
  destruct s as [|c s]; simpl; [done|].
  intros H. apply negb_true_iff in H. by rewrite H.
Qed.

Lemma trim_trimmed (s : jsstring) : trimmed s = true → JS.trim s = s.
Proof.
  intros [H1 H2]%andb_true_iff. unfold JS.trim, JS.trimEnd.
  rewrite (trimStart_clean s H1), (trimStart_clean _ H2). apply rev_involutive.
Qed.

End Trim.

(** ** The prompt formatter *)

Section Formatter.

Import PromptOutput.

Lemma pushIf_app (guard : bool) (field : option jsstring) (parts : list jsstring) :
  pushIf guard field parts
  = parts ++ match field with
             | Some d => if guard && JS.truthy d then [d] else []
             | None => []
             end.
Proof.
  unfold pushIf. destruct field as [d|]; simpl.
  - destruct (guard && JS.truthy d); [done | by rewrite app_nil_r].
  - rewrite andb_false_r. by rewrite app_nil_r.
Qed.

Lemma filter_truthy_kept (guard : bool) (field : option jsstring) :
  filter (λ p, JS.truthy p = true)
    (match field with
     | Some d => if guard && JS.truthy d then [d] else []
     | None => []
     end)
  = match field with
    | Some d => if guard && JS.truthy d then [d] else []
    | None => []
    end.
Proof.
  destruct field as [d|]; [|done].
  destruct guard; simpl; [|done].
  destruct (JS.truthy d) eqn:E; [|done].
  rewrite filter_cons. rewrite decide_True by done. done.
Qed.

(** The parts the formatter joins when zero or several options are
    selected. *)
Lemma several_parts (r : ImageAnalysisResult) (options considered : list AnalysisOption) :
  (∀ o, includes considered o = selected options o) →
  filter (λ p, JS.truthy p = true)
    (pushIf (includes considered OTHER) (otherAnalysis r)
      (pushIf (includes considered CAMERA_ANGLE) (cameraAngle r)
        (pushIf (includes considered PHOTO_BACKGROUND) (photoBackground r)
          (pushIf (includes considered CHARACTER_EXPRESSION) (characterExpression r)
            (pushIf (includes considered CHARACTER_POSE) (characterPose r)
              (pushIf (includes considered CHARACTER_ATTIRE) (characterAttire r) []))))))
  = descriptions JS.truthy r options.
Proof.
  intros Hsel. rewrite !pushIf_app, !filter_app, !filter_truthy_kept.
  unfold descriptions, fixedOrder. simpl. rewrite !Hsel, app_nil_r.
  by rewrite <- !app_assoc.
Qed.

Lemma format_several (r : ImageAnalysisResult) (options : list AnalysisOption) :
  length options ≠ 1%nat →
  generateFullRefinePrompt (Some r) options
  = genericPrefix ++ space
    ++ JS.trim (JS.join fullWidthPeriod (descriptions JS.truthy r options)).
Proof.
  intros Hlen. unfold generateFullRefinePrompt.
  rewrite (bool_decide_eq_false_2 _ Hlen). cbn [andb].
  destruct options as [|o1 options'] eqn:E.
  - rewrite bool_decide_eq_true_2 by done.
    cbv zeta. rewrite (several_parts r []); [done|].
    intros []; vm_compute; done.
  - rewrite bool_decide_eq_false_2 by done.
    cbv zeta. rewrite (several_parts r (o1 :: options')); [done|done].
Qed.

Lemma format_single (r : ImageAnalysisResult) (o : AnalysisOption) :
  o ≠ OTHER →
  generateFullRefinePrompt (Some r) [o]
  = instruction o ++ space ++ JS.trim (default [] (description o r)).
Proof.
  intros Ho. unfold generateFullRefinePrompt.
  change ([o] !! 0%nat) with (Some o).
  rewrite (bool_decide_eq_true_2 (length [o] = 1%nat)) by done.
  rewrite (bool_decide_eq_true_2 (Some o ≠ Some OTHER)) by congruence.
  cbn [andb].
  destruct o; [.. | by destruct Ho];
    unfold instruction, space, description, pushIf;
    match goal with
    | |- context [JS.truthy_opt ?f] => destruct f as [[|c d]|]
    end; cbn [JS.truthy_opt JS.truthy andb default]; do 3 f_equal.
Qed.

Lemma join_two_trimmed (x y sep : jsstring) :
  JS.truthy x = true → JS.truthy y = true →
  startsClean x = true → startsClean (rev y) = true →
  trimmed (x ++ sep ++ y) = true.
Proof.
  intros Hx Hy Hcx Hcy. unfold trimmed. apply andb_true_iff. split.
  - destruct x; [done|]. exact Hcx.
  - rewrite !rev_app_distr.
    destruct y as [|c y] using rev_ind; [done|].
    rewrite rev_app_distr in Hcy |- *. exact Hcy.
Qed.

Lemma differ (x y : jsstring) : bool_decide (x = y) = false → x ≠ y.
Proof. apply bool_decide_eq_false. Qed.

(** C1 (amended).  When zero or several options are selected, the formatter
    returns the generic prefix, one space, and the descriptions that are
    present, not empty and selected, in the fixed order attire, pose,
    expression, background, camera angle, other, joined by the full-width
    period, with white space trimmed from both ends of the joined text; with
    zero options the five standard attributes count as selected.  Absent
    fields give no segment.  When the joined text has no white space at its
    ends it is returned as it is: for no option and a result with attire X
    and pose Y only, the text after the prefix and the space is X, one
    full-width period, Y. *)
Theorem C1_format_several_or_none :
  (∀ (r : ImageAnalysisResult) (options : list AnalysisOption),
     length options ≠ 1%nat →
     generateFullRefinePrompt (Some r) options
     = genericPrefix ++ space
       ++ JS.trim (JS.join fullWidthPeriod (descriptions JS.truthy r options)))
  ∧ (∀ (r : ImageAnalysisResult) (options : list AnalysisOption),
       length options ≠ 1%nat →
       trimmed (JS.join fullWidthPeriod (descriptions JS.truthy r options)) = true →
       generateFullRefinePrompt (Some r) options
       = genericPrefix ++ space
         ++ JS.join fullWidthPeriod (descriptions JS.truthy r options))
  ∧ (∀ x y : jsstring,
       JS.truthy x = true → JS.truthy y = true →
       startsClean x = true → startsClean (rev y) = true →
       generateFullRefinePrompt (Some (attireAndPose (Some x) (Some y))) []
       = genericPrefix ++ space ++ x ++ fullWidthPeriod ++ y).
Proof.
  split; [exact format_several|]. split.
  - intros r options Hlen Htr. rewrite (format_several r options Hlen).
    by rewrite (trim_trimmed _ Htr).
  - intros x y Hx Hy Hcx Hcy. rewrite format_several by done.
    assert (descriptions JS.truthy (attireAndPose (Some x) (Some y)) [] = [x; y]) as ->.
    { unfold descriptions. simpl. rewrite Hx, Hy. done. }
    cbn [JS.join]. rewrite trim_trimmed; [done|]. by apply join_two_trimmed.
Qed.

Lemma C1_format_several_or_none_witness :
  generateFullRefinePrompt
    (Some (attireAndPose (Some (JS.lit "X")) (Some (JS.lit "Y")))) []
  = genericPrefix ++ space ++ JS.lit "X" ++ fullWidthPeriod ++ JS.lit "Y"
  ∧ generateFullRefinePrompt
      (Some (attireAndPose (Some (JS.lit "an X ")) (Some (JS.lit " a Y")))) [OTHER; CHARACTER_POSE]
    = genericPrefix ++ space ++ JS.lit "a Y"
  ∧ generateFullRefinePrompt
      (Some (attireAndPose (Some (JS.lit "an X")) (Some (JS.lit "a Y"))))
      [CHARACTER_POSE; CHARACTER_ATTIRE]
    = genericPrefix ++ space ++ JS.lit "an X。a Y".
Proof.
  destruct C1_format_several_or_none as (H1 & H2 & H3). split; [|split].
  - apply H3; reflexivity.
  - rewrite H1 by (simpl; lia). vm_compute. reflexivity.
  - rewrite H2; [| simpl; lia | vm_compute; reflexivity]. vm_compute. reflexivity.
Defined.

(** C1 as stated fails: a description that ends in a space is present and
    selected, yet the output does not end with it, whether or not a space is
    read between the prefix and the joined text. *)
Lemma C1_as_stated_fails :
  generateFullRefinePrompt
    (Some (attireAndPose (Some (JS.lit "X")) (Some (JS.lit "Y ")))) []
  ≠ genericPrefix ++ space
    ++ JS.join fullWidthPeriod
         (descriptions (λ _, true) (attireAndPose (Some (JS.lit "X")) (Some (JS.lit "Y "))) [])
  ∧ generateFullRefinePrompt
      (Some (attireAndPose (Some (JS.lit "X")) (Some (JS.lit "Y ")))) []
    ≠ genericPrefix
      ++ JS.join fullWidthPeriod
           (descriptions (λ _, true) (attireAndPose (Some (JS.lit "X")) (Some (JS.lit "Y "))) []).
Proof. split; apply differ; vm_compute; reflexivity. Qed.

(** C2 (amended).  When exactly one option other than 'other' is selected,
    the formatter returns the instruction phrase of that option, one space,
    and the description of that attribute with white space trimmed from both
    ends (nothing after the space when the description is absent or empty);
    a description with no white space at its ends is returned as it is.  For
    options = [attire] and result = {attire: "a red coat"} the output is
    "把圖中人物的裝束換成 a red coat". *)
Theorem C2_format_single :
  (∀ (r : ImageAnalysisResult) (o : AnalysisOption),
     o ≠ OTHER →
     generateFullRefinePrompt (Some r) [o]
     = instruction o ++ space ++ JS.trim (default [] (description o r)))
  ∧ (∀ (r : ImageAnalysisResult) (o : AnalysisOption) (d : jsstring),
       o ≠ OTHER → description o r = Some d → trimmed d = true →
       generateFullRefinePrompt (Some r) [o] = instruction o ++ space ++ d)
  ∧ generateFullRefinePrompt
      (Some (attireAndPose (Some (JS.lit "a red coat")) None)) [CHARACTER_ATTIRE]
    = JS.lit "把圖中人物的裝束換成 a red coat".
Proof.
  split; [exact format_single|]. split.
  - intros r o d Ho Hd Htr. rewrite (format_single r o Ho), Hd. simpl.
    by rewrite (trim_trimmed d Htr).
  - vm_compute. reflexivity.
Qed.

Lemma C2_format_single_witness :
  generateFullRefinePrompt
    (Some (attireAndPose None (Some (JS.lit " arms crossed ")))) [CHARACTER_POSE]
  = JS.lit "把圖中人物的姿勢/動態換成 arms crossed"
  ∧ generateFullRefinePrompt
      (Some (attireAndPose None (Some (JS.lit "arms crossed")))) [CHARACTER_POSE]
    = instruction CHARACTER_POSE ++ space ++ JS.lit "arms crossed".
Proof.
  destruct C2_format_single as (H1 & H2 & _). split.
  - rewrite H1 by done. vm_compute. reflexivity.
  - apply H2; [done | reflexivity | reflexivity].
Defined.

(** C2 as stated fails: with a description that ends in a space the output
    is the phrase, a space and the description without its last space, which
    is neither the phrase followed by the description nor the phrase, a
    space and the description. *)
Lemma C2_as_stated_fails :
  generateFullRefinePrompt
    (Some (attireAndPose (Some (JS.lit "a red coat ")) None)) [CHARACTER_ATTIRE]
  ≠ instruction CHARACTER_ATTIRE ++ space ++ JS.lit "a red coat "
  ∧ generateFullRefinePrompt
      (Some (attireAndPose (Some (JS.lit "a red coat ")) None)) [CHARACTER_ATTIRE]
    ≠ instruction CHARACTER_ATTIRE ++ JS.lit "a red coat "
  ∧ generateFullRefinePrompt
      (Some (attireAndPose (Some (JS.lit "a red coat ")) None)) [CHARACTER_ATTIRE]
    = JS.lit "把圖中人物的裝束換成 a red coat".
Proof. split; [|split]; [apply differ; vm_compute; reflexivity .. | vm_compute; reflexivity]. Qed.

End Formatter.

(** ** The session store *)

Section Store.

Import App.

Lemma step_create (st : State) (uniqueId : jsstring) :
  step st (Create uniqueId)
  = {| tabs := tabs st ++ [newTabFor st uniqueId]; activeTabId := uniqueId |}.
Proof. reflexivity. Qed.

Lemma dispatch_plain (d : Dispatch) (setters : list Setter) (st : State) :
  dispatch d (Plain <$> setters) st = flush (Plain <$> setters) st.
Proof. destruct d, setters; reflexivity. Qed.

Lemma step_delete (st : State) (d : Dispatch) (id' uniqueId : jsstring) :
  step st (Delete d id' uniqueId)
  = match remaining id' (tabs st) with
    | first :: _ =>
      {| tabs := remaining id' (tabs st);
         activeTabId := if decide (id' = activeTabId st) then id first
                        else activeTabId st |}
    | [] =>
      {| tabs := match d with Queued => [newTabFor st uniqueId] | Eager => [] end;
         activeTabId := uniqueId |}
    end.
Proof.
  unfold step, deleteTab, remaining.
  destruct d; unfold dispatch, flush; cbn [foldl applyCall fst snd];
    (destruct (filter (λ tab, id tab ≠ id') (tabs st)) as [|first rest] eqn:E;
     [ rewrite andb_false_r; reflexivity
     | destruct st as [ts a]; cbn [activeTabId App.tabs];
       destruct (decide (id' = a)) as [->|Hne];
       [ rewrite bool_decide_eq_true_2 by done; reflexivity
       | rewrite (bool_decide_eq_false_2 (id' = a)) by done; reflexivity ] ]).
Qed.

Lemma mount_tabs (uniqueId : jsstring) :
  mount uniqueId = {| tabs := [newTabFor init uniqueId]; activeTabId := uniqueId |}.
Proof. reflexivity. Qed.

Lemma step_nonempty (st : State) (op : Op) : queuedOp op → tabs (step st op) ≠ [].
Proof.
  destruct op as [u|d i u]; intros Hq.
  - rewrite step_create. cbn [tabs]. by destruct (tabs st).
  - rewrite step_delete. destruct d; [|done]. by destruct (remaining i (tabs st)).
Qed.

Lemma run_snoc (ops : list Op) (op : Op) (st : State) :
  run (ops ++ [op]) st = step (run ops st) op.
Proof. unfold run. by rewrite foldl_snoc. Qed.

Lemma step_hasActive (st : State) (op : Op) :
  queuedOp op → hasActive st → hasActive (step st op).
Proof.
  unfold hasActive. intros Hq Hact. destruct op as [u|d i u].
  - rewrite step_create. cbn [tabs activeTabId]. rewrite fmap_app.
    apply elem_of_app. right. apply list_elem_of_singleton. reflexivity.
  - rewrite step_delete. destruct (remaining i (tabs st)) as [|first rest] eqn:E.
    + destruct d; [|done]. cbn [tabs activeTabId].
      apply list_elem_of_singleton. reflexivity.
    + cbn [tabs activeTabId]. destruct (decide (i = activeTabId st)) as [Heq|Hne].
      * apply list_elem_of_here.
      * apply list_elem_of_fmap in Hact as (tab & Hid & Htab).
        apply list_elem_of_fmap. exists tab. split; [done|].
        rewrite <- E. apply list_elem_of_filter. split; [congruence|done].
Qed.

(** Every store reached from the mounted application by operations whose
    deletes were queued has a session, and an active one. *)
Lemma run_hasActive (ops : list Op) (uniqueId : jsstring) :
  Forall queuedOp ops →
  tabs (run ops (mount uniqueId)) ≠ [] ∧ hasActive (run ops (mount uniqueId)).
Proof.
  induction ops as [|op ops IH] using rev_ind; intros Hq.
  - rewrite mount_tabs. split; [done|]. apply list_elem_of_singleton. reflexivity.
  - apply Forall_app in Hq as [Hq Hop]. apply Forall_inv in Hop.
    rewrite run_snoc. split; [exact (step_nonempty _ _ Hop)|].
    apply step_hasActive; [done|]. by apply IH.
Qed.

(** C3.  Deleting the only session of a store.  When React runs the updater
    of the delete during the next render, the list afterwards holds exactly
    the session created in its place.  When React runs the updater inside
    the [setTabs] call, the list afterwards is empty, and the active id is
    the id of the session that was to replace the deleted one.  So one delete
    applied to the mounted application can leave the session list empty. *)
Theorem C3_delete_only_session (tab : Tab) (active uniqueId : jsstring) :
  step {| tabs := [tab]; activeTabId := active |} (Delete Queued (id tab) uniqueId)
  = {| tabs := [newTabFor {| tabs := [tab]; activeTabId := active |} uniqueId];
       activeTabId := uniqueId |}
  ∧ step {| tabs := [tab]; activeTabId := active |} (Delete Eager (id tab) uniqueId)
    = {| tabs := []; activeTabId := uniqueId |}
  ∧ tabs (run [Delete Eager active uniqueId] (mount active)) = [].
Proof.
  assert (∀ d, step {| tabs := [tab]; activeTabId := active |} (Delete d (id tab) uniqueId)
               = {| tabs := match d with
                            | Queued =>
                              [newTabFor {| tabs := [tab]; activeTabId := active |} uniqueId]
                            | Eager => []
                            end;
                    activeTabId := uniqueId |}) as Hstep.
  { intros d. rewrite step_delete. unfold remaining. cbn [tabs].
    rewrite filter_cons, decide_False by (intros H; by apply H). reflexivity. }
  split; [apply Hstep|]. split; [apply Hstep|].
  unfold run. cbn [foldl]. rewrite mount_tabs, step_delete. unfold remaining.
  cbn [tabs]. rewrite filter_cons, decide_False by (intros H; by apply H). reflexivity.
Qed.

(** C4.  In a store that has an active session: deleting the active session
    activates the first of the sessions that remain, when there is one, and
    deleting a session that is not the active one leaves the active session
    as it was; in both cases the sessions kept are the remaining ones,
    however React handles the call.  When the active session is deleted and
    none remains, exactly one new session is created and becomes active if
    React runs the updater during the next render; if React runs it inside
    the [setTabs] call the list is left empty and the active id names no
    session. *)
Theorem C4_delete_activation (st : State) (d : Dispatch) (id' uniqueId : jsstring) :
  hasActive st →
  (id' = activeTabId st →
   ∀ first rest, remaining id' (tabs st) = first :: rest →
     tabs (step st (Delete d id' uniqueId)) = first :: rest
     ∧ activeTabId (step st (Delete d id' uniqueId)) = id first)
  ∧ (id' = activeTabId st → remaining id' (tabs st) = [] →
     step st (Delete Queued id' uniqueId)
     = {| tabs := [newTabFor st uniqueId]; activeTabId := id (newTabFor st uniqueId) |}
     ∧ step st (Delete Eager id' uniqueId) = {| tabs := []; activeTabId := uniqueId |}
     ∧ ¬ hasActive (step st (Delete Eager id' uniqueId)))
  ∧ (id' ≠ activeTabId st →
     tabs (step st (Delete d id' uniqueId)) = remaining id' (tabs st)
     ∧ activeTabId (step st (Delete d id' uniqueId)) = activeTabId st).
Proof.
  intros Hact. rewrite !step_delete. split; [|split].
  - intros Heq first rest E. rewrite E. cbn [tabs activeTabId].
    by rewrite decide_True.
  - intros Heq E. rewrite E. split; [done|]. split; [done|].
    unfold hasActive. cbn [tabs activeTabId fmap list_fmap]. apply not_elem_of_nil.
  - intros Hne.
    destruct (remaining id' (tabs st)) as [|first rest] eqn:E.
    + exfalso. apply list_elem_of_fmap in Hact as (tab & Hid & Htab).
      assert (tab ∈ remaining id' (tabs st)) as Hin.
      { apply list_elem_of_filter. split; [congruence|done]. }
      rewrite E in Hin. by apply not_elem_of_nil in Hin.
    + cbn [tabs activeTabId]. by rewrite decide_False.
Qed.

End Store.

Section StoreWitness.

Import App.

Lemma C4_delete_activation_witness :
  hasActive (run [Create (JS.lit "b")] (mount (JS.lit "a")))
  ∧ activeTabId (step (run [Create (JS.lit "b")] (mount (JS.lit "a")))
                   (Delete Eager (JS.lit "b") (JS.lit "c"))) = JS.lit "a"
  ∧ activeTabId (step (run [Create (JS.lit "b")] (mount (JS.lit "a")))
                   (Delete Queued (JS.lit "a") (JS.lit "c"))) = JS.lit "b"
  ∧ tabs (step (mount (JS.lit "a")) (Delete Queued (JS.lit "a") (JS.lit "c")))
    = [newTabFor (mount (JS.lit "a")) (JS.lit "c")]
  ∧ tabs (step (mount (JS.lit "a")) (Delete Eager (JS.lit "a") (JS.lit "c"))) = [].
Proof.
  assert (hasActive (run [Create (JS.lit "b")] (mount (JS.lit "a")))) as H2.
  { apply (bool_decide_unpack _). vm_compute. exact I. }
  assert (hasActive (mount (JS.lit "a"))) as H1.
  { apply (bool_decide_unpack _). vm_compute. exact I. }
  split; [exact H2|]. split; [|split; [|split]].
  - destruct (C4_delete_activation _ Eager (JS.lit "b") (JS.lit "c") H2) as (Hfirst & _ & _).
    destruct (Hfirst eq_refl (newTabFor init (JS.lit "a")) []) as [_ ->];
      vm_compute; reflexivity.
  - destruct (C4_delete_activation _ Queued (JS.lit "a") (JS.lit "c") H2) as (_ & _ & Hother).
    destruct Hother as [_ ->]; [|vm_compute; reflexivity].
    apply differ. vm_compute. reflexivity.
  - destruct (C4_delete_activation _ Queued (JS.lit "a") (JS.lit "c") H1) as (_ & Hnone & _).
    destruct Hnone as (-> & _ & _); vm_compute; reflexivity.
  - destruct (C4_delete_activation _ Eager (JS.lit "a") (JS.lit "c") H1) as (_ & Hnone & _).
    destruct Hnone as (_ & -> & _); vm_compute; reflexivity.
Defined.

End StoreWitness.

(** ** Reordering *)

Section Reorder.

Import App.

Lemma spliceStart_inside (i len : nat) :
  (i ≤ len)%nat → spliceStart (Z.of_nat i) len = i.
Proof.
  intros Hi. unfold spliceStart.
  destruct (Z.ltb_spec (Z.of_nat i) 0); [lia|]. rewrite Nat2Z.id. lia.
Qed.

(** With both indices inside the list, the tab at [s] is taken out and put
    back at [e]. *)
Lemma reorderTabs_inside (prevTabs : list Tab) (s e : nat) (x : Tab) :
  prevTabs !! s = Some x → (e < length prevTabs)%nat →
  reorderTabs (Z.of_nat s) (Z.of_nat e) prevTabs
  = Some <$> (take e (delete s prevTabs) ++ x :: drop e (delete s prevTabs)).
Proof.
  intros Hx He. pose proof (lookup_lt_Some _ _ _ Hx) as Hs.
  unfold reorderTabs, splice. cbn [fst snd].
  rewrite length_fmap, (spliceStart_inside s) by lia.
  replace (Nat.min 1 (length prevTabs - s)) with 1%nat by lia.
  assert (take 1 (drop s (Some <$> prevTabs)) !! 0%nat = Some (Some x)) as ->.
  { rewrite lookup_take_lt by lia. rewrite lookup_drop, Nat.add_0_r.
    by rewrite list_lookup_fmap, Hx. }
  cbn [default from_option app].
  replace (s + 1)%nat with (S s) by lia.
  rewrite <- delete_take_drop, <- list_fmap_delete.
  rewrite length_fmap, length_delete by eauto.
  rewrite spliceStart_inside by lia.
  rewrite Nat.min_0_l, Nat.add_0_r.
  rewrite fmap_app, fmap_cons, fmap_take, fmap_drop. reflexivity.
Qed.

Lemma moved_Permutation (l : list Tab) (s e : nat) (x : Tab) :
  l !! s = Some x → take e (delete s l) ++ x :: drop e (delete s l) ≡ₚ l.
Proof.
  intros Hx. rewrite <- Permutation_middle, take_drop.
  symmetry. by apply delete_Permutation.
Qed.

(** C5.  For indices inside the list, the reorder operation returns the
    same sessions in another order: the result is a permutation of the
    session records (so of their ids, names and content states), has no
    empty slot, and holds at the target index the session that was at the
    source index. *)
Theorem C5_reorder_permutation (prevTabs : list Tab) (startIndex endIndex : Z) :
  (0 ≤ startIndex < Z.of_nat (length prevTabs))%Z →
  (0 ≤ endIndex < Z.of_nat (length prevTabs))%Z →
  ∃ result : list Tab,
    reorderTabs startIndex endIndex prevTabs = Some <$> result
    ∧ result ≡ₚ prevTabs
    ∧ id <$> result ≡ₚ id <$> prevTabs
    ∧ result !! Z.to_nat endIndex = prevTabs !! Z.to_nat startIndex.
Proof.
  intros Hs He.
  destruct (lookup_lt_is_Some_2 prevTabs (Z.to_nat startIndex)) as [x Hx]; [lia|].
  exists (take (Z.to_nat endIndex) (delete (Z.to_nat startIndex) prevTabs)
          ++ x :: drop (Z.to_nat endIndex) (delete (Z.to_nat startIndex) prevTabs)).
  pose proof (moved_Permutation prevTabs _ (Z.to_nat endIndex) x Hx) as Hperm.
  split; [|split; [|split]].
  - rewrite <- (Z2Nat.id startIndex), <- (Z2Nat.id endIndex) by lia.
    rewrite !Nat2Z.id. apply reorderTabs_inside; [done|lia].
  - exact Hperm.
  - by rewrite Hperm.
  - rewrite Hx. apply list_lookup_middle.
    rewrite length_take_le; [done|]. rewrite length_delete by eauto. lia.
Qed.

Lemma C5_reorder_permutation_witness :
  ∃ result : list Tab,
    reorderTabs 0 2
      [newTabFor init (JS.lit "a"); newTabFor init (JS.lit "b"); newTabFor init (JS.lit "c")]
    = Some <$> result
    ∧ result ≡ₚ [newTabFor init (JS.lit "a"); newTabFor init (JS.lit "b");
                 newTabFor init (JS.lit "c")]
    ∧ id <$> result ≡ₚ [JS.lit "a"; JS.lit "b"; JS.lit "c"]
    ∧ result !! 2%nat = Some (newTabFor init (JS.lit "a")).
Proof.
  apply (C5_reorder_permutation
           [newTabFor init (JS.lit "a"); newTabFor init (JS.lit "b");
            newTabFor init (JS.lit "c")] 0 2); simpl; lia.
Defined.

End Reorder.

(** ** Renaming *)

Section Rename.

Import App.

Lemma rename_tabs (id' newName : jsstring) (st : State) :
  rename id' newName st
  = {| tabs := (λ tab, if decide (id tab = id')
                       then {| id := id tab; name := newName;
                               contentState := contentState tab |}
                       else tab) <$> tabs st;
       activeTabId := activeTabId st |}.
Proof. reflexivity. Qed.

(** C7 (amended).  A name of white space only (the empty string included)
    submitted in the rename control of the tab strip makes no call of the
    store's rename, and the store is unchanged.  The check is made by the
    rename control; the store's rename itself sets the name it is given on
    every session of the given id. *)
Theorem C7_blank_rename_stopped :
  (∀ (st : State) (tabId tabName newTabName : jsstring),
     blank newTabName = true →
     DraggableTab.handleRenameSubmit tabId tabName newTabName
     = [DraggableTab.SetIsEditing false]
     ∧ DraggableTab.commits
         (DraggableTab.handleRenameSubmit tabId tabName newTabName) st = st)
  ∧ (∀ (st : State) (id' newName : jsstring) (i : nat) (tab : Tab),
       sessionAt st i id' tab →
       tabs (rename id' newName st) !! i
       = Some {| id := id tab; name := newName; contentState := contentState tab |}).
Proof.
  split.
  - intros st tabId tabName newTabName Hblank.
    unfold DraggableTab.handleRenameSubmit.
    rewrite (trim_blank _ Hblank). cbn [JS.truthy andb app]. done.
  - intros st id' newName i tab [Hi Hid]. rewrite rename_tabs. cbn [tabs].
    rewrite list_lookup_fmap, Hi. cbn [fmap option_fmap option_map].
    by rewrite decide_True.
Qed.

Lemma C7_blank_rename_stopped_witness :
  DraggableTab.commits
    (DraggableTab.handleRenameSubmit (JS.lit "a") (JS.lit "頁籤 1") (JS.lit "  "))
    (mount (JS.lit "a"))
  = mount (JS.lit "a")
  ∧ name <$> tabs (rename (JS.lit "a") (JS.lit "x") (mount (JS.lit "a"))) = [JS.lit "x"].
Proof.
  destruct C7_blank_rename_stopped as [Hstop Hset]. split.
  - apply (Hstop (mount (JS.lit "a")) (JS.lit "a") (JS.lit "頁籤 1") (JS.lit "  ")).
    vm_compute. reflexivity.
  - pose proof (Hset (mount (JS.lit "a")) (JS.lit "a") (JS.lit "x") 0%nat
                  (newTabFor init (JS.lit "a"))) as H.
    vm_compute in H. vm_compute. specialize (H (conj eq_refl eq_refl)).
    congruence.
Defined.

(** C7 as stated fails: the store's rename with the empty name, or with a
    name of one space, replaces the name of the session. *)
Lemma C7_as_stated_fails :
  rename (JS.lit "a") [] (mount (JS.lit "a")) ≠ mount (JS.lit "a")
  ∧ name <$> tabs (mount (JS.lit "a")) = [JS.lit "頁籤 1"]
  ∧ name <$> tabs (rename (JS.lit "a") [] (mount (JS.lit "a"))) = [[]]
  ∧ name <$> tabs (rename (JS.lit "a") (JS.lit " ") (mount (JS.lit "a"))) = [JS.lit " "].
Proof.
  split; [|split; [|split]]; try (vm_compute; reflexivity).
  intros H. apply (f_equal (λ st, name <$> tabs st)) in H.
  vm_compute in H. discriminate H.
Qed.

End Rename.

(** ** The session panel and the image intake *)

Section Panel.

Import App.

Lemma commit_change (st : State) (tabId : jsstring) (p : Partial.t) :
  TabContent.commit st (TabContent.OnContentStateChange tabId p)
  = {| tabs := (λ tab, if decide (id tab = tabId)
                       then {| id := id tab; name := name tab;
                               contentState := merge (contentState tab) p |}
                       else tab) <$> tabs st;
       activeTabId := activeTabId st |}.
Proof. reflexivity. Qed.

Lemma commit_change_at (st : State) (tabId : jsstring) (p : Partial.t)
    (i : nat) (tab : Tab) :
  sessionAt st i tabId tab →
  tabs (TabContent.commit st (TabContent.OnContentStateChange tabId p)) !! i
  = Some (withContent tab (merge (contentState tab) p)).
Proof.
  intros [Hi Hid]. rewrite commit_change. cbn [tabs].
  rewrite list_lookup_fmap, Hi. cbn [fmap option_fmap option_map].
  by rewrite decide_True.
Qed.

Lemma commit_change_session (st : State) (tabId : jsstring) (p : Partial.t)
    (i : nat) (tab : Tab) :
  sessionAt st i tabId tab →
  sessionAt (TabContent.commit st (TabContent.OnContentStateChange tabId p)) i tabId
    (withContent tab (merge (contentState tab) p)).
Proof.
  intros H. split; [by apply commit_change_at|]. by destruct H.
Qed.

(** C6.  Uploading an image into a session, committing a cropped image,
    and deleting the image of a session each make one content-state update
    of that session, and after it the session holds the new image (none
    after a deletion), no analysis result and no error message; its other
    fields are unchanged. *)
Theorem C6_image_change_clears (st : State) (tabId : jsstring) (i : nat) (tab : Tab)
    (image : jsstring) :
  sessionAt st i tabId tab →
  (length (TabContent.handleImageUpload tabId image) = 1%nat
   ∧ tabs (TabContent.commits (TabContent.handleImageUpload tabId image) st) !! i
     = Some (withContent tab (withImageCleared (contentState tab) (Some image))))
  ∧ ((ImageUploader.handleCropComplete image).1 ≫= ImageUploader.toPanel tabId
     = TabContent.handleImageUpload tabId image
     ∧ tabs (ImageUploader.commits tabId (ImageUploader.handleCropComplete image) st) !! i
       = Some (withContent tab (withImageCleared (contentState tab) (Some image))))
  ∧ (length (TabContent.handleDeleteImage tabId) = 1%nat
     ∧ ImageUploader.handleDeleteImageAndResetInput.1 ≫= ImageUploader.toPanel tabId
       = TabContent.handleDeleteImage tabId
     ∧ tabs (TabContent.commits (TabContent.handleDeleteImage tabId) st) !! i
       = Some (withContent tab (withImageCleared (contentState tab) None))).
Proof.
  intros Hs.
  assert (tabs (TabContent.commits (TabContent.handleImageUpload tabId image) st) !! i
          = Some (withContent tab (withImageCleared (contentState tab) (Some image))))
    as Hup.
  { unfold TabContent.commits, TabContent.handleImageUpload. cbn [foldl].
    by rewrite (commit_change_at _ _ _ _ _ Hs). }
  split; [by split|]. split; [split; [reflexivity|exact Hup]|].
  split; [reflexivity|]. split; [reflexivity|].
  unfold TabContent.commits, TabContent.handleDeleteImage. cbn [foldl].
  by rewrite (commit_change_at _ _ _ _ _ Hs).
Qed.

(** C8.  For a session with an image present, 'other' among its selected
    options and a free text that is empty or of white space only, analyze
    makes one content-state update that sets the validation message, makes
    no call of the analysis client, and leaves the image, the selected
    options and the stored analysis result of the session unchanged. *)
Theorem C8_other_needs_text (st : State) (tabId : jsstring) (i : nat) (tab : Tab)
    (analyzeImage : jsstring → list AnalysisOption → jsstring → bool → TabContent.Settled)
    (isDetailedRequest : bool) :
  sessionAt st i tabId tab →
  JS.truthy_opt (uploadedImage (contentState tab)) = true →
  OTHER ∈ selectedOptions (contentState tab) →
  blank (otherAnalysisText (contentState tab)) = true →
  TabContent.handleAnalyze tabId (contentState tab) analyzeImage isDetailedRequest
  = [TabContent.OnContentStateChange tabId (Partial.with_error (Some otherNeedsText))]
  ∧ TabContent.clientCalls
      (TabContent.handleAnalyze tabId (contentState tab) analyzeImage isDetailedRequest)
    = []
  ∧ tabs (TabContent.commits
            (TabContent.handleAnalyze tabId (contentState tab) analyzeImage
               isDetailedRequest) st) !! i
    = Some (withContent tab (withError (contentState tab) (Some otherNeedsText))).
Proof.
  intros Hs Himg Hother Hblank.
  assert (TabContent.handleAnalyze tabId (contentState tab) analyzeImage isDetailedRequest
          = [TabContent.OnContentStateChange tabId
               (Partial.with_error (Some otherNeedsText))]) as ->.
  { unfold TabContent.handleAnalyze.
    destruct (uploadedImage (contentState tab)) as [image|]; [|done].
    cbn [JS.truthy_opt] in Himg.
    rewrite Himg. cbn [negb]. unfold includes.
    rewrite bool_decide_eq_true_2 by done.
    rewrite (trim_blank _ Hblank). unfold otherNeedsText. reflexivity. }
  split; [done|]. split; [reflexivity|].
  unfold TabContent.commits. cbn [foldl].
  by rewrite (commit_change_at _ _ _ _ _ Hs).
Qed.

(** C9.  In a session that holds an image, a paste sets the error message
    that an image is already there and hands no image to the session: the
    session's image, analysis result and other fields are as before, only
    the error message differs.  The widget gets the session's image and
    loading flag as its props. *)
Theorem C9_paste_refused (File : Type)
    (readAsDataURL : File → ImageUploader.ReadOutcome)
    (URL : jsstring → option (jsstring * jsstring))
    (toLowerCase : jsstring → jsstring)
    (fetch : jsstring → ImageUploader.FetchOutcome File)
    (isProcessingPaste isUrlLoading : bool)
    (event : ImageUploader.ClipboardEvent File)
    (st : State) (tabId : jsstring) (i : nat) (tab : Tab) :
  sessionAt st i tabId tab →
  JS.truthy_opt (uploadedImage (contentState tab)) = true →
  (ImageUploader.handlePaste File readAsDataURL URL toLowerCase fetch
     (uploadedImage (contentState tab)) (isLoading (contentState tab))
     isProcessingPaste isUrlLoading event).1
  = [ImageUploader.OnSetError None; ImageUploader.PreventDefault;
     ImageUploader.OnSetError (Some imageAlreadyThere)]
  ∧ ImageUploader.uploads
      (ImageUploader.handlePaste File readAsDataURL URL toLowerCase fetch
         (uploadedImage (contentState tab)) (isLoading (contentState tab))
         isProcessingPaste isUrlLoading event).1 = []
  ∧ tabs (ImageUploader.commits tabId
            (ImageUploader.handlePaste File readAsDataURL URL toLowerCase fetch
               (uploadedImage (contentState tab)) (isLoading (contentState tab))
               isProcessingPaste isUrlLoading event) st) !! i
    = Some (withContent tab (withError (contentState tab) (Some imageAlreadyThere))).
Proof.
  intros Hs Himg.
  assert ((ImageUploader.handlePaste File readAsDataURL URL toLowerCase fetch
             (uploadedImage (contentState tab)) (isLoading (contentState tab))
             isProcessingPaste isUrlLoading event).1
          = [ImageUploader.OnSetError None; ImageUploader.PreventDefault;
             ImageUploader.OnSetError (Some imageAlreadyThere)]) as Htrace.
  { unfold ImageUploader.handlePaste, imageAlreadyThere.
    rewrite Himg, orb_true_r. reflexivity. }
  split; [exact Htrace|]. split; [by rewrite Htrace|].
  unfold ImageUploader.commits. rewrite Htrace.
  unfold TabContent.commits. cbn [mbind list_bind ImageUploader.toPanel app foldl
    TabContent.handleSetError].
  pose proof (commit_change_session st tabId (Partial.with_error None) i tab Hs) as H1.
  rewrite (commit_change_at _ _ _ _ _ H1). reflexivity.
Qed.

End Panel.

Section PanelWitness.

Import App.

Lemma busySession_there : sessionAt busyStore 0 (JS.lit "a") busySession.
Proof. split; reflexivity. Qed.

Lemma C6_image_change_clears_witness :
  tabs (TabContent.commits
          (TabContent.handleImageUpload (JS.lit "a") (JS.lit "data:image/jpeg;base64,BBBB"))
          busyStore) !! 0%nat
  = Some (withContent busySession
            (withImageCleared (contentState busySession)
               (Some (JS.lit "data:image/jpeg;base64,BBBB"))))
  ∧ tabs (TabContent.commits (TabContent.handleDeleteImage (JS.lit "a")) busyStore) !! 0%nat
    = Some (withContent busySession (withImageCleared (contentState busySession) None)).
Proof.
  destruct (C6_image_change_clears busyStore (JS.lit "a") 0 busySession
              (JS.lit "data:image/jpeg;base64,BBBB") busySession_there)
    as ((_ & Hup) & _ & (_ & _ & Hdel)).
  split; [exact Hup | exact Hdel].
Defined.

Lemma C8_other_needs_text_witness :
  TabContent.clientCalls
    (TabContent.handleAnalyze (JS.lit "a") (contentState busySession)
       (λ _ _ _ _, TabContent.Rejected None) false) = []
  ∧ tabs (TabContent.commits
            (TabContent.handleAnalyze (JS.lit "a") (contentState busySession)
               (λ _ _ _ _, TabContent.Rejected None) false) busyStore) !! 0%nat
    = Some (withContent busySession
              (withError (contentState busySession) (Some otherNeedsText))).
Proof.
  assert (OTHER ∈ selectedOptions (contentState busySession)) as Hother.
  { apply (bool_decide_unpack _). vm_compute. exact I. }
  destruct (C8_other_needs_text busyStore (JS.lit "a") 0 busySession
              (λ _ _ _ _, TabContent.Rejected None) false
              busySession_there eq_refl Hother eq_refl)
    as (_ & Hcalls & Hst).
  split; [exact Hcalls | exact Hst].
Defined.

Lemma C9_paste_refused_witness :
  tabs (ImageUploader.commits (JS.lit "a")
          (ImageUploader.handlePaste unit (λ _, ImageUploader.LoadedString (JS.lit "data:,"))
             (λ _, None) (λ s, s) (λ _, ImageUploader.FetchRejected unit [])
             (uploadedImage (contentState busySession))
             (isLoading (contentState busySession)) false false
             {| ImageUploader.clipboardText := [];
                ImageUploader.imageFileItem := Some (Some tt) |})
          busyStore) !! 0%nat
  = Some (withContent busySession
            (withError (contentState busySession) (Some imageAlreadyThere))).
Proof.
  destruct (C9_paste_refused unit (λ _, ImageUploader.LoadedString (JS.lit "data:,"))
              (λ _, None) (λ s, s) (λ _, ImageUploader.FetchRejected unit [])
              false false
              {| ImageUploader.clipboardText := [];
                 ImageUploader.imageFileItem := Some (Some tt) |}
              busyStore (JS.lit "a") 0 busySession busySession_there eq_refl)
    as (_ & _ & H).
  exact H.
Defined.

End PanelWitness.

(** ** Base64 round trip *)

Section RoundTrip.

Import Base64.

Local Ltac Zify.zify_post_hook ::= Z.to_euclidean_division_equations.

Lemma list_ind3 {A} (P : list A → Prop) :
  P [] → (∀ a, P [a]) → (∀ a b, P [a; b]) →
  (∀ a b c l, P l → P (a :: b :: c :: l)) → ∀ l, P l.
Proof.
  intros H0 H1 H2 H3. fix IH 1.
  intros [|a [|b [|c l]]]; [exact H0 | apply H1 | apply H2 | apply H3, IH].
Qed.

Lemma below_64 (p : N → bool) :
  forallb p (N.of_nat <$> seq 0 64) = true → ∀ n, n < 64 → p n = true.
Proof.
  intros Hall n Hn. rewrite forallb_forall in Hall. apply Hall.
  apply list_elem_of_In, list_elem_of_fmap. exists (N.to_nat n). split; [lia|].
  apply elem_of_seq. lia.
Qed.

Lemma ofChar_toChar (n : N) : n < 64 → ofChar (toChar n) = Some n.
Proof.
  intros Hn.
  apply (below_64 (λ n, bool_decide (ofChar (toChar n) = Some n))) in Hn.
  - by apply bool_decide_eq_true in Hn.
  - vm_compute. reflexivity.
Qed.

Lemma toChar_plain (n : N) :
  n < 64 → isAsciiWhitespace (toChar n) = false ∧ (toChar n =? pad) = false.
Proof.
  intros Hn.
  apply (below_64 (λ n, negb (isAsciiWhitespace (toChar n)) && negb (toChar n =? pad))) in Hn.
  - apply andb_true_iff in Hn as [H1 H2]. split; by apply negb_true_iff.
  - vm_compute. reflexivity.
Qed.

Lemma encodeBytes_split (bytes : list N) :
  encodeBytes bytes = (toChar <$> sextetsOf bytes) ++ paddingOf bytes.
Proof.
  induction bytes as [|a|a b|a b c rest IH] using list_ind3; try reflexivity.
  cbn [encodeBytes sextetsOf paddingOf fmap list_fmap app]. by rewrite IH.
Qed.

Lemma sextetsOf_bound (bytes : list N) :
  Forall (λ b, b < 256) bytes → Forall (λ n, n < 64) (sextetsOf bytes).
Proof.
  induction bytes as [|a|a b|a b c rest IH] using list_ind3; intros Hb; cbn [sextetsOf].
  - constructor.
  - apply Forall_cons_1 in Hb as [Ha _]. repeat constructor; lia.
  - apply Forall_cons_1 in Hb as [Ha Hb]. apply Forall_cons_1 in Hb as [Hb _].
    repeat constructor; lia.
  - apply Forall_cons_1 in Hb as [Ha Hb]. apply Forall_cons_1 in Hb as [Hb Hc].
    apply Forall_cons_1 in Hc as [Hc Hrest].
    repeat (constructor; [lia|]). by apply IH.
Qed.

Lemma encoded_lengths (bytes : list N) :
  ((length (sextetsOf bytes) + length (paddingOf bytes)) mod 4 = 0)%nat
  ∧ (length (sextetsOf bytes) mod 4 ≠ 1)%nat.
Proof.
  induction bytes as [|a|a b|a b c rest IH] using list_ind3;
    cbn [sextetsOf paddingOf length]; try (split; [reflexivity | discriminate]).
  destruct IH as [IH1 IH2].
  set (n := length (sextetsOf rest)) in *. set (p := length (paddingOf rest)) in *.
  replace (S (S (S (S n))) + p)%nat with (n + p + 1 * 4)%nat by lia.
  replace (S (S (S (S n)))) with (n + 1 * 4)%nat by lia.
  by rewrite !Nat.Div0.mod_add.
Qed.

Lemma paddingOf_cases (bytes : list N) :
  paddingOf bytes = [] ∨ paddingOf bytes = [pad] ∨ paddingOf bytes = [pad; pad].
Proof.
  induction bytes as [|a|a b|a b c rest IH] using list_ind3; cbn [paddingOf]; auto.
Qed.

Lemma stripPadding_chars (cs padding : jsstring) :
  Forall (λ c, (c =? pad) = false) cs →
  padding = [] ∨ padding = [pad] ∨ padding = [pad; pad] →
  stripPadding (cs ++ padding) = cs.
Proof.
  intros Hcs Hpad. unfold stripPadding. rewrite rev_app_distr.
  destruct Hpad as [-> | [-> | ->]]; cbn [rev app].
  - rewrite app_nil_r. destruct cs as [|x cs' _] using rev_ind; [done|].
    rewrite rev_app_distr. cbn [rev app].
    apply Forall_app in Hcs as [_ Hx]. apply Forall_cons_1 in Hx as [Hx _].
    by rewrite Hx.
  - rewrite N.eqb_refl. destruct cs as [|x cs' _] using rev_ind; [done|].
    rewrite rev_app_distr. cbn [rev app].
    apply Forall_app in Hcs as [_ Hx]. apply Forall_cons_1 in Hx as [Hx _].
    rewrite Hx. cbn [rev]. by rewrite rev_involutive.
  - rewrite !N.eqb_refl. apply rev_involutive.
Qed.

Lemma filter_all (p : N → bool) (l : list N) :
  Forall (λ c, p c = false) l → filter (λ c, p c = false) l = l.
Proof.
  induction 1 as [|c l Hc _ IH]; [done|].
  rewrite filter_cons, decide_True by done. by rewrite IH.
Qed.

Lemma mapM_ofChar (sextets : list N) :
  Forall (λ n, n < 64) sextets → mapM ofChar (toChar <$> sextets) = Some sextets.
Proof.
  induction 1 as [|n l Hn _ IH]; [done|].
  rewrite fmap_cons. cbn [mapM]. rewrite (ofChar_toChar n Hn), IH. reflexivity.
Qed.

Lemma feed_bytes (bytes : list N) :
  Forall (λ b, b < 256) bytes →
  ∀ out, finish (foldl feed {| bits := 0; groups := 0; output := out |} (sextetsOf bytes))
         = out ++ bytes.
Proof.
  induction bytes as [|a|a b|a b c rest IH] using list_ind3; intros Hb out;
    cbn [sextetsOf foldl]; unfold feed;
    cbn [bits groups output Nat.eqb].
  - unfold finish. cbn [groups output Nat.eqb]. by rewrite app_nil_r.
  - unfold finish. cbn [bits groups output Nat.eqb]. do 2 f_equal. lia.
  - apply Forall_cons_1 in Hb as [Ha Hb]. apply Forall_cons_1 in Hb as [Hb _].
    unfold finish. cbn [bits groups output Nat.eqb]. do 2 f_equal; [lia|f_equal; lia].
  - apply Forall_cons_1 in Hb as [Ha Hb]. apply Forall_cons_1 in Hb as [Hb Hc].
    apply Forall_cons_1 in Hc as [Hc Hrest].
    unfold feed in IH. rewrite (IH Hrest). rewrite <- app_assoc. f_equal.
    cbn [app]. f_equal; [lia|]. f_equal; [lia|]. f_equal. lia.
Qed.

Lemma atob_encodeBytes (bytes : list N) :
  Forall (λ b, b < 256) bytes → atob (encodeBytes bytes) = Some bytes.
Proof.
  intros Hb. pose proof (sextetsOf_bound bytes Hb) as Hs.
  destruct (encoded_lengths bytes) as [Hlen Hlen'].
  rewrite encodeBytes_split.
  assert (Forall (λ c, isAsciiWhitespace c = false)
            ((toChar <$> sextetsOf bytes) ++ paddingOf bytes)) as Hws.
  { apply Forall_app. split.
    - apply Forall_fmap. eapply Forall_impl; [exact Hs|].
      intros n Hn. by apply toChar_plain.
    - destruct (paddingOf_cases bytes) as [-> | [-> | ->]]; by repeat constructor. }
  unfold atob. rewrite (filter_all _ _ Hws).
  rewrite List.length_app, length_fmap, (bool_decide_eq_true_2 _ Hlen).
  rewrite stripPadding_chars.
  - rewrite length_fmap, (bool_decide_eq_false_2 _ Hlen').
    rewrite (mapM_ofChar _ Hs). cbn [mbind option_bind].
    by rewrite (feed_bytes _ Hb).
  - apply Forall_fmap. eapply Forall_impl; [exact Hs|].
    intros n Hn. by apply toChar_plain.
  - apply paddingOf_cases.
Qed.

Lemma binary_of_bytes (bytes : list N) :
  Forall (λ b, b < 256) bytes →
  ∀ binary, foldl (λ binary b, binary ++ [b mod 65536]) binary bytes = binary ++ bytes.
Proof.
  induction 1 as [|b l Hb _ IH]; intros binary; cbn [foldl].
  - by rewrite app_nil_r.
  - rewrite IH, <- app_assoc. rewrite N.mod_small by lia. reflexivity.
Qed.

Lemma btoa_bytes (bytes : list N) :
  Forall (λ b, b < 256) bytes → btoa bytes = Some (encodeBytes bytes).
Proof.
  intros Hb. unfold btoa.
  assert (forallb (λ c, c <=? 255) bytes = true) as ->; [|done].
  apply forallb_forall. intros c Hc%list_elem_of_In.
  rewrite Forall_forall in Hb. apply N.leb_le. specialize (Hb c Hc). lia.
Qed.

(** C10.  For every byte array with elements from 0 to 255, [encode]
    returns a string and [decode] of that string returns the array. *)
Theorem C10_decode_encode (bytes : list N) :
  Forall (λ b, b < 256) bytes →
  ∃ base64, encode bytes = Some base64 ∧ decode base64 = Some bytes.
Proof.
  intros Hb. exists (encodeBytes bytes). unfold encode, decode.
  rewrite (binary_of_bytes bytes Hb []). cbn [app]. split.
  - by apply btoa_bytes.
  - rewrite (atob_encodeBytes bytes Hb). f_equal.
    induction Hb as [|b l Hb _ IH]; [done|].
    rewrite fmap_cons, IH, N.mod_small by lia. done.
Qed.

Lemma C10_decode_encode_witness :
  ∃ base64, encode [0; 255; 128; 7] = Some base64 ∧ decode base64 = Some [0; 255; 128; 7].
Proof.
  apply C10_decode_encode. repeat constructor.
Defined.

End RoundTrip.

(** ** More on trimming and on the prompt formatter *)

Section FormatterMore.

Import PromptOutput.

Lemma trimStart_suffix (s : jsstring) :
  ∃ ws, s = ws ++ JS.trimStart s ∧ blank ws = true.
Proof.
  induction s as [|c s (ws & IH & Hws)]; [by exists []|].
  cbn [JS.trimStart]. destruct (JS.isWhiteSpace c) eqn:E.
  - exists (c :: ws). split; [by rewrite <- app_comm_cons, <- IH|].
    cbn [blank forallb]. by rewrite E.
  - by exists [].
Qed.

Lemma trimStart_startsClean (s : jsstring) : startsClean (JS.trimStart s) = true.
Proof.
  induction s as [|c s IH]; [done|].
  cbn [JS.trimStart]. destruct (JS.isWhiteSpace c) eqn:E; [done|].
  cbn [startsClean]. by rewrite E.
Qed.

Lemma trim_is_trimmed (s : jsstring) : trimmed (JS.trim s) = true.
Proof.
  unfold trimmed, JS.trim, JS.trimEnd. apply andb_true_iff. split.
  - destruct (trimStart_suffix (rev (JS.trimStart s))) as (ws & Hrev & _).
    pose proof (trimStart_startsClean s) as Hclean.
    apply (f_equal (@rev N)) in Hrev.
    rewrite rev_involutive, rev_app_distr in Hrev.
    destruct (rev (JS.trimStart (rev (JS.trimStart s)))) as [|c u]; [done|].
    rewrite Hrev in Hclean. exact Hclean.
  - rewrite rev_involutive. apply trimStart_startsClean.
Qed.

Lemma blank_app (a b : jsstring) : blank (a ++ b) = blank a && blank b.
Proof. unfold blank. apply forallb_app. Qed.

Lemma blank_rev (a : jsstring) : blank (rev a) = blank a.
Proof.
  induction a as [|c a IH]; [done|].
  cbn [rev]. rewrite blank_app, IH. cbn [blank forallb]. 
  rewrite andb_true_r. apply andb_comm.
Qed.

Lemma blank_clean_nil (s : jsstring) :
  blank s = true → startsClean s = true → s = [].
Proof.
  destruct s as [|c s]; [done|]. cbn [blank forallb startsClean].
  intros [Hc _]%andb_true_iff Hn. rewrite Hc in Hn. discriminate.
Qed.

(** A string trims to the empty string exactly when it is blank. *)
Lemma trim_nil_iff (s : jsstring) : JS.trim s = [] ↔ blank s = true.
Proof.
  split; [|apply trim_blank].
  unfold JS.trim, JS.trimEnd. intros H.
  apply (f_equal (@rev N)) in H. rewrite rev_involutive in H. cbn [rev] in H.
  destruct (trimStart_suffix (rev (JS.trimStart s))) as (ws & Hrev & Hws).
  rewrite H, app_nil_r in Hrev.
  assert (blank (JS.trimStart s) = true) as Hb.
  { rewrite <- blank_rev, Hrev. exact Hws. }
  pose proof (blank_clean_nil _ Hb (trimStart_startsClean s)) as Hnil.
  destruct (trimStart_suffix s) as (ws' & Hs & Hws').
  rewrite Hnil, app_nil_r in Hs. by rewrite Hs.
Qed.

Lemma format_other (r : ImageAnalysisResult) :
  generateFullRefinePrompt (Some r) [OTHER]
  = genericPrefix ++ space ++ JS.trim (default [] (otherAnalysis r)).
Proof.
  unfold generateFullRefinePrompt, pushIf, space.
  destruct (otherAnalysis r) as [[|c d]|];
    cbn [JS.truthy_opt JS.truthy andb default]; do 3 f_equal.
Qed.

(** X1.  With 'other' as the only option the formatter returns the generic
    prefix, one space and the trimmed free-form description; the five
    standard descriptions of the result play no part. *)
Theorem X1_format_other_alone (r : ImageAnalysisResult) (attire pose expression
    background angle : option jsstring) :
  generateFullRefinePrompt (Some r) [OTHER]
  = genericPrefix ++ space ++ JS.trim (default [] (otherAnalysis r))
  ∧ generateFullRefinePrompt
      (Some {| characterAttire := attire; characterPose := pose;
               characterExpression := expression; photoBackground := background;
               cameraAngle := angle; otherAnalysis := otherAnalysis r |}) [OTHER]
    = generateFullRefinePrompt (Some r) [OTHER].
Proof. split; [apply format_other|]. by rewrite !format_other. Qed.

Lemma descriptions_members (r : ImageAnalysisResult) (o1 o2 : list AnalysisOption) :
  (∀ o, selected o1 o = selected o2 o) →
  descriptions JS.truthy r o1 = descriptions JS.truthy r o2.
Proof.
  intros H. unfold descriptions, fixedOrder. cbn [mbind list_bind].
  by rewrite !H.
Qed.

(** X2.  With two or more options selected, the output depends only on
    which options are in the list, not on their order or repetition. *)
Theorem X2_format_order_irrelevant (r : ImageAnalysisResult)
    (options1 options2 : list AnalysisOption) :
  (2 ≤ length options1)%nat → (2 ≤ length options2)%nat →
  (∀ o, o ∈ options1 ↔ o ∈ options2) →
  generateFullRefinePrompt (Some r) options1 = generateFullRefinePrompt (Some r) options2.
Proof.
  intros H1 H2 Hmem. rewrite !format_several by lia.
  rewrite (descriptions_members r options1 options2); [done|].
  intros o. destruct options1 as [|a l1]; [simpl in H1; lia|].
  destruct options2 as [|b l2]; [simpl in H2; lia|].
  unfold selected, includes. apply bool_decide_ext, Hmem.
Qed.

Lemma X2_format_order_irrelevant_witness :
  generateFullRefinePrompt
    (Some (attireAndPose (Some (JS.lit "X")) (Some (JS.lit "Y"))))
    [CHARACTER_POSE; CHARACTER_ATTIRE; CHARACTER_POSE]
  = generateFullRefinePrompt
      (Some (attireAndPose (Some (JS.lit "X")) (Some (JS.lit "Y"))))
      [CHARACTER_ATTIRE; CHARACTER_POSE].
Proof.
  apply X2_format_order_irrelevant; [simpl; lia | simpl; lia |].
  intros o. rewrite !elem_of_cons. rewrite !elem_of_nil. tauto.
Defined.

(** X3.  Selecting exactly the five standard options, in any order, gives
    the same output as selecting nothing. *)
Theorem X3_format_none_is_all_standard (r : ImageAnalysisResult)
    (options : list AnalysisOption) :
  (∀ o, o ∈ options ↔ o ≠ OTHER) →
  generateFullRefinePrompt (Some r) options = generateFullRefinePrompt (Some r) [].
Proof.
  intros Hmem.
  assert (length options ≠ 1%nat) as Hlen.
  { destruct options as [|a [|b l]]; [done| |done]. intros _.
    assert (CHARACTER_ATTIRE ∈ [a]) as H1 by by apply Hmem.
    assert (CHARACTER_POSE ∈ [a]) as H2 by by apply Hmem.
    apply list_elem_of_singleton in H1, H2. congruence. }
  rewrite !format_several by done.
  rewrite (descriptions_members r options []); [done|].
  intros o. destruct options as [|a l].
  - exfalso. assert (CHARACTER_ATTIRE ∈ @nil AnalysisOption) as H by by apply Hmem.
    by apply not_elem_of_nil in H.
  - unfold selected, includes. apply bool_decide_ext, Hmem.
Qed.

Lemma X3_format_none_is_all_standard_witness :
  generateFullRefinePrompt
    (Some (attireAndPose (Some (JS.lit "X")) (Some (JS.lit "Y"))))
    [CAMERA_ANGLE; PHOTO_BACKGROUND; CHARACTER_EXPRESSION; CHARACTER_POSE; CHARACTER_ATTIRE]
  = generateFullRefinePrompt
      (Some (attireAndPose (Some (JS.lit "X")) (Some (JS.lit "Y")))) [].
Proof.
  apply X3_format_none_is_all_standard.
  intros o. rewrite !elem_of_cons, elem_of_nil. destruct o; split; intros H;
    try congruence; try tauto; try (intros ?; discriminate).
  destruct H as [H|[H|[H|[H|[H|H]]]]]; try discriminate H. destruct H.
Defined.

(** X4.  Without a result the formatter returns the empty string.  With a
    result it returns, for every list of options, one of the six phrases,
    one space and a body that neither starts nor ends with white space; so
    the output is never empty. *)
Theorem X4_format_shape :
  (∀ options, generateFullRefinePrompt None options = [])
  ∧ (∀ (r : ImageAnalysisResult) (options : list AnalysisOption),
       ∃ o body,
         generateFullRefinePrompt (Some r) options = instruction o ++ space ++ body
         ∧ trimmed body = true)
  ∧ (∀ (r : ImageAnalysisResult) (options : list AnalysisOption),
       generateFullRefinePrompt (Some r) options ≠ []).
Proof.
  assert (∀ (r : ImageAnalysisResult) (options : list AnalysisOption),
            ∃ o body,
              generateFullRefinePrompt (Some r) options = instruction o ++ space ++ body
              ∧ trimmed body = true) as Hshape.
  { intros r options. destruct (decide (length options = 1%nat)) as [Hone|Hne].
    - destruct options as [|o [|o' l]]; try done.
      destruct (decide (o = OTHER)) as [->|Ho].
      + exists OTHER, (JS.trim (default [] (otherAnalysis r))).
        split; [apply format_other | apply trim_is_trimmed].
      + exists o, (JS.trim (default [] (description o r))).
        split; [by apply format_single | apply trim_is_trimmed].
    - exists OTHER, (JS.trim (JS.join fullWidthPeriod (descriptions JS.truthy r options))).
      split; [by apply format_several | apply trim_is_trimmed]. }
  split; [done|]. split; [exact Hshape|].
  intros r options. destruct (Hshape r options) as (o & body & -> & _).
  intros H. apply (f_equal length) in H. rewrite !List.length_app in H.
  assert (length space = 1%nat) as Hsp by (vm_compute; reflexivity).
  rewrite Hsp in H. simpl in H. lia.
Qed.

(** X5.  The action buttons (refine, copy) are rendered exactly when there
    is a result, no loading and no error, and then the text of the box, which
    the copy button copies, is the formatted prompt; otherwise the box shows
    the loading text, the labelled error, or the placeholder. *)
Theorem X5_display_and_buttons (raw : option ImageAnalysisResult) (loading : bool)
    (err : option jsstring) (options : list AnalysisOption) :
  (showActionButtons raw loading err = true →
   ∃ r, raw = Some r ∧ loading = false ∧ JS.truthy_opt err = false
        ∧ displayPromptContent raw loading err options
          = generateFullRefinePrompt (Some r) options)
  ∧ (showActionButtons raw loading err = false →
     displayPromptContent raw loading err options = loadingText
     ∨ (∃ message, err = Some message ∧ JS.truthy message = true
          ∧ displayPromptContent raw loading err options = errorLabel ++ message)
     ∨ displayPromptContent raw loading err options = placeholderText).
Proof.
  unfold showActionButtons, displayPromptContent, loadingText, placeholderText, errorLabel.
  destruct loading; cbn [negb andb].
  - rewrite andb_false_r. split; [discriminate|]. intros _. by left.
  - destruct err as [message|]; cbn [JS.truthy_opt].
    + destruct (JS.truthy message) eqn:E; cbn [negb].
      * rewrite andb_false_r. split; [discriminate|]. intros _. right. left.
        by exists message.
      * destruct raw as [r|].
        -- split; [intros _; by exists r|]. rewrite bool_decide_eq_true_2 by eauto.
           discriminate.
        -- split; [|intros _; by right; right].
           rewrite bool_decide_eq_false_2; [discriminate|]. by intros [? ?].
    + destruct raw as [r|].
      * split; [intros _; by exists r|]. rewrite bool_decide_eq_true_2 by eauto.
        discriminate.
      * split; [|intros _; by right; right].
        rewrite bool_decide_eq_false_2; [discriminate|]. by intros [? ?].
Qed.

Lemma X5_display_and_buttons_witness :
  displayPromptContent (Some (attireAndPose (Some (JS.lit "X")) None)) false (Some [])
    [CHARACTER_ATTIRE]
  = generateFullRefinePrompt (Some (attireAndPose (Some (JS.lit "X")) None)) [CHARACTER_ATTIRE]
  ∧ (displayPromptContent (Some (attireAndPose (Some (JS.lit "X")) None)) false
       (Some (JS.lit "e")) [CHARACTER_ATTIRE] = loadingText
     ∨ (∃ message, Some (JS.lit "e") = Some message ∧ JS.truthy message = true
          ∧ displayPromptContent (Some (attireAndPose (Some (JS.lit "X")) None)) false
              (Some (JS.lit "e")) [CHARACTER_ATTIRE] = errorLabel ++ message)
     ∨ displayPromptContent (Some (attireAndPose (Some (JS.lit "X")) None)) false
         (Some (JS.lit "e")) [CHARACTER_ATTIRE] = placeholderText).
Proof.
  split.
  - destruct (X5_display_and_buttons (Some (attireAndPose (Some (JS.lit "X")) None))
                false (Some []) [CHARACTER_ATTIRE]) as [H _].
    destruct (H eq_refl) as (r & Hr & _ & _ & ->). by injection Hr as <-.
  - destruct (X5_display_and_buttons (Some (attireAndPose (Some (JS.lit "X")) None))
                false (Some (JS.lit "e")) [CHARACTER_ATTIRE]) as [_ H].
    apply H. vm_compute. reflexivity.
Defined.

End FormatterMore.

(** ** More on the session store *)

Section StoreMore.

Import App.

Lemma filter_keeps_all {A} (P : A → Prop) `{∀ x, Decision (P x)} (l : list A) :
  (∀ x, x ∈ l → P x) → filter P l = l.
Proof.
  induction l as [|a l IH]; intros Hall; [done|].
  rewrite filter_cons, decide_True by (apply Hall; left).
  rewrite IH; [done|]. intros x Hx. apply Hall. by right.
Qed.

Lemma rename_fields (id' newName : jsstring) (st : State) :
  ids (rename id' newName st) = ids st
  ∧ contentState <$> tabs (rename id' newName st) = contentState <$> tabs st
  ∧ activeTabId (rename id' newName st) = activeTabId st.
Proof.
  rewrite rename_tabs. unfold ids. cbn [tabs activeTabId]. rewrite <- !list_fmap_compose.
  split; [|split; [|done]]; apply list_fmap_ext; intros i tab _; cbn;
    by destruct (decide (id tab = id')).
Qed.

(** X6.  The store's rename changes names only: the ids, their order, the
    content states and the active id are as before, a session of another id
    is untouched, and a rename of an id that no session has changes
    nothing. *)
Theorem X6_rename_frame (st : State) (id' newName : jsstring) :
  ids (rename id' newName st) = ids st
  ∧ contentState <$> tabs (rename id' newName st) = contentState <$> tabs st
  ∧ activeTabId (rename id' newName st) = activeTabId st
  ∧ (∀ i tab, tabs st !! i = Some tab → id tab ≠ id' →
       tabs (rename id' newName st) !! i = Some tab)
  ∧ (id' ∉ ids st → rename id' newName st = st).
Proof.
  destruct (rename_fields id' newName st) as (H1 & H2 & H3).
  split; [done|]. split; [done|]. split; [done|]. split.
  - intros i tab Hi Hne. rewrite rename_tabs. cbn [tabs].
    rewrite list_lookup_fmap, Hi. cbn. by rewrite decide_False.
  - intros Hnot. rewrite rename_tabs. destruct st as [ts a]. cbn [tabs activeTabId].
    f_equal. rewrite <- (list_fmap_id ts) at 2. apply list_fmap_ext.
    intros i tab Hi. cbn. rewrite decide_False; [done|].
    intros Heq. apply Hnot. unfold ids. cbn [tabs].
    apply list_elem_of_fmap. exists tab. split; [done|].
    by apply list_elem_of_lookup_2 in Hi.
Qed.

Lemma X6_rename_frame_witness :
  tabs (rename (JS.lit "b") (JS.lit "x") busyStore) !! 0%nat = Some busySession
  ∧ rename (JS.lit "b") (JS.lit "x") busyStore = busyStore.
Proof.
  destruct (X6_rename_frame busyStore (JS.lit "b") (JS.lit "x")) as (_ & _ & _ & H4 & H5).
  split.
  - apply H4; [reflexivity|]. apply differ. vm_compute. reflexivity.
  - apply H5. apply (bool_decide_unpack _). vm_compute. exact I.
Defined.

(** X7.  A content-state update of one session leaves every session of
    another id untouched and keeps the ids, their order, the names and the
    active id; for an id that no session has it changes nothing. *)
Theorem X7_content_update_isolated (st : State) (tabId : jsstring) (p : Partial.t) :
  ids (TabContent.commit st (TabContent.OnContentStateChange tabId p)) = ids st
  ∧ name <$> tabs (TabContent.commit st (TabContent.OnContentStateChange tabId p))
    = name <$> tabs st
  ∧ activeTabId (TabContent.commit st (TabContent.OnContentStateChange tabId p))
    = activeTabId st
  ∧ (∀ i tab, tabs st !! i = Some tab → id tab ≠ tabId →
       tabs (TabContent.commit st (TabContent.OnContentStateChange tabId p)) !! i
       = Some tab)
  ∧ (tabId ∉ ids st →
     TabContent.commit st (TabContent.OnContentStateChange tabId p) = st).
Proof.
  rewrite commit_change. unfold ids. cbn [tabs activeTabId].
  rewrite <- !list_fmap_compose.
  split; [|split; [|split; [done|split]]].
  - apply list_fmap_ext; intros i tab _; cbn. by destruct (decide (id tab = tabId)).
  - apply list_fmap_ext; intros i tab _; cbn. by destruct (decide (id tab = tabId)).
  - intros i tab Hi Hne. rewrite list_lookup_fmap, Hi. cbn. by rewrite decide_False.
  - intros Hnot. destruct st as [ts a]. cbn [tabs activeTabId] in *.
    f_equal. rewrite <- (list_fmap_id ts) at 2. apply list_fmap_ext.
    intros i tab Hi. cbn. rewrite decide_False; [done|].
    intros Heq. apply Hnot. apply list_elem_of_fmap. exists tab. split; [done|].
    by apply list_elem_of_lookup_2 in Hi.
Qed.

Lemma X7_content_update_isolated_witness :
  tabs (TabContent.commit busyStore
          (TabContent.OnContentStateChange (JS.lit "b") (Partial.with_error None))) !! 0%nat
  = Some busySession
  ∧ TabContent.commit busyStore
      (TabContent.OnContentStateChange (JS.lit "b") (Partial.with_error None))
    = busyStore.
Proof.
  destruct (X7_content_update_isolated busyStore (JS.lit "b") (Partial.with_error None))
    as (_ & _ & _ & H4 & H5).
  split.
  - apply H4; [reflexivity|]. apply differ. vm_compute. reflexivity.
  - apply H5. apply (bool_decide_unpack _). vm_compute. exact I.
Defined.

Lemma remaining_all (id' : jsstring) (ts : list Tab) :
  id' ∉ id <$> ts → remaining id' ts = ts.
Proof.
  intros Hnot. unfold remaining. apply filter_keeps_all.
  intros tab Htab Heq. apply Hnot. apply list_elem_of_fmap. by exists tab.
Qed.

(** X8.  In a store that has an active session, however React handles the
    call: when a session of another id is left, delete keeps exactly the
    sessions whose id differs from the deleted one, in their order, and the
    deleted id is gone; and deleting an id that no session has changes
    nothing.  When no session is left, the store afterwards holds exactly
    the one new session, which is active, if the updater runs during the next
    render, and no session at all if it runs inside the [setTabs] call. *)
Theorem X8_delete_exact (st : State) (d : Dispatch) (id' uniqueId : jsstring) :
  hasActive st →
  (remaining id' (tabs st) ≠ [] →
   tabs (step st (Delete d id' uniqueId)) = remaining id' (tabs st)
   ∧ id' ∉ ids (step st (Delete d id' uniqueId)))
  ∧ (remaining id' (tabs st) = [] →
     step st (Delete Queued id' uniqueId)
     = {| tabs := [newTabFor st uniqueId]; activeTabId := id (newTabFor st uniqueId) |}
     ∧ step st (Delete Eager id' uniqueId) = {| tabs := []; activeTabId := uniqueId |})
  ∧ (id' ∉ ids st → step st (Delete d id' uniqueId) = st).
Proof.
  intros Hact. rewrite !step_delete. split; [|split].
  - intros Hne. destruct (remaining id' (tabs st)) as [|first rest] eqn:E; [done|].
    unfold ids. cbn [tabs]. split; [done|]. rewrite <- E.
    intros (tab & Hid & Htab)%list_elem_of_fmap.
    apply list_elem_of_filter in Htab as [Hne' _]. congruence.
  - intros ->. done.
  - intros Hnot. rewrite (remaining_all id' (tabs st) Hnot).
    destruct st as [ts a]. unfold hasActive, ids in *. cbn [tabs activeTabId] in *.
    destruct ts as [|first rest]; [by apply not_elem_of_nil in Hact|].
    rewrite decide_False; [done|]. intros ->. by apply Hnot.
Qed.

Lemma X8_delete_exact_witness :
  step busyStore (Delete Eager (JS.lit "b") (JS.lit "c")) = busyStore
  ∧ tabs (step (run [Create (JS.lit "b")] (mount (JS.lit "a")))
            (Delete Eager (JS.lit "a") (JS.lit "c")))
    = remaining (JS.lit "a") (tabs (run [Create (JS.lit "b")] (mount (JS.lit "a"))))
  ∧ tabs (step busyStore (Delete Queued (JS.lit "a") (JS.lit "c")))
    = [newTabFor busyStore (JS.lit "c")]
  ∧ tabs (step busyStore (Delete Eager (JS.lit "a") (JS.lit "c"))) = [].
Proof.
  assert (hasActive busyStore) as Hact.
  { apply (bool_decide_unpack _). vm_compute. exact I. }
  split; [|split; [|split]].
  - destruct (X8_delete_exact busyStore Eager (JS.lit "b") (JS.lit "c") Hact) as (_ & _ & H).
    apply H. apply (bool_decide_unpack _). vm_compute. exact I.
  - assert (hasActive (run [Create (JS.lit "b")] (mount (JS.lit "a")))) as Hact2.
    { apply (bool_decide_unpack _). vm_compute. exact I. }
    destruct (X8_delete_exact _ Eager (JS.lit "a") (JS.lit "c") Hact2) as (H & _ & _).
    apply H. vm_compute. discriminate.
  - destruct (X8_delete_exact busyStore Queued (JS.lit "a") (JS.lit "c") Hact) as (_ & H & _).
    destruct H as [-> _]; vm_compute; reflexivity.
  - destruct (X8_delete_exact busyStore Eager (JS.lit "a") (JS.lit "c") Hact) as (_ & H & _).
    destruct H as [_ ->]; vm_compute; reflexivity.
Defined.

End StoreMore.

(** ** The tab strip *)

Section Strip.

Import App.

Lemma findIndexFrom_spec {A} (p : A → bool) (l : list A) (i0 : Z) :
  (TabbedInterface.findIndexFrom p l i0 = (-1)%Z ∧ ∀ a, a ∈ l → p a = false)
  ∨ (∃ k a, TabbedInterface.findIndexFrom p l i0 = (i0 + Z.of_nat k)%Z
            ∧ l !! k = Some a ∧ p a = true).
Proof.
  revert i0. induction l as [|a l IH]; intros i0; cbn [TabbedInterface.findIndexFrom].
  - left. split; [done|]. intros a Ha. by apply not_elem_of_nil in Ha.
  - destruct (p a) eqn:E.
    + right. exists 0%nat, a. split; [lia|done].
    + destruct (IH (i0 + 1)%Z) as [[H1 H2]|(k & b & H1 & H2 & H3)].
      * left. split; [done|]. intros b [->|Hb]%elem_of_cons; [done|by apply H2].
      * right. exists (S k), b. split; [lia|done].
Qed.

Lemma findIndex_found {A} (p : A → bool) (l : list A) :
  (TabbedInterface.findIndex p l =? -1)%Z = false →
  ∃ k a, TabbedInterface.findIndex p l = Z.of_nat k ∧ l !! k = Some a ∧ p a = true.
Proof.
  unfold TabbedInterface.findIndex. intros Hne%Z.eqb_neq.
  destruct (findIndexFrom_spec p l 0) as [[H _]|(k & a & H1 & H2 & H3)]; [done|].
  exists k, a. split; [lia|done].
Qed.

(** What a drop does: nothing to the order, or one reorder with both indices
    on tabs of the list. *)
Lemma handleDrop_cases (ts : list Tab) (draggingTabId : option jsstring)
    (targetId : jsstring) :
  TabbedInterface.handleDrop ts draggingTabId targetId
  = [TabbedInterface.PreventDefault; TabbedInterface.SetDraggingTabId None]
  ∨ ∃ (s e : nat) (dragged target : Tab),
      TabbedInterface.handleDrop ts draggingTabId targetId
      = [TabbedInterface.PreventDefault;
         TabbedInterface.ReorderTabs (Z.of_nat s) (Z.of_nat e);
         TabbedInterface.SetDraggingTabId None]
      ∧ draggingTabId = Some (id dragged) ∧ id target = targetId
      ∧ id dragged ≠ targetId
      ∧ ts !! s = Some dragged ∧ ts !! e = Some target.
Proof.
  unfold TabbedInterface.handleDrop.
  destruct draggingTabId as [dragging|]; [|by left].
  destruct (decide (dragging = targetId)) as [Heq|Hne].
  { rewrite bool_decide_eq_true_2 by done. by left. }
  rewrite bool_decide_eq_false_2 by done.
  destruct (TabbedInterface.findIndex (λ tab, bool_decide (id tab = dragging)) ts =? -1)%Z
    eqn:Es; [by left|].
  destruct (TabbedInterface.findIndex (λ tab, bool_decide (id tab = targetId)) ts =? -1)%Z
    eqn:Ee; [by left|].
  destruct (findIndex_found _ _ Es) as (s & dragged & Hs & Hsl & Hsp).
  destruct (findIndex_found _ _ Ee) as (e & target & He & Hel & Hep).
  apply bool_decide_eq_true in Hsp, Hep. subst dragging.
  right. exists s, e, dragged, target. rewrite Hs, He. done.
Qed.

Lemma moved_lookup (l : list Tab) (s e : nat) (x : Tab) :
  l !! s = Some x → (e < length l)%nat →
  (take e (delete s l) ++ x :: drop e (delete s l)) !! e = Some x.
Proof.
  intros Hs He. apply list_lookup_middle.
  rewrite length_take_le; [done|]. rewrite length_delete by eauto. lia.
Qed.

(** X9.  Whenever a drop calls the store's reorder, both indices are
    positions of tabs of the list (the dragged tab and the drop target), so
    the reorder leaves no empty slot, returns a permutation of the sessions,
    and puts the dragged tab where the target was. *)
Theorem X9_drop_reorders_validly (ts : list Tab) (draggingTabId : option jsstring)
    (targetId : jsstring) (s e : Z) :
  TabbedInterface.ReorderTabs s e ∈ TabbedInterface.handleDrop ts draggingTabId targetId →
  ∃ (dragged target : Tab) (result : list Tab),
    draggingTabId = Some (id dragged) ∧ id target = targetId ∧ id dragged ≠ targetId
    ∧ ts !! Z.to_nat s = Some dragged ∧ ts !! Z.to_nat e = Some target
    ∧ reorderTabs s e ts = Some <$> result
    ∧ result ≡ₚ ts
    ∧ result !! Z.to_nat e = Some dragged.
Proof.
  intros Hin.
  destruct (handleDrop_cases ts draggingTabId targetId)
    as [Hnone|(s' & e' & dragged & target & Hd & Hdrag & Htarget & Hne & Hs & He)].
  - rewrite Hnone in Hin. apply elem_of_cons in Hin as [Hin|Hin]; [discriminate|].
    apply list_elem_of_singleton in Hin. discriminate.
  - rewrite Hd in Hin. apply elem_of_cons in Hin as [Hin|Hin]; [discriminate|].
    apply elem_of_cons in Hin as [Hin|Hin];
      [|apply list_elem_of_singleton in Hin; discriminate].
    injection Hin as -> ->. rewrite !Nat2Z.id.
    pose proof (lookup_lt_Some _ _ _ He) as Hlt.
    exists dragged, target,
      (take e' (delete s' ts) ++ dragged :: drop e' (delete s' ts)).
    split; [done|]. split; [done|]. split; [done|]. split; [done|]. split; [done|].
    split; [by apply reorderTabs_inside|].
    split; [by apply moved_Permutation | by apply moved_lookup].
Qed.

Lemma X9_drop_reorders_validly_witness :
  ∃ (dragged target : Tab) (result : list Tab),
    Some (JS.lit "a") = Some (id dragged) ∧ id target = JS.lit "b"
    ∧ id dragged ≠ JS.lit "b"
    ∧ [busySession; newTabFor init (JS.lit "b")] !! Z.to_nat 0 = Some dragged
    ∧ [busySession; newTabFor init (JS.lit "b")] !! Z.to_nat 1 = Some target
    ∧ reorderTabs 0 1 [busySession; newTabFor init (JS.lit "b")] = Some <$> result
    ∧ result ≡ₚ [busySession; newTabFor init (JS.lit "b")]
    ∧ result !! Z.to_nat 1 = Some dragged.
Proof.
  apply (X9_drop_reorders_validly [busySession; newTabFor init (JS.lit "b")]
           (Some (JS.lit "a")) (JS.lit "b") 0 1).
  assert (TabbedInterface.handleDrop [busySession; newTabFor init (JS.lit "b")]
            (Some (JS.lit "a")) (JS.lit "b")
          = [TabbedInterface.PreventDefault; TabbedInterface.ReorderTabs 0 1;
             TabbedInterface.SetDraggingTabId None]) as ->
    by (vm_compute; reflexivity).
  apply elem_of_cons. right. apply elem_of_cons. left. reflexivity.
Defined.

End Strip.

(** ** The events of the interface on the store *)

Section UiStore.

Import App.

Lemma commit_change_fields (st : State) (tabId : jsstring) (p : Partial.t) :
  ids (flush (Plain <$> onTabContentStateChange tabId p) st) = ids st
  ∧ activeTabId (flush (Plain <$> onTabContentStateChange tabId p) st) = activeTabId st.
Proof.
  unfold ids. cbn. rewrite <- list_fmap_compose. split; [|done].
  apply list_fmap_ext; intros i tab _; cbn. by destruct (decide (id tab = tabId)).
Qed.

Lemma rename_submit_cases (st : State) (tabId tabName newTabName : jsstring) :
  DraggableTab.commits (DraggableTab.handleRenameSubmit tabId tabName newTabName) st = st
  ∨ DraggableTab.commits (DraggableTab.handleRenameSubmit tabId tabName newTabName) st
    = rename tabId (JS.trim newTabName) st.
Proof.
  unfold DraggableTab.handleRenameSubmit.
  destruct (JS.truthy (JS.trim newTabName) && bool_decide (newTabName ≠ tabName));
    [right | left]; reflexivity.
Qed.

Lemma mapM_slots (l : list Tab) : mapM (λ slot : option Tab, slot) (Some <$> l) = Some l.
Proof.
  induction l as [|a l IH]; [done|].
  rewrite fmap_cons. cbn [mapM]. rewrite IH. reflexivity.
Qed.

Lemma drop_step (st : State) (draggingTabId : option jsstring) (i : nat) (tab : Tab) :
  tabs st !! i = Some tab →
  ∃ ts, Ui.step st (Ui.Drop draggingTabId i)
        = Some {| tabs := ts; activeTabId := activeTabId st |}
        ∧ ts ≡ₚ tabs st.
Proof.
  intros Hi. cbn [Ui.step]. rewrite Hi.
  destruct (handleDrop_cases (tabs st) draggingTabId (id tab))
    as [->|(s & e & dragged & target & -> & _ & _ & _ & Hs & He)].
  - exists (tabs st). by destruct st.
  - pose proof (lookup_lt_Some _ _ _ He) as Hlt.
    exists (take e (delete s (tabs st)) ++ dragged :: drop e (delete s (tabs st))).
    split; [|by apply moved_Permutation].
    cbn [foldl Ui.dropEffect mbind option_bind]. unfold Ui.reorder.
    rewrite (reorderTabs_inside _ _ _ _ Hs Hlt), mapM_slots. reflexivity.
Qed.

Lemma emptyOrActive_ids (st st' : State) :
  ids st' = ids st → activeTabId st' = activeTabId st → emptyOrActive st →
  emptyOrActive st' ∧ (tabs st ≠ [] → tabs st' ≠ []).
Proof.
  unfold emptyOrActive, hasActive, ids. intros Hids Ha Hinv. split.
  - destruct Hinv as [Hnil|Hact].
    + left. rewrite Hnil in Hids. by destruct (tabs st').
    + right. by rewrite Ha, Hids.
  - intros Hne Hnil. rewrite Hnil in Hids. destruct (tabs st); [done|discriminate].
Qed.

Lemma ui_step_keeps (st : State) (ev : Ui.Event) :
  emptyOrActive st →
  ∃ st', Ui.step st ev = Some st'
         ∧ emptyOrActive st'
         ∧ (queuedEvent ev → tabs st ≠ [] → tabs st' ≠ []).
Proof.
  intros Hinv. destruct ev as [u|i|d i u|i newTabName|d i|tabId p].
  - exists (step st (Create u)). split; [done|]. rewrite step_create. split.
    + right. unfold hasActive. cbn [tabs activeTabId]. rewrite fmap_app.
      apply elem_of_app. right. apply list_elem_of_singleton. reflexivity.
    + intros _ _. cbn [tabs]. by destruct (tabs st).
  - cbn [Ui.step]. destruct (tabs st !! i) as [tab|] eqn:Hi; [|by exists st].
    eexists. split; [done|]. split; [|done].
    right. unfold hasActive. cbn. apply list_elem_of_fmap. exists tab. split; [done|].
    by apply list_elem_of_lookup_2 in Hi.
  - cbn [Ui.step]. destruct (tabs st !! i) as [tab|] eqn:Hi; [|by exists st].
    exists (step st (Delete d (id tab) u)). split; [done|].
    destruct Hinv as [Hnil|Hact]; [by rewrite Hnil in Hi|].
    rewrite step_delete. destruct (remaining (id tab) (tabs st)) as [|first rest] eqn:E.
    + destruct d; cbn [tabs activeTabId]; (split; [|done]); [right | by left].
      unfold hasActive. cbn [tabs activeTabId]. apply list_elem_of_singleton. reflexivity.
    + split; [|done]. right. unfold hasActive in *. cbn [tabs activeTabId].
      destruct (decide (id tab = activeTabId st)) as [Heq|Hne].
      * apply list_elem_of_here.
      * apply list_elem_of_fmap in Hact as (tab' & Hid & Htab).
        apply list_elem_of_fmap. exists tab'. split; [done|].
        rewrite <- E. apply list_elem_of_filter. split; [congruence|done].
  - cbn [Ui.step]. destruct (tabs st !! i) as [tab|] eqn:Hi; [|by exists st].
    eexists. split; [done|].
    destruct (rename_submit_cases st (id tab) (name tab) newTabName) as [->| ->]; [done|].
    destruct (rename_fields (id tab) (JS.trim newTabName) st) as (H1 & _ & H3).
    destruct (emptyOrActive_ids st _ H1 H3 Hinv) as [H4 H5]. by split.
  - destruct (tabs st !! i) as [tab|] eqn:Hi; [|exists st; cbn [Ui.step]; by rewrite Hi].
    destruct (drop_step st d i tab Hi) as (ts & -> & Hperm).
    eexists. split; [done|]. cbn [tabs]. split.
    + destruct Hinv as [Hnil|Hact]; [by rewrite Hnil in Hi|].
      right. unfold hasActive in *. cbn [tabs activeTabId]. by rewrite Hperm.
    + intros _ _ ->. apply Permutation_nil_l in Hperm. by rewrite <- Hperm in Hi.
  - cbn [Ui.step]. eexists. split; [done|].
    destruct (commit_change_fields st tabId p) as [H1 H2].
    destruct (emptyOrActive_ids st _ H1 H2 Hinv) as [H4 H5]. by split.
Qed.

Lemma ui_run_keeps (events : list Ui.Event) (st : State) :
  emptyOrActive st →
  ∃ st', Ui.run events st = Some st'
         ∧ emptyOrActive st'
         ∧ (Forall queuedEvent events → tabs st ≠ [] → tabs st' ≠ []).
Proof.
  revert st. induction events as [|ev events IH]; intros st Hinv.
  - by exists st.
  - destruct (ui_step_keeps st ev Hinv) as (st1 & Hstep & Hinv1 & Hne1).
    destruct (IH st1 Hinv1) as (st' & Hr & Hinv' & Hne').
    exists st'. split; [cbn [Ui.run]; by rewrite Hstep|]. split; [done|].
    intros [Hev Hq]%Forall_cons Hne. by apply Hne', Hne1.
Qed.

Lemma find_active (ts : list Tab) (a : jsstring) :
  a ∈ id <$> ts →
  ∃ tab, TabbedInterface.find (λ tab, bool_decide (id tab = a)) ts = Some tab ∧ id tab = a.
Proof.
  induction ts as [|t ts IH]; [by intros ?%not_elem_of_nil|].
  rewrite fmap_cons. cbn [TabbedInterface.find].
  destruct (decide (id t = a)) as [Heq|Hne].
  - intros _. rewrite bool_decide_eq_true_2 by done. by exists t.
  - rewrite bool_decide_eq_false_2 by done.
    intros [Ha|Ha]%elem_of_cons; [congruence|]. by apply IH.
Qed.

(** X10.  From the mounted application, after every sequence of events of
    the interface (add, select, delete, rename, drop, content-state update),
    however React handles each delete, the store holds no empty slot, and
    either it holds no session or the tab strip finds a current tab to show,
    the session of the active id.  The store is left without a session only
    by a delete whose updater React ran inside the [setTabs] call: when the
    updater of every delete ran during the next render, the store holds at
    least one session. *)
Theorem X10_ui_current_tab (uniqueId : jsstring) (events : list Ui.Event) :
  ∃ st,
    Ui.run events (mount uniqueId) = Some st
    ∧ (tabs st = []
       ∨ ∃ tab, TabbedInterface.currentTab (tabs st) (activeTabId st) = Some tab
                ∧ id tab = activeTabId st)
    ∧ (Forall queuedEvent events → tabs st ≠ []).
Proof.
  destruct (ui_run_keeps events (mount uniqueId)) as (st & Hr & Hinv & Hne).
  - right. rewrite mount_tabs. apply list_elem_of_singleton. reflexivity.
  - exists st. split; [done|]. split.
    + destruct Hinv as [Hnil|Hact]; [by left|]. right. by apply find_active.
    + intros Hq. apply Hne; [done|]. by rewrite mount_tabs.
Qed.

Lemma X10_ui_current_tab_witness :
  ∃ st,
    Ui.run [Ui.ClickDelete Queued 0 (JS.lit "b"); Ui.ClickAdd (JS.lit "c")]
      (mount (JS.lit "a")) = Some st
    ∧ tabs st ≠ [].
Proof.
  destruct (X10_ui_current_tab (JS.lit "a")
              [Ui.ClickDelete Queued 0 (JS.lit "b"); Ui.ClickAdd (JS.lit "c")])
    as (st & Hr & _ & Hne).
  exists st. split; [exact Hr|]. apply Hne.
  repeat constructor.
Defined.

Lemma NoDup_fmap_filter {A B} (f : A → B) (P : A → Prop) `{∀ x, Decision (P x)}
    (l : list A) :
  NoDup (f <$> l) → NoDup (f <$> filter P l).
Proof.
  induction l as [|a l IH]; [done|].
  rewrite fmap_cons, NoDup_cons. intros [Hnot Hnd].
  rewrite filter_cons. destruct (decide (P a)); [|by apply IH].
  rewrite fmap_cons. apply NoDup_cons. split; [|by apply IH].
  intros (x & Hx & Hin)%list_elem_of_fmap. apply list_elem_of_filter in Hin as [_ Hin].
  apply Hnot. apply list_elem_of_fmap. by exists x.
Qed.

(** X11.  Ids stay unique: if the sessions of a store have pairwise
    different ids and an add is given an id not in use, the sessions after
    any event of the interface have pairwise different ids again. *)
Theorem X11_ids_stay_unique (st st' : State) (ev : Ui.Event) :
  NoDup (ids st) → freshFor st ev → Ui.step st ev = Some st' → NoDup (ids st').
Proof.
  intros Hnd Hfresh Hstep.
  destruct ev as [u|i|d' i u|i newTabName|d i|tabId p]; cbn [Ui.step] in Hstep.
  - injection Hstep as <-. change (NoDup (ids (step st (Create u)))).
    rewrite step_create. unfold ids in *. cbn [tabs]. rewrite fmap_app.
    apply NoDup_app. split; [done|]. split; [|apply NoDup_singleton].
    intros x Hx ->%list_elem_of_singleton. by apply Hfresh.
  - destruct (tabs st !! i) as [tab|]; injection Hstep as <-; exact Hnd.
  - destruct (tabs st !! i) as [tab|]; injection Hstep as <-; [|exact Hnd].
    change (NoDup (ids (step st (Delete d' (id tab) u)))). rewrite step_delete.
    destruct (remaining (id tab) (tabs st)) as [|first rest] eqn:E;
      unfold ids; cbn [tabs];
      [destruct d'; [apply NoDup_singleton | apply NoDup_nil_2]|].
    rewrite <- E. by apply NoDup_fmap_filter.
  - destruct (tabs st !! i) as [tab|]; injection Hstep as <-; [|exact Hnd].
    destruct (rename_submit_cases st (id tab) (name tab) newTabName) as [->| ->]; [done|].
    destruct (rename_fields (id tab) (JS.trim newTabName) st) as (-> & _ & _). exact Hnd.
  - destruct (tabs st !! i) as [tab|] eqn:Hi; [|by injection Hstep as <-].
    destruct (drop_step st d i tab Hi) as (ts & Hd & Hperm).
    cbn [Ui.step] in Hd. rewrite Hi in Hd. rewrite Hd in Hstep. injection Hstep as <-.
    unfold ids in *. cbn [tabs]. by rewrite Hperm.
  - injection Hstep as <-. destruct (commit_change_fields st tabId p) as [H _].
    exact (eq_ind_r NoDup Hnd H).
Qed.

Lemma X11_ids_stay_unique_witness :
  NoDup (ids (run [Create (JS.lit "b")] (mount (JS.lit "a")))).
Proof.
  apply (X11_ids_stay_unique (mount (JS.lit "a")) _ (Ui.ClickAdd (JS.lit "b"))).
  - apply (bool_decide_unpack _). vm_compute. exact I.
  - apply (bool_decide_unpack _). vm_compute. exact I.
  - reflexivity.
Defined.

End UiStore.

(** ** More on the session panel *)

Section PanelMore.

Import App.

Lemma trim_truthy (s : jsstring) : blank s = false → JS.truthy (JS.trim s) = true.
Proof.
  intros Hb. destruct (JS.trim s) as [|c u] eqn:E; [|done].
  apply trim_nil_iff in E. congruence.
Qed.

Lemma commits_app (e1 e2 : list TabContent.Effect) (st : State) :
  TabContent.commits (e1 ++ e2) st = TabContent.commits e2 (TabContent.commits e1 st).
Proof. unfold TabContent.commits. apply foldl_app. Qed.

Lemma handleAnalyze_no_image (tabId : jsstring) (c : TabContentState)
    (analyzeImage : jsstring → list AnalysisOption → jsstring → bool → TabContent.Settled)
    (isDetailedRequest : bool) :
  JS.truthy_opt (uploadedImage c) = false →
  TabContent.handleAnalyze tabId c analyzeImage isDetailedRequest
  = [TabContent.OnContentStateChange tabId (Partial.with_error (Some uploadFirst))].
Proof.
  intros Himg. unfold TabContent.handleAnalyze, uploadFirst.
  destruct (uploadedImage c) as [image|]; [|done].
  cbn [JS.truthy_opt] in Himg. by rewrite Himg.
Qed.

Lemma handleAnalyze_goes (tabId : jsstring) (c : TabContentState)
    (analyzeImage : jsstring → list AnalysisOption → jsstring → bool → TabContent.Settled)
    (isDetailedRequest : bool) (image : jsstring) :
  uploadedImage c = Some image → JS.truthy image = true →
  (OTHER ∈ selectedOptions c → blank (otherAnalysisText c) = false) →
  ∃ after tail,
    TabContent.handleAnalyze tabId c analyzeImage isDetailedRequest
    = [TabContent.OnContentStateChange tabId
         {| Partial.uploadedImage := None; Partial.selectedOptions := None;
            Partial.rawAnalysisResult := Some None; Partial.isLoading := Some true;
            Partial.error := Some None; Partial.otherAnalysisText := None |};
       TabContent.AnalyzeImage image (selectedOptions c) (otherAnalysisText c)
         isDetailedRequest]
      ++ (TabContent.OnContentStateChange tabId <$> after)
      ++ [TabContent.OnContentStateChange tabId
            {| Partial.uploadedImage := None; Partial.selectedOptions := None;
               Partial.rawAnalysisResult := None; Partial.isLoading := Some false;
               Partial.error := None; Partial.otherAnalysisText := None |}]
      ++ tail
    ∧ (length after ≤ 1)%nat
    ∧ (tail = [] ∨ tail = [TabContent.UncaughtTypeError])
    ∧ (tail = [TabContent.UncaughtTypeError]
       ↔ analyzeImage image (selectedOptions c) (otherAnalysisText c) isDetailedRequest
         = TabContent.RejectedNullish)
    ∧ ∀ c0,
        merge (foldl merge (merge c0
          {| Partial.uploadedImage := None; Partial.selectedOptions := None;
             Partial.rawAnalysisResult := Some None; Partial.isLoading := Some true;
             Partial.error := Some None; Partial.otherAnalysisText := None |}) after)
          {| Partial.uploadedImage := None; Partial.selectedOptions := None;
             Partial.rawAnalysisResult := None; Partial.isLoading := Some false;
             Partial.error := None; Partial.otherAnalysisText := None |}
        = analysed c0
            (analyzeImage image (selectedOptions c) (otherAnalysisText c) isDetailedRequest).
Proof.
  intros Himg Htruthy Hother. unfold TabContent.handleAnalyze. rewrite Himg, Htruthy.
  cbn [negb].
  assert (includes (selectedOptions c) OTHER
          && negb (JS.truthy (JS.trim (otherAnalysisText c))) = false) as ->.
  { unfold includes. destruct (decide (OTHER ∈ selectedOptions c)) as [Hin|Hout].
    - rewrite (trim_truthy _ (Hother Hin)). apply andb_false_r.
    - by rewrite bool_decide_eq_false_2. }
  cbv zeta.
  destruct (analyzeImage image (selectedOptions c) (otherAnalysisText c) isDetailedRequest)
    as [result|message|].
  - eexists [_], []. split; [reflexivity|]. split; [done|]. split; [by left|].
    split; [done|]. intros c0. unfold analysed. reflexivity.
  - eexists [_], []. split; [reflexivity|]. split; [done|]. split; [by left|].
    split; [done|]. intros c0. unfold analysed, analysisFailed. reflexivity.
  - exists [], [TabContent.UncaughtTypeError]. split; [reflexivity|].
    split; [cbn; lia|]. split; [by right|]. split; [done|]. intros c0. reflexivity.
Qed.

Lemma commits_updates (st : State) (tabId : jsstring) (i : nat) (tab : Tab)
    (updates : list Partial.t) :
  sessionAt st i tabId tab →
  sessionAt (TabContent.commits (TabContent.OnContentStateChange tabId <$> updates) st)
    i tabId (withContent tab (foldl merge (contentState tab) updates)).
Proof.
  revert st tab. induction updates as [|p updates IH]; intros st tab Hs.
  - cbn. by destruct tab.
  - rewrite fmap_cons. unfold TabContent.commits. cbn [foldl].
    pose proof (commit_change_session _ _ p _ _ Hs) as H1.
    apply IH in H1. exact H1.
Qed.

(** X12.  Analyze on a session without an image makes one content-state
    update that sets the message to upload an image first, makes no call of
    the analysis client, and changes nothing else of the session. *)
Theorem X12_analyze_without_image (st : State) (tabId : jsstring) (i : nat) (tab : Tab)
    (analyzeImage : jsstring → list AnalysisOption → jsstring → bool → TabContent.Settled)
    (isDetailedRequest : bool) :
  sessionAt st i tabId tab →
  JS.truthy_opt (uploadedImage (contentState tab)) = false →
  TabContent.clientCalls
    (TabContent.handleAnalyze tabId (contentState tab) analyzeImage isDetailedRequest) = []
  ∧ tabs (TabContent.commits
            (TabContent.handleAnalyze tabId (contentState tab) analyzeImage
               isDetailedRequest) st) !! i
    = Some (withContent tab (withError (contentState tab) (Some uploadFirst))).
Proof.
  intros Hs Himg. rewrite (handleAnalyze_no_image _ _ _ _ Himg).
  split; [reflexivity|]. unfold TabContent.commits. cbn [foldl].
  by rewrite (commit_change_at _ _ _ _ _ Hs).
Qed.

Lemma X12_analyze_without_image_witness :
  tabs (TabContent.commits
          (TabContent.handleAnalyze (JS.lit "a") (contentState (newTabFor init (JS.lit "a")))
             (λ _ _ _ _, TabContent.Rejected None) false) (mount (JS.lit "a"))) !! 0%nat
  = Some (withContent (newTabFor init (JS.lit "a"))
            (withError (contentState (newTabFor init (JS.lit "a"))) (Some uploadFirst))).
Proof.
  destruct (X12_analyze_without_image (mount (JS.lit "a")) (JS.lit "a") 0
              (newTabFor init (JS.lit "a")) (λ _ _ _ _, TabContent.Rejected None) false)
    as [_ H]; [split; reflexivity | reflexivity | exact H].
Defined.

(** X13.  Analyze on a session with an image, and with a free text that is
    not blank when 'other' is selected, calls the analysis client exactly
    once, with the session's image, options and free text and the detail
    flag.  Afterwards the session is not loading; on success it holds the
    returned result and no error; on a failure whose reason has a message to
    read it holds no result and that message, or a fixed message when it is
    missing or empty.  On a failure whose reason is [null] or [undefined]
    the [catch] block throws before it sets a message: the session holds
    neither result nor error message, and the handler ends with an uncaught
    [TypeError], which happens in no other case.  Image, options and free
    text are unchanged. *)
Theorem X13_analyze_outcome (st : State) (tabId : jsstring) (i : nat) (tab : Tab)
    (analyzeImage : jsstring → list AnalysisOption → jsstring → bool → TabContent.Settled)
    (isDetailedRequest : bool) (image : jsstring) :
  sessionAt st i tabId tab →
  uploadedImage (contentState tab) = Some image → JS.truthy image = true →
  (OTHER ∈ selectedOptions (contentState tab) →
   blank (otherAnalysisText (contentState tab)) = false) →
  TabContent.clientCalls
    (TabContent.handleAnalyze tabId (contentState tab) analyzeImage isDetailedRequest)
  = [TabContent.AnalyzeImage image (selectedOptions (contentState tab))
       (otherAnalysisText (contentState tab)) isDetailedRequest]
  ∧ tabs (TabContent.commits
            (TabContent.handleAnalyze tabId (contentState tab) analyzeImage
               isDetailedRequest) st) !! i
    = Some (withContent tab
              (analysed (contentState tab)
                 (analyzeImage image (selectedOptions (contentState tab))
                    (otherAnalysisText (contentState tab)) isDetailedRequest)))
  ∧ (TabContent.UncaughtTypeError
       ∈ TabContent.handleAnalyze tabId (contentState tab) analyzeImage isDetailedRequest
     ↔ analyzeImage image (selectedOptions (contentState tab))
         (otherAnalysisText (contentState tab)) isDetailedRequest
       = TabContent.RejectedNullish).
Proof.
  intros Hs Himg Htruthy Hother.
  destruct (handleAnalyze_goes tabId (contentState tab) analyzeImage isDetailedRequest
              image Himg Htruthy Hother) as (after & tail & -> & Hlen & Htail & Hiff & Hmerge).
  split; [|split].
  - destruct after as [|p [|q after]]; [| |cbn in Hlen; lia];
      destruct Htail as [-> | ->]; reflexivity.
  - rewrite !commits_app.
    pose proof (commit_change_session _ _
      {| Partial.uploadedImage := None; Partial.selectedOptions := None;
         Partial.rawAnalysisResult := Some None; Partial.isLoading := Some true;
         Partial.error := Some None; Partial.otherAnalysisText := None |} _ _ Hs) as H1.
    pose proof (commits_updates _ _ _ _ after H1) as H2.
    pose proof (commit_change_at _ _
      {| Partial.uploadedImage := None; Partial.selectedOptions := None;
         Partial.rawAnalysisResult := None; Partial.isLoading := Some false;
         Partial.error := None; Partial.otherAnalysisText := None |} _ _ H2) as H3.
    assert (∀ st0, TabContent.commits tail st0 = st0) as ->.
    { intros st0. by destruct Htail as [-> | ->]. }
    unfold TabContent.commits at 1 3. cbn [foldl]. cbn [TabContent.commit] in H3 |- *.
    rewrite H3. cbn [contentState id name withContent]. by rewrite Hmerge.
  - rewrite <- Hiff. split.
    + intros Hin. destruct Htail as [-> | ->]; [|done]. exfalso.
      rewrite app_nil_r in Hin.
      apply elem_of_app in Hin as [Hin|Hin].
      * apply elem_of_cons in Hin as [Hin|Hin]; [discriminate|].
        apply list_elem_of_singleton in Hin. discriminate.
      * apply elem_of_app in Hin as [Hin|Hin].
        -- apply list_elem_of_fmap in Hin as (p & Hp & _). discriminate.
        -- apply list_elem_of_singleton in Hin. discriminate.
    + intros ->. rewrite !elem_of_app. right. right. right.
      apply list_elem_of_singleton. reflexivity.
Qed.

Lemma X13_analyze_outcome_witness :
  tabs (TabContent.commits
          (TabContent.handleAnalyze (JS.lit "a") (contentState readySession)
             (λ _ _ _ _, TabContent.Rejected (Some [])) false) readyStore) !! 0%nat
  = Some (withContent readySession
            (analysed (contentState readySession) (TabContent.Rejected (Some []))))
  ∧ error (analysed (contentState readySession) (TabContent.Rejected (Some [])))
    = Some analysisFailed
  ∧ (TabContent.UncaughtTypeError
       ∈ TabContent.handleAnalyze (JS.lit "a") (contentState readySession)
           (λ _ _ _ _, TabContent.RejectedNullish) false).
Proof.
  assert (OTHER ∈ selectedOptions (contentState readySession) →
          blank (otherAnalysisText (contentState readySession)) = false) as Hother.
  { intros Hin. exfalso. revert Hin. apply (bool_decide_unpack _). vm_compute. exact I. }
  split; [|split; [reflexivity|]].
  - destruct (X13_analyze_outcome readyStore (JS.lit "a") 0 readySession
                (λ _ _ _ _, TabContent.Rejected (Some [])) false
                (JS.lit "data:image/png;base64,AAAA")) as (_ & H & _);
      [split; reflexivity | reflexivity | reflexivity | exact Hother | exact H].
  - destruct (X13_analyze_outcome readyStore (JS.lit "a") 0 readySession
                (λ _ _ _ _, TabContent.RejectedNullish) false
                (JS.lit "data:image/png;base64,AAAA")) as (_ & _ & H);
      [split; reflexivity | reflexivity | reflexivity | exact Hother |].
    apply H. reflexivity.
Defined.

(** X14.  When the analyze button is enabled (not loading, image present),
    analyze never reports a missing image: it either reports the missing
    free text for 'other' or calls the analysis client exactly once. *)
Theorem X14_enabled_analyze (tabId : jsstring) (c : TabContentState)
    (analyzeImage : jsstring → list AnalysisOption → jsstring → bool → TabContent.Settled)
    (isDetailedRequest : bool) :
  AnalysisOptions.isAnalyzeButtonDisabled (isLoading c) (JS.truthy_opt (uploadedImage c))
  = false →
  TabContent.handleAnalyze tabId c analyzeImage isDetailedRequest
  = [TabContent.OnContentStateChange tabId (Partial.with_error (Some otherNeedsText))]
  ∨ length (TabContent.clientCalls
              (TabContent.handleAnalyze tabId c analyzeImage isDetailedRequest)) = 1%nat.
Proof.
  unfold AnalysisOptions.isAnalyzeButtonDisabled.
  intros [_ Himg%negb_false_iff]%orb_false_iff.
  destruct (uploadedImage c) as [image|] eqn:E; [|discriminate].
  cbn [JS.truthy_opt] in Himg.
  destruct (decide (OTHER ∈ selectedOptions c)) as [Hin|Hout].
  - destruct (blank (otherAnalysisText c)) eqn:Hb.
    + left. unfold TabContent.handleAnalyze, otherNeedsText. rewrite E, Himg. cbn [negb].
      unfold includes. rewrite bool_decide_eq_true_2 by done.
      by rewrite (trim_blank _ Hb).
    + right. destruct (handleAnalyze_goes tabId c analyzeImage isDetailedRequest image
                         E Himg (λ _, Hb)) as (after & tail & -> & Hlen & Htail & _).
      destruct after as [|p [|q after]]; [| |cbn in Hlen; lia];
        destruct Htail as [-> | ->]; reflexivity.
  - right. destruct (handleAnalyze_goes tabId c analyzeImage isDetailedRequest image
                       E Himg) as (after & tail & -> & Hlen & Htail & _); [done|].
    destruct after as [|p [|q after]]; [| |cbn in Hlen; lia];
      destruct Htail as [-> | ->]; reflexivity.
Qed.

Lemma X14_enabled_analyze_witness :
  TabContent.handleAnalyze (JS.lit "a") (contentState busySession)
    (λ _ _ _ _, TabContent.Rejected None) false
  = [TabContent.OnContentStateChange (JS.lit "a")
       (Partial.with_error (Some otherNeedsText))]
  ∨ length (TabContent.clientCalls
              (TabContent.handleAnalyze (JS.lit "a") (contentState busySession)
                 (λ _ _ _ _, TabContent.Rejected None) false)) = 1%nat.
Proof.
  apply X14_enabled_analyze. reflexivity.
Defined.

End PanelMore.

(** ** More on the image intake *)

Section Intake.

Variable File : Type.
Variable readAsDataURL : File → ImageUploader.ReadOutcome.
Variable URL : jsstring → option (jsstring * jsstring).
Variable toLowerCase : jsstring → jsstring.
Variable fetch : jsstring → ImageUploader.FetchOutcome File.

Local Opaque JS.lit JS.of_nat ImageUploader.startsWith.

Lemma startsWith_app (p s : jsstring) : ImageUploader.startsWith (p ++ s) p = true.
Proof.
  Local Transparent ImageUploader.startsWith.
  unfold ImageUploader.startsWith. apply bool_decide_eq_true. apply take_app_length.
  Local Opaque ImageUploader.startsWith.
Qed.

Lemma fetch_cases (url : jsstring) :
  (∃ image r ct,
     fetch url = ImageUploader.FetchResponse File r
     ∧ ImageUploader.ok File r = true
     ∧ ImageUploader.contentType File r = Some ct
     ∧ ImageUploader.startsWith ct (JS.lit "image/") = true
     ∧ readAsDataURL (ImageUploader.blob File r) = ImageUploader.LoadedString image
     ∧ ImageUploader.fetchImageFromUrl File readAsDataURL fetch url
       = ([ImageUploader.OnSetError None; ImageUploader.SetIsUrlLoading true;
           ImageUploader.OnSetError None; ImageUploader.OnImageUpload image;
           ImageUploader.SetUrlInput []; ImageUploader.SetIsUrlLoading false], inl tt))
  ∨ (∃ trace inner,
       (∀ r ct image,
          fetch url = ImageUploader.FetchResponse File r →
          ImageUploader.ok File r = true →
          ImageUploader.contentType File r = Some ct →
          ImageUploader.startsWith ct (JS.lit "image/") = true →
          readAsDataURL (ImageUploader.blob File r) = ImageUploader.LoadedString image →
          False)
       ∧ ImageUploader.uploads trace = []
       ∧ ImageUploader.fetchImageFromUrl File readAsDataURL fetch url
         = (ImageUploader.OnSetError None :: ImageUploader.SetIsUrlLoading true :: trace
            ++ [ImageUploader.ConsoleError; ImageUploader.SetIsUrlLoading false],
            inr (JS.lit "載入圖片失敗: " ++ inner ++ JS.lit "."))).
Proof.
  unfold ImageUploader.fetchImageFromUrl, ImageUploader.processFile.
  destruct (fetch url) as [message|[ok status statusText ct blob]] eqn:Ef.
  - right. exists [], message. split; [discriminate|]. split; [done|]. reflexivity.
  - destruct ok; [destruct ct as [[|c ct]|]|].
    + right. eexists [], _. split; [|split; [done|reflexivity]].
      intros r ct' image [= <-] _ [= <-]. vm_compute. discriminate.
    + destruct (ImageUploader.startsWith (c :: ct) (JS.lit "image/")) eqn:Es;
        [destruct (readAsDataURL blob) as [image| |] eqn:Er|].
      * left. eexists image, _, (c :: ct).
        split; [reflexivity|]. repeat (split; [done|]).
        cbn. rewrite Es, Er. reflexivity.
      * right. eexists [ImageUploader.OnSetError None], _.
        split; [|split; [done|]].
        -- intros r ct' image [= <-] _ _ _. cbn. congruence.
        -- cbn. rewrite Es, Er. reflexivity.
      * right. eexists [ImageUploader.OnSetError None], _.
        split; [|split; [done|]].
        -- intros r ct' image [= <-] _ _ _. cbn. congruence.
        -- cbn. rewrite Es, Er. reflexivity.
      * right. eexists [], _. split; [|split; [done|]].
        -- intros r ct' image [= <-] _ [= <-]. cbn. congruence.
        -- cbn. rewrite Es. reflexivity.
    + right. eexists [], _. split; [|split; [done|reflexivity]].
      intros r ct' image [= <-] _. discriminate.
    + right. eexists [], _. split; [|split; [done|reflexivity]].
      intros r ct' image [= <-]. discriminate.
Qed.

Lemma processFile_cases (file : File) :
  (∃ image, readAsDataURL file = ImageUploader.LoadedString image
            ∧ ImageUploader.processFile File readAsDataURL file
              = ([ImageUploader.OnSetError None; ImageUploader.OnImageUpload image], inl tt))
  ∨ (∃ message, (∀ image, readAsDataURL file ≠ ImageUploader.LoadedString image)
                ∧ ImageUploader.processFile File readAsDataURL file
                  = ([ImageUploader.OnSetError None], inr message)).
Proof.
  unfold ImageUploader.processFile.
  destruct (readAsDataURL file) as [image| |]; [left; by exists image|right..];
    eexists; (split; [discriminate|reflexivity]).
Qed.

(** X15.  Loading an image from a URL: when the response is ok, declares a
    content type that starts with "image/", and its body is read as a
    string, exactly that one image is handed to the session and the call
    ends normally; an image is handed over only in that case.  In every
    other case nothing is handed over and the call throws an error whose
    message starts with the fixed load-failure text.  Either way its last
    effect clears the URL loading flag. *)
Theorem X15_fetch_accepts_images_only (url : jsstring) :
  (∀ r ct image,
     fetch url = ImageUploader.FetchResponse File r →
     ImageUploader.ok File r = true →
     ImageUploader.contentType File r = Some ct →
     ImageUploader.startsWith ct (JS.lit "image/") = true →
     readAsDataURL (ImageUploader.blob File r) = ImageUploader.LoadedString image →
     ImageUploader.uploads
       (ImageUploader.fetchImageFromUrl File readAsDataURL fetch url).1 = [image]
     ∧ (ImageUploader.fetchImageFromUrl File readAsDataURL fetch url).2 = inl tt)
  ∧ (∀ image,
       image ∈ ImageUploader.uploads
                 (ImageUploader.fetchImageFromUrl File readAsDataURL fetch url).1 →
       ∃ r ct,
         fetch url = ImageUploader.FetchResponse File r
         ∧ ImageUploader.ok File r = true
         ∧ ImageUploader.contentType File r = Some ct
         ∧ ImageUploader.startsWith ct (JS.lit "image/") = true
         ∧ readAsDataURL (ImageUploader.blob File r) = ImageUploader.LoadedString image)
  ∧ ((ImageUploader.fetchImageFromUrl File readAsDataURL fetch url).2 = inl tt →
     ∃ image, ImageUploader.uploads
                (ImageUploader.fetchImageFromUrl File readAsDataURL fetch url).1 = [image])
  ∧ (∀ message,
       (ImageUploader.fetchImageFromUrl File readAsDataURL fetch url).2 = inr message →
       ImageUploader.startsWith message (JS.lit "載入圖片失敗: ") = true
       ∧ ImageUploader.uploads
           (ImageUploader.fetchImageFromUrl File readAsDataURL fetch url).1 = [])
  ∧ last (ImageUploader.fetchImageFromUrl File readAsDataURL fetch url).1
    = Some (ImageUploader.SetIsUrlLoading false).
Proof.
  destruct (fetch_cases url)
    as [(image & r & ct & Hf & Hok & Hct & Hs & Hr & ->)
       |(trace & inner & Hno & Hup & ->)]; cbn [fst snd].
  - split; [|split; [|split; [|split]]].
    + intros r' ct' image' Hf' _ _ _ Hr'. rewrite Hf in Hf'. injection Hf' as <-.
      rewrite Hr in Hr'. injection Hr' as <-. done.
    + intros image' Hin. cbn in Hin. apply list_elem_of_singleton in Hin as ->.
      by exists r, ct.
    + intros _. by exists image.
    + intros message. discriminate.
    + reflexivity.
  - assert (ImageUploader.uploads
              (ImageUploader.OnSetError None :: ImageUploader.SetIsUrlLoading true
               :: trace ++ [ImageUploader.ConsoleError; ImageUploader.SetIsUrlLoading false])
            = []) as Hnone.
    { unfold ImageUploader.uploads in *. cbn [omap list_omap].
      rewrite omap_app, Hup. reflexivity. }
    split; [|split; [|split; [|split]]].
    + intros r ct image Hf Hok Hct Hs Hr. exfalso. by apply (Hno r ct image).
    + intros image Hin. rewrite Hnone in Hin. by apply not_elem_of_nil in Hin.
    + discriminate.
    + intros message [= <-]. split; [apply startsWith_app | exact Hnone].
    + replace (ImageUploader.OnSetError None :: ImageUploader.SetIsUrlLoading true
               :: trace ++ [ImageUploader.ConsoleError; ImageUploader.SetIsUrlLoading false])
        with ((ImageUploader.OnSetError None :: ImageUploader.SetIsUrlLoading true
               :: trace ++ [ImageUploader.ConsoleError])
              ++ [ImageUploader.SetIsUrlLoading false])
        by (by rewrite <- !app_comm_cons, <- app_assoc).
      apply last_snoc.
Qed.

Lemma handlePaste_cases (imagePreview : option jsstring)
    (isLoading' isProcessingPaste isUrlLoading : bool)
    (event : ImageUploader.ClipboardEvent File) :
  (ImageUploader.handlePaste File readAsDataURL URL toLowerCase fetch imagePreview
     isLoading' isProcessingPaste isUrlLoading event).2 = inl tt
  ∧ (JS.truthy_opt imagePreview = false →
     ImageUploader.currentLoading isLoading' isProcessingPaste isUrlLoading = true →
     (ImageUploader.handlePaste File readAsDataURL URL toLowerCase fetch imagePreview
        isLoading' isProcessingPaste isUrlLoading event).1
     = [ImageUploader.OnSetError None; ImageUploader.PreventDefault])
  ∧ (JS.truthy_opt imagePreview = false →
     ImageUploader.currentLoading isLoading' isProcessingPaste isUrlLoading = false →
     ∃ mid,
       (ImageUploader.handlePaste File readAsDataURL URL toLowerCase fetch imagePreview
          isLoading' isProcessingPaste isUrlLoading event).1
       = [ImageUploader.OnSetError None; ImageUploader.PreventDefault;
          ImageUploader.SetIsProcessingPaste true]
         ++ mid ++ [ImageUploader.SetIsProcessingPaste false]
       ∧ (∀ file image,
            ImageUploader.imageFileItem File event = Some (Some file) →
            readAsDataURL file = ImageUploader.LoadedString image →
            ImageUploader.uploads mid = [image])
       ∧ (ImageUploader.imageFileItem File event = None →
          JS.truthy (ImageUploader.clipboardText File event)
          && ImageUploader.isValidImageUrl URL toLowerCase
               (ImageUploader.clipboardText File event) = false →
          mid = [ImageUploader.OnSetError
                   (Some (JS.lit "剪貼簿中沒有偵測到圖片檔案或有效圖片URL。"))])).
Proof.
  unfold ImageUploader.handlePaste.
  destruct (JS.truthy_opt imagePreview) eqn:Ep.
  { rewrite orb_true_r. split; [reflexivity|]. split; intros [=]. }
  rewrite orb_false_r.
  destruct (ImageUploader.currentLoading isLoading' isProcessingPaste isUrlLoading) eqn:El.
  { split; [reflexivity|]. split; [done|intros _ [=]]. }
  destruct event as [text [[file|]|]]; cbn [ImageUploader.imageFileItem
    ImageUploader.clipboardText].
  - destruct (processFile_cases file) as [(image & Hr & ->)|(message & Hno & ->)].
    + split; [reflexivity|]. split; [intros _ [=]|]. intros _ _.
      eexists [_; _]. split; [reflexivity|]. split; [|discriminate].
      intros file' image' [= <-] Hr'. rewrite Hr in Hr'. by injection Hr' as <-.
    + split; [reflexivity|]. split; [intros _ [=]|]. intros _ _.
      eexists [_; _]. split; [reflexivity|]. split; [|discriminate].
      intros file' image' [= <-] Hr'. by apply Hno in Hr'.
  - split; [reflexivity|]. split; [intros _ [=]|]. intros _ _.
    eexists [_]. split; [reflexivity|]. split; discriminate.
  - destruct (JS.truthy text && ImageUploader.isValidImageUrl URL toLowerCase text) eqn:Ev.
    + destruct (fetch_cases text)
        as [(image & r & ct & Hf & Hok & Hct & Hs & Hr & ->)
           |(trace & inner & Hno & Hup & ->)].
      * split; [reflexivity|]. split; [intros _ [=]|]. intros _ _.
        eexists. split; [reflexivity|]. split; discriminate.
      * split; [reflexivity|]. split; [intros _ [=]|]. intros _ _.
        eexists (_ :: _ :: (_ ++ _) ++ [_]). split; [cbn; reflexivity|].
        split; discriminate.
    + split; [reflexivity|]. split; [intros _ [=]|]. intros _ _.
      eexists [_]. split; [reflexivity|]. split; [discriminate|]. done.
Qed.
(** X16.  A paste never ends with an error thrown to the caller.  It hands
    an image to the session only when the session holds no image and
    nothing is loading; when something is loading and no image is held, the
    paste only clears the error. *)
Theorem X16_paste_gate (imagePreview : option jsstring)
    (isLoading' isProcessingPaste isUrlLoading : bool)
    (event : ImageUploader.ClipboardEvent File) :
  (ImageUploader.handlePaste File readAsDataURL URL toLowerCase fetch imagePreview
     isLoading' isProcessingPaste isUrlLoading event).2 = inl tt
  ∧ (ImageUploader.uploads
       (ImageUploader.handlePaste File readAsDataURL URL toLowerCase fetch imagePreview
          isLoading' isProcessingPaste isUrlLoading event).1 ≠ [] →
     JS.truthy_opt imagePreview = false
     ∧ ImageUploader.currentLoading isLoading' isProcessingPaste isUrlLoading = false)
  ∧ (JS.truthy_opt imagePreview = false →
     ImageUploader.currentLoading isLoading' isProcessingPaste isUrlLoading = true →
     (ImageUploader.handlePaste File readAsDataURL URL toLowerCase fetch imagePreview
        isLoading' isProcessingPaste isUrlLoading event).1
     = [ImageUploader.OnSetError None; ImageUploader.PreventDefault]).
Proof.
  destruct (handlePaste_cases imagePreview isLoading' isProcessingPaste isUrlLoading event)
    as (Hnormal & Hloading & _).
  split; [exact Hnormal|]. split; [|exact Hloading].
  intros Hup. destruct (JS.truthy_opt imagePreview) eqn:Ep.
  - exfalso. apply Hup. unfold ImageUploader.handlePaste.
    rewrite Ep, orb_true_r. reflexivity.
  - split; [done|].
    destruct (ImageUploader.currentLoading isLoading' isProcessingPaste isUrlLoading)
      eqn:El; [|done].
    exfalso. apply Hup. by rewrite Hloading.
Qed.

(** X17.  A paste into a session that holds no image, with nothing loading,
    sets the processing flag first and clears it last.  In between, an image
    file of the clipboard that reads as a string is handed over, alone; with
    no image file and no valid image URL in the clipboard, only the error
    message that nothing was found is set. *)
Theorem X17_paste_proceeds (imagePreview : option jsstring)
    (isLoading' isProcessingPaste isUrlLoading : bool)
    (event : ImageUploader.ClipboardEvent File) :
  JS.truthy_opt imagePreview = false →
  ImageUploader.currentLoading isLoading' isProcessingPaste isUrlLoading = false →
  ∃ mid,
    (ImageUploader.handlePaste File readAsDataURL URL toLowerCase fetch imagePreview
       isLoading' isProcessingPaste isUrlLoading event).1
    = [ImageUploader.OnSetError None; ImageUploader.PreventDefault;
       ImageUploader.SetIsProcessingPaste true]
      ++ mid ++ [ImageUploader.SetIsProcessingPaste false]
    ∧ (∀ file image,
         ImageUploader.imageFileItem File event = Some (Some file) →
         readAsDataURL file = ImageUploader.LoadedString image →
         ImageUploader.uploads mid = [image])
    ∧ (ImageUploader.imageFileItem File event = None →
       JS.truthy (ImageUploader.clipboardText File event)
       && ImageUploader.isValidImageUrl URL toLowerCase
            (ImageUploader.clipboardText File event) = false →
       mid = [ImageUploader.OnSetError (Some nothingToPaste)]).
Proof.
  intros Hp Hl.
  destruct (handlePaste_cases imagePreview isLoading' isProcessingPaste isUrlLoading event)
    as (_ & _ & H).
  exact (H Hp Hl).
Qed.

Lemma handleUrlLoadClick_cases (isLoading' isProcessingPaste isUrlLoading : bool)
    (urlInput : jsstring) :
  (ImageUploader.handleUrlLoadClick File readAsDataURL URL toLowerCase fetch
     isLoading' isProcessingPaste isUrlLoading urlInput).2 = inl tt
  ∧ (blank urlInput = true →
     (ImageUploader.handleUrlLoadClick File readAsDataURL URL toLowerCase fetch
        isLoading' isProcessingPaste isUrlLoading urlInput).1
     = [ImageUploader.OnSetError (Some enterUrl)])
  ∧ (blank urlInput = false →
     ImageUploader.isValidImageUrl URL toLowerCase (JS.trim urlInput) = false →
     (ImageUploader.handleUrlLoadClick File readAsDataURL URL toLowerCase fetch
        isLoading' isProcessingPaste isUrlLoading urlInput).1
     = [ImageUploader.OnSetError (Some invalidUrl)])
  ∧ (blank urlInput = false →
     ImageUploader.isValidImageUrl URL toLowerCase (JS.trim urlInput) = true →
     ImageUploader.currentLoading isLoading' isProcessingPaste isUrlLoading = true →
     (ImageUploader.handleUrlLoadClick File readAsDataURL URL toLowerCase fetch
        isLoading' isProcessingPaste isUrlLoading urlInput).1 = []).
Proof.
  unfold ImageUploader.handleUrlLoadClick, enterUrl, invalidUrl.
  destruct (blank urlInput) eqn:Eb.
  { rewrite (trim_blank _ Eb). cbn [JS.truthy negb].
    split; [reflexivity|]. split; [done|]. split; intros [=]. }
  rewrite (trim_truthy _ Eb). cbn [negb].
  destruct (ImageUploader.isValidImageUrl URL toLowerCase (JS.trim urlInput)) eqn:Ev;
    cbn [negb].
  2:{ split; [reflexivity|]. split; [intros [=]|]. split; [done|]. intros _ [=]. }
  destruct (ImageUploader.currentLoading isLoading' isProcessingPaste isUrlLoading) eqn:El.
  { split; [reflexivity|]. split; [intros [=]|]. split; [intros _ [=]|]. done. }
  destruct (fetch_cases (JS.trim urlInput))
    as [(image & r & ct & Hf & Hok & Hct & Hs & Hr & ->)
       |(trace & inner & Hno & Hup & ->)];
    (split; [reflexivity|]); (split; [intros [=]|]); (split; [intros _ [=]|]);
    intros _ _ [=].
Qed.

(** X18.  The load action of the URL box never ends with an error thrown to
    the caller.  With a blank text it only sets the message to enter a URL;
    with a text that is not a valid image URL it only sets the message that
    the format is invalid; and it hands an image to the session only when
    the trimmed text is a valid image URL and nothing is loading. *)
Theorem X18_url_load_gate (isLoading' isProcessingPaste isUrlLoading : bool)
    (urlInput : jsstring) :
  (ImageUploader.handleUrlLoadClick File readAsDataURL URL toLowerCase fetch
     isLoading' isProcessingPaste isUrlLoading urlInput).2 = inl tt
  ∧ (blank urlInput = true →
     (ImageUploader.handleUrlLoadClick File readAsDataURL URL toLowerCase fetch
        isLoading' isProcessingPaste isUrlLoading urlInput).1
     = [ImageUploader.OnSetError (Some enterUrl)])
  ∧ (blank urlInput = false →
     ImageUploader.isValidImageUrl URL toLowerCase (JS.trim urlInput) = false →
     (ImageUploader.handleUrlLoadClick File readAsDataURL URL toLowerCase fetch
        isLoading' isProcessingPaste isUrlLoading urlInput).1
     = [ImageUploader.OnSetError (Some invalidUrl)])
  ∧ (ImageUploader.uploads
       (ImageUploader.handleUrlLoadClick File readAsDataURL URL toLowerCase fetch
          isLoading' isProcessingPaste isUrlLoading urlInput).1 ≠ [] →
     blank urlInput = false
     ∧ ImageUploader.isValidImageUrl URL toLowerCase (JS.trim urlInput) = true
     ∧ ImageUploader.currentLoading isLoading' isProcessingPaste isUrlLoading = false).
Proof.
  destruct (handleUrlLoadClick_cases isLoading' isProcessingPaste isUrlLoading urlInput)
    as (Hn & Hb & Hi & Hl).
  split; [exact Hn|]. split; [exact Hb|]. split; [exact Hi|].
  intros Hup. destruct (blank urlInput) eqn:Eb.
  { exfalso. apply Hup. by rewrite Hb. }
  destruct (ImageUploader.isValidImageUrl URL toLowerCase (JS.trim urlInput)) eqn:Ev.
  2:{ exfalso. apply Hup. by rewrite Hi. }
  destruct (ImageUploader.currentLoading isLoading' isProcessingPaste isUrlLoading) eqn:El;
    [|done].
  exfalso. apply Hup. by rewrite Hl.
Qed.

End Intake.

Section IntakeWitness.

Lemma X15_fetch_accepts_images_only_witness :
  ImageUploader.uploads
    (ImageUploader.fetchImageFromUrl unit readsAll fetchesPng (JS.lit "u")).1
  = [JS.lit "data:image/png;base64,CCCC"]
  ∧ (ImageUploader.fetchImageFromUrl unit readsAll fetchesPng (JS.lit "u")).2 = inl tt
  ∧ ImageUploader.uploads
      (ImageUploader.fetchImageFromUrl unit readsAll fetchesNone (JS.lit "u")).1 = [].
Proof.
  destruct (X15_fetch_accepts_images_only unit readsAll fetchesPng (JS.lit "u"))
    as (Hpng & _).
  destruct (X15_fetch_accepts_images_only unit readsAll fetchesNone (JS.lit "u"))
    as (_ & _ & _ & Hnone & _).
  split; [|split].
  - eapply Hpng; [reflexivity | reflexivity | reflexivity | vm_compute; reflexivity
                 | reflexivity].
  - eapply Hpng; [reflexivity | reflexivity | reflexivity | vm_compute; reflexivity
                 | reflexivity].
  - eapply Hnone. vm_compute. reflexivity.
Defined.

Lemma X16_paste_gate_witness :
  (ImageUploader.handlePaste unit readsAll parsesNone (λ s, s) fetchesNone None
     true false false
     {| ImageUploader.clipboardText := []; ImageUploader.imageFileItem := Some (Some tt) |}).1
  = [ImageUploader.OnSetError None; ImageUploader.PreventDefault].
Proof.
  destruct (X16_paste_gate unit readsAll parsesNone (λ s, s) fetchesNone None
              true false false
              {| ImageUploader.clipboardText := [];
                 ImageUploader.imageFileItem := Some (Some tt) |}) as (_ & _ & H).
  apply H; reflexivity.
Defined.

Lemma X17_paste_proceeds_witness :
  ∃ mid,
    (ImageUploader.handlePaste unit readsAll parsesNone (λ s, s) fetchesNone None
       false false false
       {| ImageUploader.clipboardText := [];
          ImageUploader.imageFileItem := Some (Some tt) |}).1
    = [ImageUploader.OnSetError None; ImageUploader.PreventDefault;
       ImageUploader.SetIsProcessingPaste true]
      ++ mid ++ [ImageUploader.SetIsProcessingPaste false]
    ∧ ImageUploader.uploads mid = [JS.lit "data:image/png;base64,CCCC"].
Proof.
  destruct (X17_paste_proceeds unit readsAll parsesNone (λ s, s) fetchesNone None
              false false false
              {| ImageUploader.clipboardText := [];
                 ImageUploader.imageFileItem := Some (Some tt) |} eq_refl eq_refl)
    as (mid & Hmid & Hfile & _).
  exists mid. split; [exact Hmid|]. by apply (Hfile tt).
Defined.

Lemma X18_url_load_gate_witness :
  (ImageUploader.handleUrlLoadClick unit readsAll parsesNone (λ s, s) fetchesNone
     false false false (JS.lit "  ")).1
  = [ImageUploader.OnSetError (Some enterUrl)]
  ∧ (ImageUploader.handleUrlLoadClick unit readsAll parsesNone (λ s, s) fetchesNone
       false false false (JS.lit " http://x/a.txt ")).1
    = [ImageUploader.OnSetError (Some invalidUrl)].
Proof.
  destruct (X18_url_load_gate unit readsAll parsesNone (λ s, s) fetchesNone
              false false false (JS.lit "  ")) as (_ & H1 & _).
  destruct (X18_url_load_gate unit readsAll parsesNone (λ s, s) fetchesNone
              false false false (JS.lit " http://x/a.txt ")) as (_ & _ & H2 & _).
  split; [apply H1 | apply H2]; vm_compute; reflexivity.
Defined.

End IntakeWitness.

(** ** The image URL pattern *)

Section Pattern.

Lemma extension_here (ext : string) :
  ext ∈ imageExtensions → ImageUploader.imagePatternHere (JS.lit "." ++ JS.lit ext) = true.
Proof.
  unfold imageExtensions. rewrite !elem_of_cons, elem_of_nil.
  intros [->|[->|[->|[->|[->|[->|[->|[]]]]]]]]; vm_compute; reflexivity.
Qed.

Lemma patternTest_here (s : jsstring) :
  ImageUploader.imagePatternHere s = true → ImageUploader.imagePatternTest s = true.
Proof. intros H. destruct s; cbn [ImageUploader.imagePatternTest]; by rewrite H. Qed.

Lemma patternHere_dot (s : jsstring) :
  ImageUploader.imagePatternHere s = true → ∃ rest, s = 0x2E :: rest.
Proof.
  unfold ImageUploader.imagePatternHere. intros (ext & _ & H)%existsb_exists.
  apply andb_true_iff in H as [H _]. unfold ImageUploader.startsWith in H.
  apply bool_decide_eq_true in H.
  assert (JS.lit "." = [0x2E]) as Hdot by (vm_compute; reflexivity).
  rewrite Hdot in H. cbn [app length] in H.
  destruct s as [|c rest]; [discriminate H|]. cbn [take] in H.
  injection H as -> _. by exists rest.
Qed.

(** X19.  A path that ends with a dot and one of the seven image extensions
    passes the pattern of the URL check, whatever comes before; a path that
    passes has a dot; and a text is a valid image URL only if it parses as a
    URL with a non-empty host name and a lower-cased path that has a dot. *)
Theorem X19_image_url_pattern :
  (∀ (before : jsstring) (ext : string),
     ext ∈ imageExtensions →
     ImageUploader.imagePatternTest (before ++ JS.lit "." ++ JS.lit ext) = true)
  ∧ (∀ s : jsstring, ImageUploader.imagePatternTest s = true → 0x2E ∈ s)
  ∧ (∀ (URL : jsstring → option (jsstring * jsstring)) (toLowerCase : jsstring → jsstring)
       (text : jsstring),
       ImageUploader.isValidImageUrl URL toLowerCase text = true →
       ∃ pathname hostname,
         URL text = Some (pathname, hostname) ∧ hostname ≠ []
         ∧ 0x2E ∈ toLowerCase pathname).
Proof.
  assert (∀ s : jsstring, ImageUploader.imagePatternTest s = true → 0x2E ∈ s) as Hdot.
  { induction s as [|c s IH].
    - cbn [ImageUploader.imagePatternTest]. rewrite orb_false_r.
      intros (rest & H)%patternHere_dot. discriminate H.
    - cbn [ImageUploader.imagePatternTest].
      intros [(rest & H)%patternHere_dot|H]%orb_true_iff.
      + injection H as -> _. apply list_elem_of_here.
      + apply list_elem_of_further. by apply IH. }
  split; [|split; [exact Hdot|]].
  - intros before ext Hext. induction before as [|c before IH].
    + apply patternTest_here. by apply extension_here.
    + rewrite <- app_comm_cons. cbn [ImageUploader.imagePatternTest].
      rewrite IH. apply orb_true_r.
  - intros URL toLowerCase text. unfold ImageUploader.isValidImageUrl.
    destruct (URL text) as [[pathname hostname]|]; [|discriminate].
    intros [Hp Hh]%andb_true_iff. exists pathname, hostname.
    split; [done|]. split; [|by apply Hdot].
    apply bool_decide_eq_true in Hh. intros ->. simpl in Hh. lia.
Qed.

Lemma X19_image_url_pattern_witness :
  ImageUploader.imagePatternTest (JS.lit "/photos/cat" ++ JS.lit "." ++ JS.lit "webp") = true
  ∧ 0x2E ∈ JS.lit "/a.png?x"
  ∧ ∃ pathname hostname,
      parsesAll (JS.lit "http://example.org/a.png") = Some (pathname, hostname)
      ∧ hostname ≠ [] ∧ 0x2E ∈ pathname.
Proof.
  destruct X19_image_url_pattern as (H1 & H2 & H3). split; [|split].
  - apply H1. unfold imageExtensions.
    do 4 (apply elem_of_cons; right). apply elem_of_cons. left. reflexivity.
  - apply H2. vm_compute. reflexivity.
  - apply (H3 parsesAll (λ s, s)). vm_compute. reflexivity.
Defined.

End Pattern.

(** ** The cropping tool *)

Section Cropper.

Import App.

Variable number : Type.
Variable isZero : number → bool.
Variable zero : number.
Variable getCroppedImg :
  jsstring → ImageCropperModal.Area number → number → jsstring + option jsstring.

(** X20.  Confirming a crop with no selected area, with an area of zero
    width or height, or with no source image, only sets the message to
    select an area: no image is cropped or handed over, the tool stays open,
    and the session keeps its image and analysis result. *)
Theorem X20_crop_needs_selection (imageSrc : jsstring)
    (croppedAreaPixels : option (ImageCropperModal.Area number))
    (st : State) (tabId : jsstring) (i : nat) (tab : Tab) :
  sessionAt st i tabId tab →
  croppedAreaPixels = None ∨ imageSrc = []
  ∨ (∃ area, croppedAreaPixels = Some area
             ∧ (isZero (ImageCropperModal.width number area) = true
                ∨ isZero (ImageCropperModal.height number area) = true)) →
  ImageCropperModal.handleCropClick number isZero zero getCroppedImg imageSrc
    croppedAreaPixels
  = [ImageCropperModal.OnSetError (Some selectArea)]
  ∧ cropperShown
      (ImageCropperModal.handleCropClick number isZero zero getCroppedImg imageSrc
         croppedAreaPixels) = []
  ∧ tabs (ImageCropperModal.commits tabId
            (ImageCropperModal.handleCropClick number isZero zero getCroppedImg imageSrc
               croppedAreaPixels) st) !! i
    = Some (withContent tab (withError (contentState tab) (Some selectArea))).
Proof.
  intros Hs Hbad.
  assert (ImageCropperModal.handleCropClick number isZero zero getCroppedImg imageSrc
            croppedAreaPixels
          = [ImageCropperModal.OnSetError (Some selectArea)]) as ->.
  { unfold ImageCropperModal.handleCropClick, selectArea.
    destruct croppedAreaPixels as [area|]; [|done].
    destruct Hbad as [[=]|[->|(area' & [= <-] & [Hz|Hz])]].
    - reflexivity.
    - rewrite Hz, orb_true_r. reflexivity.
    - rewrite Hz, orb_true_r. reflexivity. }
  split; [done|]. split; [reflexivity|].
  unfold ImageCropperModal.commits, TabContent.commits.
  cbn [mbind list_bind ImageCropperModal.toUploader ImageUploader.toPanel app foldl
       TabContent.handleSetError].
  by rewrite (commit_change_at _ _ _ _ _ Hs).
Qed.

(** X21.  Confirming a crop with a selected area of non-zero size and a
    source image crops once.  On success the tool closes and the session
    holds the cropped image, no analysis result and no error; on failure the
    tool stays open and the session keeps its image and result and gets the
    crop-failure message, with a fixed text when the failure has no
    message. *)
Theorem X21_crop_outcome (imageSrc : jsstring) (area : ImageCropperModal.Area number)
    (st : State) (tabId : jsstring) (i : nat) (tab : Tab) :
  sessionAt st i tabId tab →
  JS.truthy imageSrc = true →
  isZero (ImageCropperModal.width number area) = false →
  isZero (ImageCropperModal.height number area) = false →
  tabs (ImageCropperModal.commits tabId
          (ImageCropperModal.handleCropClick number isZero zero getCroppedImg imageSrc
             (Some area)) st) !! i
  = Some (withContent tab (cropped (contentState tab) (getCroppedImg imageSrc area zero)))
  ∧ cropperShown
      (ImageCropperModal.handleCropClick number isZero zero getCroppedImg imageSrc
         (Some area))
    = match getCroppedImg imageSrc area zero with
      | inl _ => [false; false]
      | inr _ => []
      end.
Proof.
  intros Hs Hsrc Hw Hh. unfold ImageCropperModal.handleCropClick.
  rewrite Hsrc, Hw, Hh. cbn [negb orb].
  destruct (getCroppedImg imageSrc area zero) as [croppedImage|message];
    (split; [|reflexivity]);
    unfold ImageCropperModal.commits, TabContent.commits, cropped, cropFailed, unknownError;
    cbn [mbind list_bind ImageCropperModal.toUploader ImageUploader.toPanel app foldl
         TabContent.handleSetError TabContent.handleImageUpload
         ImageUploader.handleCropComplete ImageUploader.handleCropperClose
         ImageUploader.emit ImageUploader.bind ImageUploader.M_bind fst snd].
  - pose proof (commit_change_session _ _ (Partial.with_error None) _ _ Hs) as H1.
    pose proof (commit_change_session _ _
      {| Partial.uploadedImage := Some (Some croppedImage);
         Partial.selectedOptions := None; Partial.rawAnalysisResult := Some None;
         Partial.isLoading := None; Partial.error := Some None;
         Partial.otherAnalysisText := None |} _ _ H1) as H2.
    rewrite (commit_change_at _ _ (Partial.with_error None) _ _ H2). reflexivity.
  - pose proof (commit_change_session _ _ (Partial.with_error None) _ _ Hs) as H1.
    rewrite (commit_change_at _ _ _ _ _ H1). reflexivity.
Qed.

End Cropper.

Section CropperWitness.

Import App.

Lemma X20_crop_needs_selection_witness :
  tabs (ImageCropperModal.commits (JS.lit "a")
          (ImageCropperModal.handleCropClick Z (Z.eqb 0) 0%Z cropsAll (JS.lit "data:,")
             (Some {| ImageCropperModal.x := 0%Z; ImageCropperModal.y := 0%Z;
                      ImageCropperModal.width := 10%Z;
                      ImageCropperModal.height := 0%Z |}))
          busyStore) !! 0%nat
  = Some (withContent busySession (withError (contentState busySession) (Some selectArea))).
Proof.
  destruct (X20_crop_needs_selection Z (Z.eqb 0) 0%Z cropsAll (JS.lit "data:,")
              (Some {| ImageCropperModal.x := 0%Z; ImageCropperModal.y := 0%Z;
                       ImageCropperModal.width := 10%Z;
                       ImageCropperModal.height := 0%Z |})
              busyStore (JS.lit "a") 0 busySession busySession_there) as (_ & _ & H).
  - right. right. eexists. split; [reflexivity|]. right. reflexivity.
  - exact H.
Defined.

Lemma X21_crop_outcome_witness :
  tabs (ImageCropperModal.commits (JS.lit "a")
          (ImageCropperModal.handleCropClick Z (Z.eqb 0) 0%Z cropsAll (JS.lit "data:,")
             (Some someArea)) busyStore) !! 0%nat
  = Some (withContent busySession
            (withImageCleared (contentState busySession)
               (Some (JS.lit "data:image/jpeg;base64,DDDD")))).
Proof.
  destruct (X21_crop_outcome Z (Z.eqb 0) 0%Z cropsAll (JS.lit "data:,") someArea
              busyStore (JS.lit "a") 0 busySession busySession_there
              eq_refl eq_refl eq_refl) as [H _].
  exact H.
Defined.

End CropperWitness.

(** ** Tab names *)

Section Names.

Import App.

Lemma newTab_name_not_blank (st : State) (uniqueId : jsstring) :
  blank (name (newTabFor st uniqueId)) = false.
Proof.
  unfold newTabFor, createNewTab. cbn [name].
  assert (JS.lit "頁籤 " = [0x9801; 0x7C64; 0x20]) as -> by (vm_compute; reflexivity).
  reflexivity.
Qed.

Lemma trim_not_blank (s : jsstring) : JS.truthy (JS.trim s) = true → blank (JS.trim s) = false.
Proof.
  intros Ht. pose proof (trim_is_trimmed s) as Htr.
  destruct (JS.trim s) as [|c u]; [discriminate|].
  apply andb_true_iff in Htr as [Hc _]. cbn [startsClean] in Hc.
  apply negb_true_iff in Hc. cbn [blank forallb]. by rewrite Hc.
Qed.

Lemma rename_submit_named (st : State) (tabId tabName newTabName : jsstring) :
  DraggableTab.commits (DraggableTab.handleRenameSubmit tabId tabName newTabName) st = st
  ∨ (JS.truthy (JS.trim newTabName) = true
     ∧ DraggableTab.commits (DraggableTab.handleRenameSubmit tabId tabName newTabName) st
       = rename tabId (JS.trim newTabName) st).
Proof.
  unfold DraggableTab.handleRenameSubmit.
  destruct (JS.truthy (JS.trim newTabName)) eqn:Et; [|by left].
  destruct (bool_decide (newTabName ≠ tabName)); [right | left]; done.
Qed.

Lemma ui_step_names (st st' : State) (ev : Ui.Event) :
  Forall (λ tab, blank (name tab) = false) (tabs st) →
  Ui.step st ev = Some st' →
  Forall (λ tab, blank (name tab) = false) (tabs st').
Proof.
  intros Hall Hstep.
  destruct ev as [u|i|d' i u|i newTabName|d i|tabId p]; cbn [Ui.step] in Hstep.
  - injection Hstep as <-. change (tabs (step st (Create u))) with
      (tabs st ++ [newTabFor st u]).
    apply Forall_app. split; [done|]. apply Forall_singleton, newTab_name_not_blank.
  - destruct (tabs st !! i) as [tab|]; injection Hstep as <-; exact Hall.
  - destruct (tabs st !! i) as [tab|]; injection Hstep as <-; [|exact Hall].
    change (Forall (λ tab0, blank (name tab0) = false)
              (tabs (step st (Delete d' (id tab) u)))).
    rewrite step_delete.
    destruct (remaining (id tab) (tabs st)) as [|first rest] eqn:E; cbn [tabs].
    + destruct d'; [|apply Forall_nil_2]. apply Forall_singleton, newTab_name_not_blank.
    + rewrite <- E. rewrite Forall_forall in Hall |- *.
      intros t [_ Ht]%list_elem_of_filter. by apply Hall.
  - destruct (tabs st !! i) as [tab|]; injection Hstep as <-; [|exact Hall].
    destruct (rename_submit_named st (id tab) (name tab) newTabName) as [->|[Ht ->]];
      [done|].
    rewrite rename_tabs. cbn [tabs]. apply Forall_fmap.
    eapply Forall_impl; [exact Hall|]. intros t Hb. cbn.
    destruct (decide (id t = id tab)); [|done]. cbn [name]. by apply trim_not_blank.
  - destruct (tabs st !! i) as [tab|] eqn:Hi; [|by injection Hstep as <-].
    destruct (drop_step st d i tab Hi) as (ts & Hd & Hperm).
    cbn [Ui.step] in Hd. rewrite Hi in Hd. rewrite Hd in Hstep. injection Hstep as <-.
    cbn [tabs]. by rewrite Hperm.
  - injection Hstep as <-.
    change (tabs (flush (Plain <$> onTabContentStateChange tabId p) st))
      with ((λ tab, if decide (id tab = tabId)
                    then {| id := id tab; name := name tab;
                            contentState := merge (contentState tab) p |}
                    else tab) <$> tabs st).
    apply Forall_fmap. eapply Forall_impl; [exact Hall|]. intros t Hb. cbn.
    by destruct (decide (id t = tabId)).
Qed.

(** X22.  From the mounted application, after every sequence of events of
    the interface no session has a blank name: a new session is named with
    the tab label and a number, and a rename reaches the store only with a
    trimmed, non-empty name. *)
Theorem X22_names_never_blank (uniqueId : jsstring) (events : list Ui.Event) (st : State) :
  Ui.run events (mount uniqueId) = Some st →
  ∀ tab, tab ∈ tabs st → blank (name tab) = false.
Proof.
  intros Hrun.
  assert (∀ events st0 st1,
            Forall (λ tab, blank (name tab) = false) (tabs st0) →
            Ui.run events st0 = Some st1 →
            Forall (λ tab, blank (name tab) = false) (tabs st1)) as Hall.
  { clear. induction events as [|ev events IH]; intros st0 st1 H0 Hr; cbn [Ui.run] in Hr.
    - by injection Hr as <-.
    - destruct (Ui.step st0 ev) as [st'|] eqn:Es; [|discriminate].
      cbn in Hr. eapply IH; [|exact Hr]. by eapply ui_step_names. }
  intros tab Hin.
  assert (Forall (λ tab, blank (name tab) = false) (tabs st)) as H.
  { apply (Hall events (mount uniqueId) st); [|done].
    rewrite mount_tabs. cbn [tabs]. apply Forall_singleton, newTab_name_not_blank. }
  rewrite Forall_forall in H. by apply H.
Qed.

Lemma X22_names_never_blank_witness :
  blank (JS.lit "頁籤 1") = false
  ∧ Ui.run [Ui.SubmitRename 0 (JS.lit "  "); Ui.SubmitRename 0 (JS.lit " x ")]
      (mount (JS.lit "a"))
    = Some {| tabs := [createNewTab (JS.lit "x") None (JS.lit "a")];
              activeTabId := JS.lit "a" |}
  ∧ blank (JS.lit "x") = false.
Proof.
  assert (Ui.run [Ui.SubmitRename 0 (JS.lit "  "); Ui.SubmitRename 0 (JS.lit " x ")]
            (mount (JS.lit "a"))
          = Some {| tabs := [createNewTab (JS.lit "x") None (JS.lit "a")];
                    activeTabId := JS.lit "a" |}) as Hrun
    by (vm_compute; reflexivity).
  split; [|split; [exact Hrun|]].
  - apply (X22_names_never_blank (JS.lit "a") [] (mount (JS.lit "a")) eq_refl
             (newTabFor init (JS.lit "a"))).
    apply list_elem_of_here.
  - apply (X22_names_never_blank (JS.lit "a") _ _ Hrun
             (createNewTab (JS.lit "x") None (JS.lit "a"))).
    apply list_elem_of_here.
Defined.

End Names.

(** ** Reordering outside the list *)

Section ReorderOutside.

Import App.

Lemma omap_slots (l : list Tab) : omap (λ slot : option Tab, slot) (Some <$> l) = l.
Proof.
  induction l as [|t l IH]; [done|].
  rewrite fmap_cons. cbn [omap list_omap]. by rewrite IH.
Qed.

(** X23.  The store's reorder does not check its indices: with a start
    index at or past the end nothing is removed and an empty slot is
    inserted at the clamped target index, so the list grows by one while all
    sessions stay, in their order.  (The tab strip never passes such an
    index.) *)
Theorem X23_reorder_outside (prevTabs : list Tab) (startIndex endIndex : Z) :
  (Z.of_nat (length prevTabs) ≤ startIndex)%Z →
  reorderTabs startIndex endIndex prevTabs
  = take (spliceStart endIndex (length prevTabs)) (Some <$> prevTabs)
    ++ None :: drop (spliceStart endIndex (length prevTabs)) (Some <$> prevTabs)
  ∧ length (reorderTabs startIndex endIndex prevTabs) = S (length prevTabs)
  ∧ None ∈ reorderTabs startIndex endIndex prevTabs
  ∧ omap (λ slot : option Tab, slot) (reorderTabs startIndex endIndex prevTabs) = prevTabs.
Proof.
  intros Hs.
  assert (reorderTabs startIndex endIndex prevTabs
          = take (spliceStart endIndex (length prevTabs)) (Some <$> prevTabs)
            ++ None :: drop (spliceStart endIndex (length prevTabs)) (Some <$> prevTabs))
    as ->.
  { unfold reorderTabs, splice. cbn [fst snd]. rewrite length_fmap.
    assert (spliceStart startIndex (length prevTabs) = length prevTabs) as ->.
    { unfold spliceStart. destruct (Z.ltb_spec startIndex 0); lia. }
    rewrite Nat.sub_diag, Nat.min_0_r, Nat.add_0_r.
    rewrite (drop_ge (Some <$> prevTabs) (length prevTabs))
      by (rewrite length_fmap; lia).
    rewrite (take_ge (Some <$> prevTabs) (length prevTabs))
      by (rewrite length_fmap; lia).
    cbn [take app lookup list_lookup default from_option].
    rewrite !app_nil_r, length_fmap, Nat.min_0_l, Nat.add_0_r. reflexivity. }
  split; [done|]. split; [|split].
  - rewrite List.length_app. cbn [length]. rewrite Nat.add_succ_r.
    rewrite <- List.length_app, take_drop, length_fmap. done.
  - apply elem_of_app. right. apply list_elem_of_here.
  - rewrite omap_app. cbn [omap list_omap]. rewrite <- omap_app, take_drop.
    apply omap_slots.
Qed.

Lemma X23_reorder_outside_witness :
  reorderTabs 3 0 [busySession; readySession] = [None; Some busySession; Some readySession].
Proof.
  destruct (X23_reorder_outside [busySession; readySession] 3 0) as [H _];
    [simpl; lia|].
  rewrite H. reflexivity.
Defined.

End ReorderOutside.
